(** * Scraper_Project: a shallow embedding of the scraping pipeline

    The development follows the three source files:
    - [app.py]: identifier normalisation, the competitor-to-seed map, the
      Search_ASIN annotation and the identifier union of the competitor route;
    - [scraper_products.py]: marketplace resolution, availability extraction,
      the per-identifier fetch loop and the workbook assembly;
    - [scraper_competitor.py]: the start-up checks and the search-and-harvest
      loop of the browser automation.

    Text is modelled as ASCII: a Python [str] is a [string], its characters are
    7-bit code points, [upper]/[lower] act on the letters a-z/A-Z only and the
    whitespace characters are the ASCII ones recognised by [str.split],
    [str.strip] and the regular-expression class [\s].  The one place where
    that would hide what the code does is availability extraction, which
    takes positions found in a lower-cased text and uses them in the text
    itself: there the text is modelled over ASCII and the code points U+0130
    and U+0307 (module [UText]), the first being the code point whose
    lower-case form is two code points.  The network, the HTML parser and the
    browser are outside the program: they appear as oracles whose answers
    the embedded code consumes exactly where the source calls them. *)

From Stdlib Require Import String Ascii List Bool Arith Lia NArith Sorted.
From stdpp Require Import base gmap strings list.

Open Scope string_scope.
Open Scope list_scope.

(** ** Python text primitives *)
Module Py.

Definition chars (s : string) : list ascii := list_ascii_of_string s.
Definition str (l : list ascii) : string := string_of_list_ascii l.

Definition in_range (lo hi c : ascii) : bool :=
  (N_of_ascii lo <=? N_of_ascii c)%N && (N_of_ascii c <=? N_of_ascii hi)%N.

(** [str.isspace] on ASCII: TAB, LF, VT, FF, CR, FS, GS, RS, US and SPACE. *)
Definition is_space (c : ascii) : bool :=
  in_range "009" "013" c || in_range "028" "032" c.

Definition is_digit (c : ascii) : bool := in_range "0" "9" c.
Definition is_upper (c : ascii) : bool := in_range "A" "Z" c.
Definition is_lower (c : ascii) : bool := in_range "a" "z" c.

Definition to_lower (c : ascii) : ascii :=
  if is_upper c then ascii_of_N (N_of_ascii c + 32) else c.
Definition to_upper (c : ascii) : ascii :=
  if is_lower c then ascii_of_N (N_of_ascii c - 32) else c.

Definition lower_l (l : list ascii) : list ascii := to_lower <$> l.
Definition upper_l (l : list ascii) : list ascii := to_upper <$> l.

(** [s.lower()], [s.upper()] *)
Definition lower (s : string) : string := str (lower_l (chars s)).
Definition upper (s : string) : string := str (upper_l (chars s)).

Fixpoint lstrip_by (p : ascii -> bool) (l : list ascii) : list ascii :=
  match l with
  | [] => []
  | c :: l' => if p c then lstrip_by p l' else l
  end.

Definition rstrip_by (p : ascii -> bool) (l : list ascii) : list ascii :=
  rev (lstrip_by p (rev l)).

Definition strip_l (l : list ascii) : list ascii :=
  rstrip_by is_space (lstrip_by is_space l).

(** [s.strip()] *)
Definition strip (s : string) : string := str (strip_l (chars s)).

(** [s.split()] with no separator: the maximal runs of non-whitespace. *)
Fixpoint split_l (l : list ascii) : list (list ascii) :=
  match l with
  | [] => []
  | c :: l' =>
      if is_space c then split_l l'
      else match l' with
           | [] => [[c]]
           | d :: _ =>
               if is_space d then [c] :: split_l l'
               else match split_l l' with
                    | w :: ws => (c :: w) :: ws
                    | [] => [[c]]
                    end
           end
  end.

Definition split (s : string) : list string := str <$> split_l (chars s).

(** A non-empty run of characters without whitespace. *)
Definition is_word (w : list ascii) : bool :=
  match w with
  | [] => false
  | _ :: _ => forallb (fun c => negb (is_space c)) w
  end.

(** [sep.join(parts)] *)
Fixpoint join_l (sep : list ascii) (parts : list (list ascii)) : list ascii :=
  match parts with
  | [] => []
  | [w] => w
  | w :: ws => w ++ sep ++ join_l sep ws
  end.

Definition join (sep : string) (parts : list string) : string :=
  str (join_l (chars sep) (chars <$> parts)).

(** [s.replace(",", " ")] *)
Definition comma_to_space (c : ascii) : ascii :=
  if Ascii.eqb c "," then " "%char else c.
Definition replace_commas (s : string) : string :=
  str (comma_to_space <$> chars s).

(** Empty or whitespace-only *)
Definition blank (s : string) : bool := forallb is_space (chars s).

(** Truthiness of a [str]: the empty string is falsy. *)
Definition truthy (s : string) : bool :=
  match s with EmptyString => false | String _ _ => true end.

(** [x or "N/A"] for an [Optional[str]] *)
Definition or_default (x : option string) (d : string) : string :=
  match x with
  | Some s => if truthy s then s else d
  | None => d
  end.

(** [d.get(k)] for a [dict] literal kept as its ordered key/value list *)
Fixpoint dict_get (d : list (string * string)) (k : string) : option string :=
  match d with
  | [] => None
  | (k', v) :: d' => if String.eqb k k' then Some v else dict_get d' k
  end.

(** [text[i:j]] for [0 <= i <= j] *)
Definition slice (l : list ascii) (i j : nat) : list ascii :=
  take (j - i) (drop i l).

(** The ASCII line boundaries of [str.splitlines]: LF, VT, FF, CR, FS, GS
    and RS. *)
Definition is_linebreak (c : ascii) : bool :=
  in_range "010" "013" c || in_range "028" "030" c.

(** [s.splitlines()]: CR LF is one boundary, and a boundary at the very end
    opens no further line. *)
Fixpoint splitlines_l (l : list ascii) : list (list ascii) :=
  match l with
  | [] => []
  | c :: l' =>
      if is_linebreak c then
        [] :: match l' with
              | d :: l'' =>
                  if Ascii.eqb c "013" && Ascii.eqb d "010" then splitlines_l l''
                  else splitlines_l l'
              | [] => splitlines_l l'
              end
      else match splitlines_l l' with
           | w :: ws => (c :: w) :: ws
           | [] => [[c]]
           end
  end.

Definition splitlines (s : string) : list string := str <$> splitlines_l (chars s).

(** [\w] on ASCII *)
Definition is_word_char (c : ascii) : bool :=
  is_upper c || is_lower c || is_digit c || Ascii.eqb c "_".

End Py.

(** ** A backtracking matcher for the regular expressions of the source

    Only the constructs the embedded patterns use: a character class, a greedy
    repetition [c+] of a class, concatenation and an optional group.
    [matches r l] lists the lengths of the prefixes of [l] that [r] matches,
    in the order in which a backtracking matcher tries them; [re.search]
    returns the first one at the leftmost start position. *)
Module Re.

Inductive re : Type :=
| Eps
| Any (p : ascii -> bool)
| Many1 (p : ascii -> bool)
| Seq (r1 r2 : re)
| Opt (r : re).

Fixpoint span_len (p : ascii -> bool) (l : list ascii) : nat :=
  match l with
  | c :: l' => if p c then S (span_len p l') else 0
  | [] => 0
  end.

Fixpoint matches (r : re) (l : list ascii) : list nat :=
  match r with
  | Eps => [0]
  | Any p => match l with
             | c :: _ => if p c then [1] else []
             | [] => []
             end
  | Many1 p => rev (seq 1 (span_len p l))
  | Seq r1 r2 =>
      n ← matches r1 l; (Nat.add n) <$> matches r2 (drop n l)
  | Opt r => matches r l ++ [0]
  end.

(** [re.search(r, l)]: the span [(start, end)] of the leftmost match. *)
Fixpoint search_from (r : re) (l : list ascii) (i : nat) : option (nat * nat) :=
  match matches r l with
  | n :: _ => Some (i, i + n)
  | [] => match l with
          | [] => None
          | _ :: l' => search_from r l' (S i)
          end
  end.

Definition search (r : re) (l : list ascii) : option (nat * nat) :=
  search_from r l 0.

Definition found (r : re) (l : list ascii) : bool :=
  match search r l with Some _ => true | None => false end.

(** [re.fullmatch(r, l)]: some way of matching consumes the whole text. *)
Definition fullmatch (r : re) (l : list ascii) : bool :=
  bool_decide (length l ∈ matches r l).

(** A literal character, and the same under [re.I]. *)
Definition chr (c : ascii) : re := Any (Ascii.eqb c).
Definition chr_i (c : ascii) : re := Any (fun x => Ascii.eqb (Py.to_lower x) (Py.to_lower c)).

Fixpoint lit_l (mk : ascii -> re) (l : list ascii) : re :=
  match l with
  | [] => Eps
  | c :: l' => Seq (mk c) (lit_l mk l')
  end.

Definition lit (s : string) : re := lit_l chr (Py.chars s).
Definition lit_i (s : string) : re := lit_l chr_i (Py.chars s).

Fixpoint times (n : nat) (r : re) : re :=
  match n with
  | 0 => Eps
  | S n' => Seq r (times n' r)
  end.

(** The words of a pattern. *)
Fixpoint Lang (r : re) (w : list ascii) : Prop :=
  match r with
  | Eps => w = []
  | Any p => ∃ c, w = [c] ∧ p c = true
  | Many1 p => w ≠ [] ∧ forallb p w = true
  | Seq r1 r2 => ∃ w1 w2, w = w1 ++ w2 ∧ Lang r1 w1 ∧ Lang r2 w2
  | Opt r => Lang r w ∨ w = []
  end.

(** Patterns whose classes do not tell a letter from its lower-case form:
    what [re.I] patterns built from [chr_i], [\s] and [\d] are. *)
Fixpoint case_blind (r : re) : Prop :=
  match r with
  | Eps => True
  | Any p | Many1 p => ∀ c, p (Py.to_lower c) = p c
  | Seq r1 r2 => case_blind r1 ∧ case_blind r2
  | Opt r => case_blind r
  end.

End Re.

(** ** Text beyond ASCII

    [str.lower] does not keep the length of every text: the lower-case form
    of U+0130 (capital I with dot above) is the two code points U+0069 and
    U+0307.  Where the source takes positions found in a lower-cased text and
    uses them in the text itself, the text is modelled over ASCII and these
    two code points. *)
Module UText.

Inductive uchar : Type :=
| Chr (a : ascii)
| CapitalIDot
| CombiningDot.

Definition utext : Type := list uchar.

(** An ASCII text as a text. *)
Definition embed (s : string) : utext := Chr <$> Py.chars s.

(** A character class ([\s], [\d], [[.\s]]) on a code point: neither U+0130
    nor U+0307 is whitespace, a digit or a dot. *)
Definition holds (p : ascii -> bool) (c : uchar) : bool :=
  match c with
  | Chr a => p a
  | CapitalIDot | CombiningDot => false
  end.

(** A class of a pattern compiled with [re.I]: the code point is compared
    through its lower case, which for U+0130 is [i]; U+0307 has no case and
    is none of the characters the patterns name. *)
Definition holds_i (p : ascii -> bool) (c : uchar) : bool :=
  match c with
  | Chr a => p a
  | CapitalIDot => p "i"%char
  | CombiningDot => false
  end.

(** [s.lower()] *)
Definition lower_of (c : uchar) : list uchar :=
  match c with
  | Chr a => [Chr (Py.to_lower a)]
  | CapitalIDot => [Chr "i"; CombiningDot]
  | CombiningDot => [CombiningDot]
  end.

Definition ulower (t : utext) : utext := t ≫= lower_of.

Section Sequences.
Context {A : Type}.

Fixpoint ulstrip (p : A -> bool) (l : list A) : list A :=
  match l with
  | [] => []
  | c :: l' => if p c then ulstrip p l' else l
  end.

Definition urstrip (p : A -> bool) (l : list A) : list A :=
  rev (ulstrip p (rev l)).

(** [s.strip()] *)
Definition ustrip (sp : A -> bool) (l : list A) : list A :=
  urstrip sp (ulstrip sp l).

(** [s.split()] *)
Fixpoint usplit (sp : A -> bool) (l : list A) : list (list A) :=
  match l with
  | [] => []
  | c :: l' =>
      if sp c then usplit sp l'
      else match l' with
           | [] => [[c]]
           | d :: _ =>
               if sp d then [c] :: usplit sp l'
               else match usplit sp l' with
                    | w :: ws => (c :: w) :: ws
                    | [] => [[c]]
                    end
           end
  end.

(** [sep.join(parts)] *)
Fixpoint ujoin (sep : list A) (parts : list (list A)) : list A :=
  match parts with
  | [] => []
  | [w] => w
  | w :: ws => w ++ sep ++ ujoin sep ws
  end.

(** [text[i:j]] for [0 <= i <= j]; positions past the end are cut off. *)
Definition uslice (l : list A) (i j : nat) : list A :=
  take (j - i) (drop i l).

(** The matcher of [Re] on texts over [A], given how a class is tested on a
    character. *)
Variable class : (ascii -> bool) -> A -> bool.

Fixpoint uspan_len (p : ascii -> bool) (l : list A) : nat :=
  match l with
  | c :: l' => if class p c then S (uspan_len p l') else 0
  | [] => 0
  end.

Fixpoint umatches (r : Re.re) (l : list A) : list nat :=
  match r with
  | Re.Eps => [0]
  | Re.Any p => match l with
                | c :: _ => if class p c then [1] else []
                | [] => []
                end
  | Re.Many1 p => rev (seq 1 (uspan_len p l))
  | Re.Seq r1 r2 =>
      n ← umatches r1 l; (Nat.add n) <$> umatches r2 (drop n l)
  | Re.Opt r => umatches r l ++ [0]
  end.

Fixpoint usearch_from (r : Re.re) (l : list A) (i : nat) : option (nat * nat) :=
  match umatches r l with
  | n :: _ => Some (i, i + n)
  | [] => match l with
          | [] => None
          | _ :: l' => usearch_from r l' (S i)
          end
  end.

Definition usearch (r : Re.re) (l : list A) : option (nat * nat) :=
  usearch_from r l 0.

Definition ufound (r : Re.re) (l : list A) : bool :=
  match usearch r l with Some _ => true | None => false end.

End Sequences.

End UText.

(** ** Exceptions and state: the effects of the two scrapers *)
Module Eff.

Inductive exn : Type :=
| UnboundLocalError
| ValueError
| RuntimeError
| AttributeError
| TimeoutException
| OtherException.

Inductive result (A : Type) : Type :=
| Ok (a : A)
| Raise (e : exn).
Arguments Ok {A} a.
Arguments Raise {A} e.

(** A computation over a state [S] that returns or raises; the state reached
    when an exception escapes is kept, as in Python. *)
Definition M (S A : Type) : Type := S -> result A * S.

Definition ret {S A} (a : A) : M S A := fun s => (Ok a, s).
Definition raise {S A} (e : exn) : M S A := fun s => (Raise e, s).
Definition bind {S A B} (m : M S A) (k : A -> M S B) : M S B :=
  fun s => match m s with
           | (Ok a, s') => k a s'
           | (Raise e, s') => (Raise e, s')
           end.

(** [try: m  except Exception: h] *)
Definition try_except {S A} (m : M S A) (h : exn -> M S A) : M S A :=
  fun s => match m s with
           | (Ok a, s') => (Ok a, s')
           | (Raise e, s') => h e s'
           end.

(** [try: m  except TimeoutException: h]; anything else propagates. *)
Definition try_timeout {S A} (m : M S A) (h : M S A) : M S A :=
  try_except m (fun e => match e with
                         | TimeoutException => h
                         | _ => raise e
                         end).

Definition get {S} : M S S := fun s => (Ok s, s).
Definition modify {S} (f : S -> S) : M S unit := fun s => (Ok tt, f s).

#[global] Instance M_ret {S} : MRet (M S) := fun A => @ret S A.
#[global] Instance M_bind {S} : MBind (M S) := fun A B k m => @bind S A B m k.

End Eff.

(** ** The part of pandas the source relies on *)
Module Pandas.

(** A cell of a frame or sheet: a string, or a missing value (NaN, None and
    [pd.NA] alike: [pd.isna] holds of all three). *)
Inductive cell : Type :=
| CStr (s : string)
| CNaN.

#[global] Instance cell_eq_dec : EqDecision cell.
Proof. solve_decision. Defined.

(** [pd.isna(x)], [str(x)] *)
Definition isna (x : cell) : bool :=
  match x with CNaN => true | CStr _ => false end.
Definition to_str (x : cell) : string :=
  match x with CStr s => s | CNaN => "nan" end.

(** A frame read from or written to a sheet: the column labels and, per row,
    the cells by label. *)
Record DataFrame : Type := {
  columns : list string;
  rows : list (gmap string cell)
}.

(** [df[col]] *)
Definition column (df : DataFrame) (col : string) : list cell :=
  (fun r => default CNaN (r !! col)) <$> rows df.

(** [pd.DataFrame(records)] followed by
    [.reindex(columns=cols, fill_value=fill)], for a list of [dict] records.
    The frame built from the records has the union of their keys as columns,
    with NaN where a record lacks a key another record has; [reindex] keeps
    the columns the frame has and fills those it lacks. *)
Definition record_keys (records : list (gmap string string)) : gset string :=
  ⋃ (dom <$> records).

Definition reindex_cell (records : list (gmap string string)) (fill : string)
    (r : gmap string string) (col : string) : cell :=
  if decide (col ∈ record_keys records)
  then match r !! col with
       | Some v => CStr v
       | None => CNaN
       end
  else CStr fill.

Record sheet : Type := {
  header : list string;
  body : list (list cell)
}.

Definition frame_reindexed (records : list (gmap string string))
    (cols : list string) (fill : string) : sheet :=
  {| header := cols;
     body := (fun r => reindex_cell records fill r <$> cols) <$> records |}.

(** [pd.DataFrame(columns=cols)] *)
Definition empty_frame (cols : list string) : sheet :=
  {| header := cols; body := [] |}.

(** [pd.read_excel] of a sheet written by [to_excel(index=False)]: the header
    row gives the columns; a string cell that is one of the default NA
    markers is read as missing. *)
Definition default_na : list string :=
  [ ""; "#N/A"; "#N/A N/A"; "#NA"; "-1.#IND"; "-1.#QNAN"; "-NaN"; "-nan";
    "1.#IND"; "1.#QNAN"; "<NA>"; "N/A"; "NA"; "NULL"; "NaN"; "None";
    "n/a"; "nan"; "null" ].

Definition read_cell (c : cell) : cell :=
  match c with
  | CStr v => if bool_decide (v ∈ default_na) then CNaN else c
  | CNaN => CNaN
  end.

Definition read_excel (sh : sheet) : DataFrame :=
  {| columns := header sh;
     rows := (fun cells => list_to_map (zip (header sh) (read_cell <$> cells)))
               <$> body sh |}.

(** A record that has every one of the given keys. *)
Definition carries (cols : list string) (r : gmap string string) : Prop :=
  Forall (fun c => is_Some (r !! c)) cols.


(** [sorted(set(xs))] on strings: duplicates removed, code-point order. *)
Fixpoint insert_sorted (x : string) (l : list string) : list string :=
  match l with
  | [] => [x]
  | y :: l' => if String.leb x y then x :: l else y :: insert_sorted x l'
  end.

Definition sorted_set (xs : list string) : list string :=
  foldr insert_sorted [] (remove_dups xs).

End Pandas.

(** ** app.py *)
Module App.
Import Pandas.

Definition is_upper_alnum (c : ascii) : bool := Py.is_upper c || Py.is_digit c.

(** [r"B0[A-Z0-9]{8}"] *)
Definition asin_re : Re.re :=
  Re.Seq (Re.chr "B") (Re.Seq (Re.chr "0") (Re.times 8 (Re.Any is_upper_alnum))).

(** [re.fullmatch(r"B0[A-Z0-9]{8}", x)] *)
Definition is_asin (x : string) : bool := Re.fullmatch asin_re (Py.chars x).

(** The identifier format in the words of the specification: the prefix B0
    followed by eight characters, each an upper-case letter or a digit. *)
Definition canonical_identifier (x : string) : Prop :=
  exists tail, Py.chars x = "B"%char :: "0"%char :: tail /\ length tail = 8 /\
    Forall (fun c => Py.is_upper c = true \/ Py.is_digit c = true) tail.

Definition _norm_asin (x : cell) : string :=
  if isna x then ""
  else let x := Py.upper (Py.strip (to_str x)) in
       if is_asin x then x else "".

(** [dict(zip(keys, values))]: a later pair replaces an earlier one. *)
Definition dict_of_pairs (kvs : list (string * string)) : gmap string string :=
  foldl (fun m kv => <[kv.1 := kv.2]> m) ∅ kvs.

Definition _build_search_map_from_comp_df (comp_df : DataFrame) : gmap string string :=
  if bool_decide ("Competitor_ASIN" ∉ columns comp_df ∨ "Search_ASIN" ∉ columns comp_df)
  then ∅
  else
    let comp := _norm_asin <$> column comp_df "Competitor_ASIN" in
    let srch := _norm_asin <$> column comp_df "Search_ASIN" in
    let kept := filter (fun kv => kv.1 ≠ "" ∧ kv.2 ≠ "") (zip comp srch) in
    dict_of_pairs kept.

(** One entry of the list comprehension of [_attach]:
    [m if pd.notna(m) and str(m) != "" else (a if a in seed_set else pd.NA)],
    with [m = search_map.get(a, NaN)]. *)
Definition search_asin_of (search_map : gmap string string) (seed_set : gset string)
    (a : string) : cell :=
  let fallback := if decide (a ∈ seed_set) then CStr a else CNaN in
  match search_map !! a with
  | Some m => if Py.truthy m then CStr m else fallback
  | None => fallback
  end.

(** The rule in the words of the docstring of
    [_add_search_asin_to_amazon_frames]: the mapped seed if the identifier
    maps, else the identifier itself if it is a seed, else missing. *)
Definition search_asin_rule (search_map : gmap string string)
    (seed_asins : list string) (a : string) : cell :=
  match search_map !! a with
  | Some seed => CStr seed
  | None => if decide (a ∈ seed_asins) then CStr a else CNaN
  end.

(** [_ensure_first_column(df, first_col)] for a frame that has the column. *)
Definition _ensure_first_column (df : DataFrame) (first_col : string) : DataFrame :=
  {| columns := first_col :: filter (fun c => c ≠ first_col) (columns df);
     rows := (fun r => match r !! first_col with
                       | Some _ => r
                       | None => <[first_col := CNaN]> r
                       end) <$> rows df |}.

(** The inner [_attach] of [_add_search_asin_to_amazon_frames]. *)
Definition _attach (search_map : gmap string string) (seed_asins : list string)
    (df : DataFrame) : DataFrame :=
  let seed_set : gset string := list_to_set seed_asins in
  let annotate (r : gmap string cell) : cell :=
    if bool_decide ("ASIN" ∈ columns df)
    then search_asin_of search_map seed_set
           (_norm_asin (CStr (to_str (default CNaN (r !! "ASIN")))))
    else CNaN in
  let with_col :=
    {| columns := if bool_decide ("Search_ASIN" ∈ columns df) then columns df
                  else columns df ++ ["Search_ASIN"];
       rows := (fun r => <["Search_ASIN" := annotate r]> r) <$> rows df |} in
  _ensure_first_column with_col "Search_ASIN".

Definition _add_search_asin_to_amazon_frames (df_products df_sellers : DataFrame)
    (search_map : gmap string string) (seed_asins : list string)
    : DataFrame * DataFrame :=
  (_attach search_map seed_asins df_products, _attach search_map seed_asins df_sellers).

(** Step 2 of the [run_competitor] route: the seeds parsed from the form
    field, the competitor identifiers read from the sheet, and their union. *)
Definition route_seed_asins (seed_asins_raw : string) : list string :=
  let toks := Py.split (Py.replace_commas seed_asins_raw) in
  let upp := (fun a => Py.upper (Py.strip a)) <$> filter (fun a => Py.truthy (Py.strip a) = true) toks in
  filter (fun a => is_asin a = true) upp.

Definition route_comp_asins (comp_df : DataFrame) : list string :=
  let present := filter (fun x => isna x = false) (column comp_df "Competitor_ASIN") in
  let cleaned := (fun x => Py.strip (Py.upper (to_str x))) <$> present in
  filter (fun a => is_asin a = true) cleaned.

Definition route_asin_union (seed_asins_raw : string) (comp_df : DataFrame) : list string :=
  sorted_set (route_seed_asins seed_asins_raw ++ route_comp_asins comp_df).

(** [" ".join(asin_union)], the text handed to [run_products_scraper]. *)
Definition route_asin_for_amazon (seed_asins_raw : string) (comp_df : DataFrame) : string :=
  Py.join " " (route_asin_union seed_asins_raw comp_df).

(** *** The ad report *)

Definition target_sheets : list string :=
  [ "Sponsored Products Campaigns"; "Sponsored Display Campaigns" ].

Definition asin_col : string := "ASIN (Informational only)".

(** An opened workbook: for each sheet name the frame [pd.read_excel] gives,
    or nothing where reading the sheet raises. *)
Definition excel_file : Type := gmap string (option DataFrame).

(** [df[asin_col].dropna().astype(str).str.strip().str.upper()], then the
    values that are not empty. *)
Definition sheet_asin_values (df : DataFrame) : list string :=
  filter (fun val => Py.truthy val = true)
    ((fun x => Py.upper (Py.strip (to_str x))) <$>
       filter (fun x => isna x = false) (column df asin_col)).

(** [asin_values] after the loop over [target_sheets]. *)
Definition collect_asin_values (xls : excel_file) : list string :=
  sheet ← target_sheets;
  match xls !! sheet with
  | Some (Some df) =>
      if bool_decide (asin_col ∈ columns df) then sheet_asin_values df else []
  | _ => []
  end.

(** One turn of the dedupe loop on [(unique, seen)]. *)
Definition dedupe_step (st : list string * gset string) (a : string)
    : list string * gset string :=
  if decide (a ∈ st.2) then st else (st.1 ++ [a], st.2 ∪ {[a]}).

Definition dedupe (values : list string) : list string :=
  (foldl dedupe_step ([], ∅) values).1.

(** [file] is absent when [pd.ExcelFile(file_path)] raises. *)
Definition extract_unique_asins_from_ad_report (file : option excel_file) : list string :=
  match file with
  | None => []
  | Some xls => dedupe (collect_asin_values xls)
  end.

(** Step 4 of the [run_adreport] route: the text handed to
    [run_products_scraper]. *)
Definition adreport_asin_input (asin_list : list string) : string :=
  Py.join " " asin_list.

(** *** Cleaning up *)

(** [_cleanup_files] on the set of files that exist; [os.remove p] raises
    where [remove_fails p], and the exception is swallowed. *)
Definition _cleanup_files (remove_fails : string -> bool) (paths : list string)
    (keep : gset string) (files : gset string) : gset string :=
  foldl (fun files p =>
           if Py.truthy p && bool_decide (p ∈ files) && negb (bool_decide (p ∈ keep))
           then (if remove_fails p then files else files ∖ {[p]})
           else files)
        files paths.

End App.

(** ** scraper_products.py *)
Module Products.
Import Pandas Eff.

(** *** Marketplaces *)

(** The tables are [dict] literals; [MARKETPLACES] is iterated in insertion
    order, so both are kept as ordered key/value lists. *)
Definition MARKETPLACES : list (string * string) :=
  [ ("Amazon India", "https://www.amazon.in/dp/");
    ("Amazon USA", "https://www.amazon.com/dp/");
    ("Amazon SG", "https://www.amazon.sg/dp/");
    ("Amazon AE", "https://www.amazon.ae/dp/");
    ("Amazon UK", "https://www.amazon.co.uk/dp/") ].

Definition _MARKETPLACE_ALIASES : list (string * string) :=
  [ ("india", "Amazon India"); ("in", "Amazon India");
    ("us", "Amazon USA"); ("usa", "Amazon USA");
    ("united states", "Amazon USA"); ("america", "Amazon USA");
    ("sg", "Amazon SG"); ("singapore", "Amazon SG");
    ("ae", "Amazon AE"); ("uae", "Amazon AE");
    ("united arab emirates", "Amazon AE");
    ("uk", "Amazon UK"); ("gb", "Amazon UK");
    ("great britain", "Amazon UK"); ("united kingdom", "Amazon UK") ].

Definition _resolve_marketplace (user_input : option string) : option (string * string) :=
  match user_input with
  | None => None
  | Some u =>
      if negb (Py.truthy u) then None
      else
        let key := Py.lower (Py.strip u) in
        match Py.dict_get _MARKETPLACE_ALIASES key with
        | None => None
        | Some mp_name =>
            if negb (Py.truthy mp_name) then None
            else match Py.dict_get MARKETPLACES mp_name with
                 | None => None
                 | Some base_url =>
                     if negb (Py.truthy base_url) then None
                     else Some (mp_name, base_url)
                 end
        end
  end.

(** The target list [specific_marketplaces] of [run_products_scraper]. *)
Definition specific_marketplaces (marketplace : option string) : list (string * string) :=
  match _resolve_marketplace marketplace with
  | Some resolved => [resolved]
  | None => MARKETPLACES
  end.

(** *** Text cleaning *)

(** [_clean_text]: the sentinel for an empty text, else the words joined by
    single spaces. *)
Definition _clean_text (s : string) : string :=
  if negb (Py.truthy s) then "N/A"
  else Py.strip (Py.join " " (Py.split s)).

(** *** Availability *)

(** [only\s+\d+\s+left] *)
Definition pat_only_left : Re.re :=
  Re.Seq (Re.lit_i "only")
    (Re.Seq (Re.Many1 Py.is_space)
      (Re.Seq (Re.Many1 Py.is_digit)
        (Re.Seq (Re.Many1 Py.is_space) (Re.lit_i "left")))).

(** [(?:\s+in\s+stock)?] *)
Definition pat_in_stock_tail : Re.re :=
  Re.Opt (Re.Seq (Re.Many1 Py.is_space)
           (Re.Seq (Re.lit_i "in")
             (Re.Seq (Re.Many1 Py.is_space) (Re.lit_i "stock")))).

Definition pat_unavailable : Re.re := Re.lit_i "currently unavailable".
Definition pat_out_of_stock : Re.re := Re.lit_i "out of stock".
Definition pat_only : Re.re := Re.Seq pat_only_left pat_in_stock_tail.
Definition pat_in_stock : Re.re := Re.lit_i "in stock".

Definition patterns : list Re.re :=
  [pat_unavailable; pat_out_of_stock; pat_only; pat_in_stock].

Definition selectors : list string :=
  [ "#availabilityInsideBuyBox_feature_div span";
    "#availability span";
    "#availabilityInsideBuyBox_feature_div";
    "#availability" ].

Definition is_dot_or_space (c : ascii) : bool := Ascii.eqb c "." || Py.is_space c.

Definition space : UText.uchar -> bool := UText.holds Py.is_space.
Definition dot_or_space : UText.uchar -> bool := UText.holds is_dot_or_space.

(** [for pat in patterns: m = re.search(pat, low, flags=re.I); if m: ...] *)
Fixpoint first_match (pats : list Re.re) (low : UText.utext) : option (nat * nat) :=
  match pats with
  | [] => None
  | pat :: pats' =>
      match UText.usearch UText.holds_i pat low with
      | Some span => Some span
      | None => first_match pats' low
      end
  end.

(** [phrase = text[s:e].strip()] then [re.sub(r"[.\s]+$", "", phrase)] *)
Definition phrase_of (text : UText.utext) (span : nat * nat) : UText.utext :=
  UText.urstrip dot_or_space (UText.ustrip space (UText.uslice text span.1 span.2)).

(** The chain of tests on the matched phrase.  [re.search(r"\d+", phrase)]
    returning [None] would make [.group(0)] raise. *)
Definition classify (phrase : UText.utext) : result (option UText.utext) :=
  if UText.ufound UText.holds_i pat_only_left phrase then
    match UText.usearch UText.holds (Re.Many1 Py.is_digit) phrase with
    | Some (s, e) =>
        Ok (Some (UText.embed "Only " ++ UText.uslice phrase s e
                  ++ UText.embed " left in stock"))
    | None => Raise AttributeError
    end
  else if UText.ufound UText.holds_i pat_unavailable phrase
  then Ok (Some (UText.embed "Currently unavailable"))
  else if UText.ufound UText.holds_i pat_out_of_stock phrase
  then Ok (Some (UText.embed "Out of stock"))
  else if UText.ufound UText.holds_i pat_in_stock phrase
  then Ok (Some (UText.embed "In stock"))
  else Ok (Some phrase).

(** The span [(s, e)] is found in [low] and cut out of [text]. *)
Definition _match_phrase (src_text : UText.utext) : result (option UText.utext) :=
  match src_text with
  | [] => Ok None
  | _ :: _ =>
      let text := UText.ujoin [UText.Chr " "] (UText.usplit space src_text) in
      let low := UText.ulower text in
      match first_match patterns low with
      | Some span => classify (phrase_of text span)
      | None => Ok None
      end
  end.

(** The parsed document, as far as availability extraction looks at it:
    [select_text sel] is [el.get_text(" ", strip=True)] for
    [el = soup.select_one(sel)], absent when no node matches;
    [page_text] is [soup.get_text(" ", strip=True)]. *)
Record Soup : Type := {
  select_text : string -> option UText.utext;
  page_text : UText.utext
}.

(** The loop over the structured nodes: [Ok (Some p)] when it returned [p],
    [Ok None] when it ran to its end. *)
Fixpoint scan_selectors (soup : Soup) (sels : list string)
    : result (option UText.utext) :=
  match sels with
  | [] => Ok None
  | sel :: sels' =>
      match select_text soup sel with
      | None => scan_selectors soup sels'
      | Some t =>
          match _match_phrase t with
          | Raise e => Raise e
          | Ok (Some (c :: phrase)) => Ok (Some (c :: phrase))
          | Ok (Some []) => scan_selectors soup sels'
          | Ok None => scan_selectors soup sels'
          end
      end
  end.

Definition _extract_availability_exact (soup : Soup) : result (option UText.utext) :=
  match scan_selectors soup selectors with
  | Ok None => _match_phrase (page_text soup)
  | r => r
  end.

(** *** The same on ASCII text

    On a text of ASCII characters lower-casing keeps every position, and
    [_match_phrase] is the following function on [string]s (shown in
    [AvailabilitySpec]), about which the properties of the patterns are
    proved. *)
Fixpoint first_match_ascii (pats : list Re.re) (low : list ascii) : option (nat * nat) :=
  match pats with
  | [] => None
  | pat :: pats' =>
      match Re.search pat low with
      | Some span => Some span
      | None => first_match_ascii pats' low
      end
  end.

Definition phrase_of_ascii (text : list ascii) (span : nat * nat) : list ascii :=
  Py.rstrip_by is_dot_or_space (Py.strip_l (Py.slice text span.1 span.2)).

Definition classify_ascii (phrase : list ascii) : result (option string) :=
  if Re.found pat_only_left phrase then
    match Re.search (Re.Many1 Py.is_digit) phrase with
    | Some (s, e) =>
        Ok (Some ("Only " +:+ Py.str (Py.slice phrase s e) +:+ " left in stock"))
    | None => Raise AttributeError
    end
  else if Re.found pat_unavailable phrase then Ok (Some "Currently unavailable")
  else if Re.found pat_out_of_stock phrase then Ok (Some "Out of stock")
  else if Re.found pat_in_stock phrase then Ok (Some "In stock")
  else Ok (Some (Py.str phrase)).

Definition _match_phrase_ascii (src_text : string) : result (option string) :=
  if negb (Py.truthy src_text) then Ok None
  else
    let text := Py.join_l [" "%char] (Py.split_l (Py.chars src_text)) in
    let low := Py.lower_l text in
    match first_match_ascii patterns low with
    | Some span => classify_ascii (phrase_of_ascii text span)
    | None => Ok None
    end.

(** A result on ASCII text as a result on text. *)
Definition embed_result (r : result (option string)) : result (option UText.utext) :=
  match r with
  | Ok (Some p) => Ok (Some (UText.embed p))
  | Ok None => Ok None
  | Raise e => Raise e
  end.

(** *** Product and offer records *)

Definition ALLOWED_ITEM_DETAILS : list string :=
  [ "Brand"; "Model Number"; "Country of Origin";
    "Customer Reviews"; "Best Sellers Rank"; "Manufacturer"; "Packer" ].

(** The values [scrape_asin_from_url] has extracted from a page when it
    builds [product_data]: its local variables at that point. *)
Record page_fields : Type := {
  title : string;
  rating_value : option string;
  total_reviews : option string;
  social_bought : string;
  amazons_choice_text : string;
  deal_badge_text : string;
  best_seller_text : string;
  product_discount : string;
  offer_price : option string;
  price_per_unit : string;
  mrp : option string;
  item_details : gmap string string;
  box_availability : string;
  box_delivery_info : string;
  box_ships_from : string;
  box_sold_by : string;
  box_gift_options : string
}.

Definition box_data (f : page_fields) : gmap string string :=
  <["Gift options" := box_gift_options f]>
  (<["Sold by" := box_sold_by f]>
  (<["Ships from" := box_ships_from f]>
  (<["Delivery info" := box_delivery_info f]>
  (<["Availability" := box_availability f]> ∅)))).

(** The [dict] literal, then [product_data[col] = item_details.get(col, "N/A")]
    for each allowed detail, then [product_data.update(box_data)]. *)
Definition product_data (asin marketplace_name : string) (f : page_fields)
    : gmap string string :=
  let literal : gmap string string :=
    <["MRP" := Py.or_default (mrp f) "N/A"]>
    (<["Price per Unit" := price_per_unit f]>
    (<["Offer Price" := Py.or_default (offer_price f) "N/A"]>
    (<["Discount %" := product_discount f]>
    (<["Best_Seller_Text" := best_seller_text f]>
    (<["Deal_Badge_Text" := deal_badge_text f]>
    (<["Amazons_Choice_Text" := amazons_choice_text f]>
    (<["Social Bought" := social_bought f]>
    (<["Total Reviews" := Py.or_default (total_reviews f) "N/A"]>
    (<["Rating" := Py.or_default (rating_value f) "N/A"]>
    (<["Product Title" := title f]>
    (<["Marketplace" := marketplace_name]>
    (<["ASIN" := asin]> ∅)))))))))))) in
  let with_details :=
    foldl (fun d col => <[col := default "N/A" (item_details f !! col)]> d)
          literal ALLOWED_ITEM_DETAILS in
  box_data f ∪ with_details.

(** The values [scrape_buybox_offers] has extracted for one offer block. *)
Record offer_fields : Type := {
  seller_price : string;
  discount_val : string;
  mrp_val : string;
  ships_from : string;
  sold_by : string;
  delivery_info : string;
  condition : string;
  rating_val : string;
  seller_perf : string
}.

Definition or_na (s : string) : string := if Py.truthy s then s else "N/A".

Definition offer_row (asin marketplace_name : string) (o : offer_fields)
    : gmap string string :=
  <["Seller Performance" := seller_perf o]>
  (<["Rating" := rating_val o]>
  (<["Condition" := condition o]>
  (<["Delivery Info" := or_na (delivery_info o)]>
  (<["Sold By" := or_na (sold_by o)]>
  (<["Ships From" := or_na (ships_from o)]>
  (<["MRP" := or_na (mrp_val o)]>
  (<["Discount %" := discount_val o]>
  (<["Offer Price" := or_na (seller_price o)]>
  (<["Marketplace" := marketplace_name]>
  (<["ASIN" := asin]> ∅)))))))))).

(** The row appended when an identifier was not found. *)
Definition not_found_row (asin : string) : gmap string string :=
  list_to_map
    [ ("ASIN", asin); ("Marketplace", "N/A"); ("Product Title", "Not Found");
      ("Rating", "N/A"); ("Total Reviews", "N/A"); ("Social Bought", "N/A");
      ("Amazons_Choice_Text", "unavailable");
      ("Deal_Badge_Text", "unavailable");
      ("Best_Seller_Text", "unavailable");
      ("Discount %", "N/A");
      ("Offer Price", "N/A"); ("Price per Unit", "N/A"); ("MRP", "N/A");
      ("Brand", "N/A"); ("Model Number", "N/A");
      ("Country of Origin", "N/A"); ("Customer Reviews", "N/A");
      ("Best Sellers Rank", "N/A");
      ("Manufacturer", "N/A"); ("Packer", "N/A"); ("Availability", "N/A");
      ("Delivery info", "N/A"); ("Ships from", "N/A"); ("Sold by", "N/A");
      ("Gift options", "N/A") ].

(** *** The fetch loop *)

(** What the run does to the outside world, in order: a call of
    [scrape_asin_from_url] for an identifier at a marketplace (its own pause
    and its offers request belong to the call), and the pause
    [time.sleep(3)] of the retry loop. *)
Inductive event : Type :=
| Request (asin base_url : string)
| Sleep (seconds : nat).

#[global] Instance event_eq_dec : EqDecision event.
Proof. solve_decision. Defined.

(** What a call of [scrape_asin_from_url] comes back with: an exception that
    escapes it, [(None, [])] (request error, status other than 200, or no
    title node), or the extracted page and offers. *)
Inductive page_result : Type :=
| PageRaises
| PageMissing
| PageFound (f : page_fields) (offers : list offer_fields).

(** The marketplace sites: the answer to a request may depend on everything
    the run did before. *)
Definition network : Type := list event -> string -> string -> page_result.

Record run_state : Type := {
  trace : list event;
  all_main : list (gmap string string);
  all_buybox : list (gmap string string)
}.

Definition logged (s : run_state) (e : event) : run_state :=
  {| trace := trace s ++ [e]; all_main := all_main s; all_buybox := all_buybox s |}.
Definition log (e : event) : M run_state unit := modify (fun s => logged s e).
Definition append_main (r : gmap string string) : M run_state unit :=
  modify (fun s => {| trace := trace s;
                      all_main := all_main s ++ [r]; all_buybox := all_buybox s |}).
Definition extend_buybox (rs : list (gmap string string)) : M run_state unit :=
  modify (fun s => {| trace := trace s;
                      all_main := all_main s; all_buybox := all_buybox s ++ rs |}).

Definition MAX_RETRIES : nat := 5.

Section Fetch.
Variable net : network.

Definition scrape_asin_from_url (asin base_url marketplace_name : string)
    : M run_state (option (gmap string string) * list (gmap string string)) :=
  s ← get;
  log (Request asin base_url);;
  match net (trace s) asin base_url with
  | PageRaises => raise OtherException
  | PageMissing => mret (None, [])
  | PageFound f offers =>
      mret (Some (product_data asin marketplace_name f),
            offer_row asin marketplace_name <$> offers)
  end.

(** [try: data, sellers = scrape_asin_from_url(...)] with its
    [except Exception: data = None; sellers = []]. *)
Definition attempt (asin base_url marketplace_name : string)
    : M run_state (option (gmap string string) * list (gmap string string)) :=
  try_except (scrape_asin_from_url asin base_url marketplace_name)
             (fun _ => mret (None, [])).

(** Truthiness of a [dict] *)
Definition dict_truthy (d : gmap string string) : bool := negb (bool_decide (d = ∅)).

(** [while retries < MAX_RETRIES and data is None: ...], entered with
    [data = None]; [left] is [MAX_RETRIES - retries].  The result is
    [asin_found] when the loop is left. *)
Fixpoint while_retries (left : nat) (asin base_url marketplace_name : string)
    : M run_state bool :=
  match left with
  | 0 => mret false
  | S left' =>
      '(data, sellers) ← attempt asin base_url marketplace_name;
      match data with
      | Some d =>
          if dict_truthy d then
            append_main d;;
            (if bool_decide (sellers = []) then mret tt else extend_buybox sellers);;
            mret true
          else
            (* retries += 1; [data is None] no longer holds *)
            (if bool_decide (0 < left')%nat then log (Sleep 3) else mret tt);;
            mret false
      | None =>
          (if bool_decide (0 < left')%nat then log (Sleep 3) else mret tt);;
          while_retries left' asin base_url marketplace_name
      end
  end.

(** [for marketplace_name, base_url in specific_marketplaces:] with the body
    [data = None; sellers = []; retries = 0] -- the loop as it is indented in
    the source.  What remains of it afterwards is the binding of the loop
    variables: the last target, or nothing for an empty list. *)
Definition for_marketplaces (targets : list (string * string)) : option (string * string) :=
  foldl (fun _ target => Some target) None targets.

(** The body of [for asin in asin_list:]. *)
Definition fetch_asin (targets : list (string * string)) (asin : string)
    : M run_state unit :=
  match for_marketplaces targets with
  | None => raise UnboundLocalError
  | Some (marketplace_name, base_url) =>
      asin_found ← while_retries MAX_RETRIES asin base_url marketplace_name;
      if asin_found : bool then mret tt
      else append_main (not_found_row asin)
  end.

Fixpoint for_asins (targets : list (string * string)) (asin_list : list string)
    : M run_state unit :=
  match asin_list with
  | [] => mret tt
  | asin :: rest => fetch_asin targets asin;; for_asins targets rest
  end.

End Fetch.

(** *** The workbook *)

Definition final_columns : list string :=
  [ "ASIN"; "Marketplace"; "Product Title"; "Rating"; "Total Reviews";
    "Social Bought";
    "Amazons_Choice_Text"; "Deal_Badge_Text"; "Best_Seller_Text";
    "Discount %"; "Offer Price"; "Price per Unit";
    "MRP"; "Brand"; "Model Number";
    "Country of Origin"; "Customer Reviews"; "Best Sellers Rank";
    "Manufacturer"; "Packer"; "Availability"; "Delivery info";
    "Ships from"; "Sold by"; "Gift options" ].

Definition final_cols : list string :=
  [ "ASIN"; "Sold By"; "Marketplace";
    "Offer Price"; "Discount %"; "MRP";
    "Ships From"; "Delivery Info"; "Condition";
    "Rating"; "Seller Performance" ].

Record workbook : Type := {
  Products : sheet;
  OtherSellers : sheet
}.

Definition write_workbook (main buybox : list (gmap string string)) : workbook :=
  {| Products := frame_reindexed main final_columns "N/A";
     OtherSellers := match buybox with
                     | [] => empty_frame final_cols
                     | _ :: _ => frame_reindexed buybox final_cols "N/A"
                     end |}.

(** [asin_list] of [run_products_scraper] *)
Definition asin_list_of (asin_input : string) : list string :=
  Py.strip <$> filter (fun a => Py.truthy (Py.strip a) = true)
                      (Py.split (Py.replace_commas asin_input)).

Definition initial_state : run_state :=
  {| trace := []; all_main := []; all_buybox := [] |}.

Definition run_products_scraper (net : network) (asin_input : string)
    (marketplace : option string) : result workbook * run_state :=
  (for_asins net (specific_marketplaces marketplace) (asin_list_of asin_input);;
   s ← get;
   mret (write_workbook (all_main s) (all_buybox s))) initial_state.

(** The columns of the not-found row that do not hold "N/A". *)
Definition special_columns : list string :=
  [ "ASIN"; "Product Title";
    "Amazons_Choice_Text"; "Deal_Badge_Text"; "Best_Seller_Text" ].

(** The events of [n] attempts in a row at one marketplace that all fail. *)
Fixpoint failed_attempts (n : nat) (asin base_url : string) : list event :=
  match n with
  | 0 => []
  | S n' =>
      Request asin base_url ::
      match n' with
      | 0 => []
      | S _ => Sleep 3 :: failed_attempts n' asin base_url
      end
  end.

(** The four phrases the docstring of [_extract_availability_exact] lists. *)
Definition canonical_phrase (p : string) : Prop :=
  p = "In stock" \/ p = "Out of stock" \/ p = "Currently unavailable" \/
  exists n, n <> [] /\ forallb Py.is_digit n = true /\
            p = "Only " +:+ Py.str n +:+ " left in stock".

(** The contract the specification gives for the per-identifier fetch: every
    target in order, each with its own [MAX_RETRIES] attempts, stopping at the
    first target that yields a record. *)
Fixpoint fetch_asin_in_order (net : network) (targets : list (string * string))
    (asin : string) : M run_state unit :=
  match targets with
  | [] => append_main (not_found_row asin)
  | (marketplace_name, base_url) :: rest =>
      asin_found ← while_retries net MAX_RETRIES asin base_url marketplace_name;
      if asin_found : bool then mret tt
      else fetch_asin_in_order net rest asin
  end.

End Products.

(** ** scraper_competitor.py *)
Module Competitor.
Import Pandas Eff.

Definition marketplace_map : list (string * string) :=
  [ ("india", "amazon.in"); ("in", "amazon.in");
    ("us", "amazon.com"); ("usa", "amazon.com"); ("america", "amazon.com");
    ("uk", "amazon.co.uk"); ("united kingdom", "amazon.co.uk");
    ("de", "amazon.de"); ("germany", "amazon.de");
    ("fr", "amazon.fr"); ("france", "amazon.fr");
    ("it", "amazon.it"); ("italy", "amazon.it");
    ("es", "amazon.es"); ("spain", "amazon.es");
    ("ca", "amazon.ca"); ("canada", "amazon.ca");
    ("mx", "amazon.com.mx"); ("mexico", "amazon.com.mx");
    ("nl", "amazon.nl"); ("netherlands", "amazon.nl");
    ("jp", "amazon.co.jp"); ("japan", "amazon.co.jp");
    ("au", "amazon.com.au"); ("australia", "amazon.com.au");
    ("ae", "amazon.ae"); ("uae", "amazon.ae");
    ("br", "amazon.com.br"); ("brazil", "amazon.com.br");
    ("sa", "amazon.sa"); ("saudi", "amazon.sa") ].

(** [x or y] on [Optional[str]] *)
Definition or_else (x y : option string) : option string :=
  match x with
  | Some s => if Py.truthy s then x else y
  | None => y
  end.

Definition falsy (x : option string) : bool :=
  match x with
  | Some s => negb (Py.truthy s)
  | None => true
  end.

(** [re.search(r"\bB0[A-Z0-9]{8}\b", l)]: the ten characters match at some
    position that follows no word character and is followed by none;
    [prev_word] tells whether the character before the position is one. *)
Definition asin_token_here (l : list ascii) : bool :=
  bool_decide (10 ∈ Re.matches App.asin_re l) &&
  match drop 10 l with
  | [] => true
  | d :: _ => negb (Py.is_word_char d)
  end.

Fixpoint has_asin_token (prev_word : bool) (l : list ascii) : bool :=
  match l with
  | [] => false
  | c :: l' =>
      (negb prev_word && asin_token_here l) || has_asin_token (Py.is_word_char c) l'
  end.

(** The [for l in lines:] loop of [find_first_non_asin_line]. *)
Fixpoint first_title_line (lines : list string) : string :=
  match lines with
  | [] => ""
  | l :: rest =>
      if has_asin_token false (Py.chars l) then first_title_line rest
      else if (String.length l <? 5)%nat then first_title_line rest
      else if bool_decide (Py.lower l ∈ ["copy"; "amazon"]) then first_title_line rest
      else l
  end.

Definition find_first_non_asin_line (text : string) : string :=
  first_title_line
    (Py.strip <$> filter (fun l => Py.truthy (Py.strip l) = true) (Py.splitlines text)).

(** [os.getenv] is the argument [getenv]. *)
Definition _load_h10_creds (email password : option string)
    (getenv : string -> option string) : result (string * string) :=
  let e := or_else email (getenv "H10_EMAIL") in
  let p := or_else password (getenv "H10_PASSWORD") in
  if falsy e || falsy p then Raise RuntimeError
  else Ok (default "" e, default "" p).

Record config : Type := {
  cfg_email : string;
  cfg_password : string;
  asin_list : list string;
  marketplace_value : string
}.

(** The statements of [run_competitor_scraper] before the browser is
    started. *)
Definition startup (email password : option string) (getenv : string -> option string)
    (asin_input marketplace_input_raw : string) : result config :=
  match _load_h10_creds email password getenv with
  | Raise e => Raise e
  | Ok (e, p) =>
      let asin_list :=
        Py.strip <$> filter (fun a => Py.truthy (Py.strip a) = true)
                            (Py.split (Py.replace_commas asin_input)) in
      let marketplace_input := Py.lower (Py.strip marketplace_input_raw) in
      let marketplace_value :=
        default (Py.strip marketplace_input_raw)
                (Py.dict_get marketplace_map marketplace_input) in
      if negb (Py.truthy marketplace_value) then Raise ValueError
      else Ok {| cfg_email := e; cfg_password := p;
                 asin_list := asin_list; marketplace_value := marketplace_value |}
  end.

(** One result card as the per-card block reads it; [link_href] is absent
    when the link element could not be read. *)
Record card : Type := {
  card_title : string;
  card_asin : string;
  link_href : option string;
  marketplace_flag : string
}.

(** The browser session: each field is one block of Selenium calls of the
    source, acting on the session state [B]; a block returns or raises. *)
Record Browser (B : Type) : Type := {
  open_signin : M B unit;
  login : string -> string -> M B unit;
  quit : B -> B;
  open_cerebro : M B unit;
  open_marketplace_dropdown : M B unit;
  select_marketplace_by_value : string -> M B unit;
  _soft_reset_cerebro : B -> bool * B;
  reload_page : M B unit;
  enter_asin : string -> M B unit;
  click_get_competitors : M B unit;
  reenter_and_click : string -> M B unit;
  _wait_for_competitor_results : string -> M B unit;
  body_has : string -> B -> bool * B;
  first_card_present : M B unit;
  count_cards : M B nat;
  scroll_to_last : B -> B;
  all_cards : M B (list card)
}.
Arguments open_signin {B}. Arguments login {B}. Arguments quit {B}.
Arguments open_cerebro {B}. Arguments open_marketplace_dropdown {B}.
Arguments select_marketplace_by_value {B}. Arguments _soft_reset_cerebro {B}.
Arguments reload_page {B}. Arguments enter_asin {B}.
Arguments click_get_competitors {B}. Arguments reenter_and_click {B}.
Arguments _wait_for_competitor_results {B}. Arguments body_has {B}.
Arguments first_card_present {B}. Arguments count_cards {B}.
Arguments scroll_to_last {B}. Arguments all_cards {B}.

(** How one pass of the identifier loop ends: with harvested rows, by
    [continue], or (in the model only) with the reveal loop still turning
    when the step budget is used up. *)
Inductive iteration : Type :=
| Harvested (rows : list (list cell))
| Skipped
| StillRevealing.

Section Run.
Context {B : Type} (br : Browser B).

Definition lift_total {A} (f : B -> A * B) : M B A :=
  fun b => let '(a, b') := f b in (Ok a, b').

Definition _hard_reload_cerebro (marketplace_value : string) : M B unit :=
  reload_page br;;
  open_marketplace_dropdown br;;
  select_marketplace_by_value br marketplace_value.

(** [try: ... except ...: driver.quit(); raise] *)
Definition or_quit {A} (m : M B A) : M B A :=
  try_except m (fun e => modify (quit br);; raise e).

Definition max_stall_loops : nat := 10.

(** [while True:] of the lazy loader, for at most [fuel] turns; the result
    says whether the loop was left. *)
Fixpoint reveal (fuel : nat) (prev_count : Z) (stall_loops : nat) : M B bool :=
  match fuel with
  | 0 => mret false
  | S fuel' =>
      count_now ← count_cards br;
      if bool_decide (count_now = 0) then reveal fuel' prev_count stall_loops
      else
        let same := bool_decide (Z.of_nat count_now = prev_count) in
        let stall_loops' := if same then S stall_loops else 0 in
        let prev_count' := if same then prev_count else Z.of_nat count_now in
        modify (scroll_to_last br);;
        if bool_decide (max_stall_loops ≤ stall_loops')%nat then mret true
        else reveal fuel' prev_count' stall_loops'
  end.

Definition product_link (marketplace_value : string) (c : card) : string :=
  match link_href c with
  | Some href => Py.strip href
  | None =>
      if Py.truthy (card_asin c) && Py.truthy marketplace_value
      then "https://" +:+ marketplace_value +:+ "/dp/" +:+ card_asin c
      else ""
  end.

(** The row appended to [competitor_results], in the key order of the
    [dict] literal. *)
Definition competitor_row (marketplace_value asin : string) (c : card) : list cell :=
  [ CStr asin; CStr (card_asin c); CStr (card_title c);
    CStr (marketplace_flag c); CStr (product_link marketplace_value c) ].

(** The body of [for idx, asin in enumerate(asin_list, start=1):], in the
    order of the source: clean state and identifier entry; the click on
    "Get Competitors" with its one retry after a hard reload; the wait for
    the results with its one retry; the harvest. *)
Definition reset_and_enter (marketplace_value asin : string) : M B unit :=
  soft_ok ← lift_total (_soft_reset_cerebro br);
  (if soft_ok : bool then mret tt else _hard_reload_cerebro marketplace_value);;
  enter_asin br asin.

(** [true] when the control was clicked, [false] for [continue]. *)
Definition submit (marketplace_value asin : string) : M B bool :=
  try_timeout
    (click_get_competitors br;; mret true)
    (_hard_reload_cerebro marketplace_value;;
     try_except (reenter_and_click br asin;; mret true)
                (fun _ => mret false)).

(** [true] when the harvest may start, [false] for [continue]. *)
Definition await_results (marketplace_value asin : string) : M B bool :=
  try_timeout
    (_wait_for_competitor_results br asin;; mret true)
    (body_has_current ← lift_total (body_has br asin);
     if body_has_current : bool then mret true
     else
       _hard_reload_cerebro marketplace_value;;
       try_except
         (reenter_and_click br asin;;
          _wait_for_competitor_results br asin;;
          mret true)
         (fun _ => mret false)).

Definition harvest (fuel : nat) (marketplace_value asin : string) : M B iteration :=
  try_timeout (first_card_present br) (mret tt);;
  left_loop ← reveal fuel (-1) 0;
  if negb left_loop then mret StillRevealing
  else
    competitor_cards ← try_timeout (all_cards br) (mret []);
    lift_total (_soft_reset_cerebro br);;
    mret (Harvested (competitor_row marketplace_value asin <$> competitor_cards)).

Definition search_and_harvest (fuel : nat) (marketplace_value asin : string)
    : M B iteration :=
  reset_and_enter marketplace_value asin;;
  clicked ← submit marketplace_value asin;
  if negb clicked then mret Skipped
  else
    loaded ← await_results marketplace_value asin;
    if negb loaded then mret Skipped
    else harvest fuel marketplace_value asin.

(** The identifier loop; [None] when the step budget ran out. *)
Fixpoint for_asins (fuel : nat) (marketplace_value : string) (asins : list string)
    (competitor_results : list (list cell)) : M B (option (list (list cell))) :=
  match asins with
  | [] => mret (Some competitor_results)
  | asin :: rest =>
      it ← search_and_harvest fuel marketplace_value asin;
      match it with
      | Harvested rows => for_asins fuel marketplace_value rest (competitor_results ++ rows)
      | Skipped => for_asins fuel marketplace_value rest competitor_results
      | StillRevealing => mret None
      end
  end.

Definition competitors_columns : list string :=
  [ "Search_ASIN"; "Competitor_ASIN"; "Title"; "Marketplace"; "Product_Link" ].

(** The "Competitors" sheet: the rows, or the header alone. *)
Definition competitors_sheet (competitor_results : list (list cell)) : sheet :=
  {| header := competitors_columns; body := competitor_results |}.

(** Browser start, login, opening of the tool and marketplace selection. *)
Definition start_session (cfg : config) : M B unit :=
  open_signin br;;
  or_quit (login br (cfg_email cfg) (cfg_password cfg));;
  open_cerebro br;;
  or_quit (open_marketplace_dropdown br;;
           select_marketplace_by_value br (marketplace_value cfg)).

(** The run once the start-up checks have passed. *)
Definition session (fuel : nat) (cfg : config) : M B (option sheet) :=
  start_session cfg;;
  res ← for_asins fuel (marketplace_value cfg) (asin_list cfg) [];
  match res with
  | None => mret None
  | Some competitor_results =>
      modify (quit br);;
      mret (Some (competitors_sheet competitor_results))
  end.

Definition run_competitor_scraper (fuel : nat) (email password : option string)
    (getenv : string -> option string) (asin_input marketplace_input_raw : string)
    : M B (option sheet) :=
  match startup email password getenv asin_input marketplace_input_raw with
  | Raise e => raise e
  | Ok cfg => session fuel cfg
  end.

(** The two failures of one identifier the loop answers with [continue]:
    the "Get Competitors" control is still missing after the hard reload and
    the retry; the results never load, the page does not show the
    identifier, and the retry after the hard reload fails too.  [b] is the
    session state when the pass starts, [b'] the one it leaves behind. *)
Inductive skip_cause (marketplace_value asin : string) (b b' : B) : Prop :=
| no_get_competitors_control (b1 b2 b3 : B) (e : exn) :
    reset_and_enter marketplace_value asin b = (Ok tt, b1) ->
    click_get_competitors br b1 = (Raise TimeoutException, b2) ->
    _hard_reload_cerebro marketplace_value b2 = (Ok tt, b3) ->
    reenter_and_click br asin b3 = (Raise e, b') ->
    skip_cause marketplace_value asin b b'
| results_never_load (b1 b2 b3 b4 b5 : B) (e : exn) :
    reset_and_enter marketplace_value asin b = (Ok tt, b1) ->
    submit marketplace_value asin b1 = (Ok true, b2) ->
    _wait_for_competitor_results br asin b2 = (Raise TimeoutException, b3) ->
    body_has br asin b3 = (false, b4) ->
    _hard_reload_cerebro marketplace_value b4 = (Ok tt, b5) ->
    (reenter_and_click br asin;; _wait_for_competitor_results br asin) b5
      = (Raise e, b') ->
    skip_cause marketplace_value asin b b'.

End Run.




End Competitor.

(** ** Concrete worlds used to run the embedded code *)
Module Scenarios.
Import Pandas Eff.

Definition widget : Products.page_fields :=
  {| Products.title := "Widget";
     Products.rating_value := Some "4.2 out of 5 stars";
     Products.total_reviews := None;
     Products.social_bought := "N/A";
     Products.amazons_choice_text := "unavailable";
     Products.deal_badge_text := "unavailable";
     Products.best_seller_text := "unavailable";
     Products.product_discount := "NO %";
     Products.offer_price := Some "$5";
     Products.price_per_unit := "N/A";
     Products.mrp := None;
     Products.item_details := {[ "Brand" := "Acme" ]};
     Products.box_availability := "In stock";
     Products.box_delivery_info := "N/A";
     Products.box_ships_from := "N/A";
     Products.box_sold_by := "N/A";
     Products.box_gift_options := "Not available" |}.

(** The product page exists at amazon.in and nowhere else. *)
Definition net_india_only : Products.network :=
  fun _ _ base_url =>
    if String.eqb base_url "https://www.amazon.in/dp/"
    then Products.PageFound widget []
    else Products.PageMissing.

(** No marketplace has the page. *)
Definition net_nothing : Products.network :=
  fun _ _ _ => Products.PageMissing.

(** The end-to-end scenario: the seed B0ABCDEFGH, and a Competitors sheet
    with the one competitor B0XYZ12345 it discovered, read back by the
    route. *)
Definition seed_input : string := "B0ABCDEFGH".

Definition discovered : Competitor.card :=
  {| Competitor.card_title := "Gadget";
     Competitor.card_asin := "B0XYZ12345";
     Competitor.link_href := None;
     Competitor.marketplace_flag := "US" |}.

Definition competitors_read : DataFrame :=
  read_excel (Competitor.competitors_sheet
                [Competitor.competitor_row "amazon.com" "B0ABCDEFGH" discovered]).

(** A scripted browser session.  Its state is the list of what was done to
    it.  Logging in and selecting the marketplace work; the control "Get
    Competitors" never appears for B0NOBUTTON0; the results never load for
    B0NORESULT; the input box cannot be located for B0NOINPUT0; every other
    identifier shows the one card [discovered]. *)
Definition did (what : string) : M (list string) unit :=
  modify (fun log => log ++ [what]).

Definition fails (what : string) (e : exn) : M (list string) unit :=
  did what;; raise e.

Definition scripted : Competitor.Browser (list string) :=
  {| Competitor.open_signin := did "open signin";
     Competitor.login := fun _ _ => did "login";
     Competitor.quit := fun log => log ++ ["quit"];
     Competitor.open_cerebro := did "open cerebro";
     Competitor.open_marketplace_dropdown := did "open dropdown";
     Competitor.select_marketplace_by_value := fun v => did ("select " +:+ v);
     Competitor._soft_reset_cerebro := fun log => (true, log ++ ["soft reset"]);
     Competitor.reload_page := did "reload";
     Competitor.enter_asin := fun asin =>
       if String.eqb asin "B0NOINPUT0"
       then fails ("no input box for " +:+ asin) TimeoutException
       else did ("enter " +:+ asin);
     Competitor.click_get_competitors := fun log =>
       if bool_decide (last log = Some "enter B0NOBUTTON0")
       then fails "no button" TimeoutException log
       else did "click" log;
     Competitor.reenter_and_click := fun asin =>
       if String.eqb asin "B0NOBUTTON0" || String.eqb asin "B0NORESULT"
       then fails ("retry fails for " +:+ asin) TimeoutException
       else did ("retry " +:+ asin);
     Competitor._wait_for_competitor_results := fun asin =>
       if String.eqb asin "B0NORESULT"
       then fails ("no results for " +:+ asin) TimeoutException
       else did ("results for " +:+ asin);
     Competitor.body_has := fun asin log =>
       (negb (String.eqb asin "B0NORESULT"), log);
     Competitor.first_card_present := did "first card";
     Competitor.count_cards := fun log => (Ok 1, log);
     Competitor.scroll_to_last := fun log => log;
     Competitor.all_cards := fun log => (Ok [discovered], log ++ ["cards read"]) |}.

Definition no_env : string -> option string := fun _ => None.

(** A session in which a search shows [n] result cards, however often the
    page is polled; with no card the wait for the first one times out. *)
Definition showing (n : nat) : Competitor.Browser (list string) :=
  {| Competitor.open_signin := did "open signin";
     Competitor.login := fun _ _ => did "login";
     Competitor.quit := fun log => log ++ ["quit"];
     Competitor.open_cerebro := did "open cerebro";
     Competitor.open_marketplace_dropdown := did "open dropdown";
     Competitor.select_marketplace_by_value := fun v => did ("select " +:+ v);
     Competitor._soft_reset_cerebro := fun log => (true, log ++ ["soft reset"]);
     Competitor.reload_page := did "reload";
     Competitor.enter_asin := fun asin => did ("enter " +:+ asin);
     Competitor.click_get_competitors := did "click";
     Competitor.reenter_and_click := fun asin => did ("retry " +:+ asin);
     Competitor._wait_for_competitor_results := fun asin => did ("results for " +:+ asin);
     Competitor.body_has := fun asin log => (true, log);
     Competitor.first_card_present :=
       match n with
       | 0 => fails "no card" TimeoutException
       | S _ => did "first card"
       end;
     Competitor.count_cards := fun log => (Ok n, log ++ ["poll"]);
     Competitor.scroll_to_last := fun log => log ++ ["scroll"];
     Competitor.all_cards := fun log => (Ok (replicate n discovered), log ++ ["cards read"]) |}.

(** Documents for availability extraction: one with a single structured
    node, one with page text only. *)
Definition soup_with_node (sel : string) (text page : UText.utext) : Products.Soup :=
  {| Products.select_text := fun s => if String.eqb s sel then Some text else None;
     Products.page_text := page |}.

Definition soup_page_only (page : UText.utext) : Products.Soup :=
  {| Products.select_text := fun _ => None;
     Products.page_text := page |}.

(** A document all of whose texts are ASCII. *)
Definition ascii_soup (nodes : string -> option string) (page : string) : Products.Soup :=
  {| Products.select_text := fun s => UText.embed <$> nodes s;
     Products.page_text := UText.embed page |}.

End Scenarios.

(** * Properties *)

(** ** Characters and text *)
Module PyFacts.
Import Py.

Ltac by_cases_on_char c :=
  destruct c as [[] [] [] [] [] [] [] []]; vm_compute; try reflexivity; try tauto; try discriminate.

Lemma to_lower_idem c : to_lower (to_lower c) = to_lower c.
Proof. by_cases_on_char c. Qed.

Lemma is_space_to_lower c : is_space (to_lower c) = is_space c.
Proof. by_cases_on_char c. Qed.

Lemma is_digit_to_lower c : is_digit (to_lower c) = is_digit c.
Proof. by_cases_on_char c. Qed.

Lemma is_digit_not_upper c : is_digit c = true -> to_lower c = c.
Proof. by_cases_on_char c. Qed.

Lemma chars_str l : chars (str l) = l.
Proof. apply list_ascii_of_string_of_list_ascii. Qed.

Lemma str_chars s : str (chars s) = s.
Proof. apply string_of_list_ascii_of_string. Qed.

Lemma chars_inj s1 s2 : chars s1 = chars s2 -> s1 = s2.
Proof. intros H. rewrite <- (str_chars s1), <- (str_chars s2). now rewrite H. Qed.

Lemma truthy_chars s : truthy s = true <-> chars s <> [].
Proof. destruct s; simpl; split; intros; congruence. Qed.

Lemma lstrip_by_id p l : forallb (fun c => negb (p c)) l = true -> lstrip_by p l = l.
Proof.
  destruct l as [|c l]; simpl; [reflexivity|].
  intros H. apply andb_true_iff in H as [H _].
  destruct (p c); [discriminate | reflexivity].
Qed.

Lemma forallb_rev {A} (p : A -> bool) l : forallb p (rev l) = forallb p l.
Proof.
  induction l as [|a l IH]; simpl; [reflexivity|].
  rewrite forallb_app, IH. simpl. rewrite andb_true_r. apply andb_comm.
Qed.

Lemma rstrip_by_id p l : forallb (fun c => negb (p c)) l = true -> rstrip_by p l = l.
Proof.
  intros H. unfold rstrip_by. rewrite lstrip_by_id.
  - apply rev_involutive.
  - now rewrite forallb_rev.
Qed.

Lemma strip_l_id l : forallb (fun c => negb (is_space c)) l = true -> strip_l l = l.
Proof.
  intros H. unfold strip_l. rewrite (lstrip_by_id _ _ H). now apply rstrip_by_id.
Qed.

(** Stripping commutes with a character map that keeps the class. *)
Lemma lstrip_by_fmap (f : ascii -> ascii) p l :
  (forall c, p (f c) = p c) -> lstrip_by p (f <$> l) = f <$> lstrip_by p l.
Proof.
  intros Hp. induction l as [|c l IH]; simpl; [reflexivity|].
  rewrite Hp. destruct (p c); [exact IH | reflexivity].
Qed.

Lemma fmap_rev {A C} (f : A -> C) l : f <$> rev l = rev (f <$> l).
Proof.
  induction l as [|a l IH]; simpl; [reflexivity|].
  now rewrite fmap_app, IH.
Qed.

Lemma rstrip_by_fmap (f : ascii -> ascii) p l :
  (forall c, p (f c) = p c) -> rstrip_by p (f <$> l) = f <$> rstrip_by p l.
Proof.
  intros Hp. unfold rstrip_by.
  rewrite <- fmap_rev, (lstrip_by_fmap f p _ Hp), fmap_rev. reflexivity.
Qed.

End PyFacts.

(** ** The matcher *)
Module ReFacts.
Import Py Re PyFacts.

Lemma take_add_app {A} (l : list A) n1 n2 :
  take (n1 + n2) l = take n1 l ++ take n2 (drop n1 l).
Proof.
  revert l. induction n1 as [|n1 IH]; intros [|a l]; simpl; try reflexivity.
  - now rewrite take_nil.
  - now rewrite IH.
Qed.

Lemma countdown_S k : rev (seq 1 (S k)) = S k :: rev (seq 1 k).
Proof. rewrite seq_S, rev_app_distr. reflexivity. Qed.

Lemma elem_of_countdown n k : n ∈ rev (seq 1 k) <-> 1 <= n <= k.
Proof.
  rewrite list_elem_of_In, <- in_rev, in_seq. lia.
Qed.

Lemma span_len_le p l : span_len p l <= length l.
Proof. induction l as [|c l IH]; simpl; [lia|]. destruct (p c); simpl; lia. Qed.

Lemma span_len_take p l n : n <= span_len p l -> forallb p (take n l) = true.
Proof.
  revert n. induction l as [|c l IH]; intros [|n]; simpl; try reflexivity.
  destruct (p c) eqn:E; [|lia]. intros H. simpl. apply IH. lia.
Qed.

Lemma span_len_app p w rest : forallb p w = true -> length w <= span_len p (w ++ rest).
Proof.
  induction w as [|c w IH]; simpl; [lia|].
  intros H. apply andb_true_iff in H as [Hc Hw]. rewrite Hc. specialize (IH Hw). lia.
Qed.

Lemma span_len_fmap (f : ascii -> ascii) p l :
  (forall c, p (f c) = p c) -> span_len p (f <$> l) = span_len p l.
Proof.
  intros Hp. induction l as [|c l IH]; csimpl; [reflexivity|].
  rewrite Hp, IH. reflexivity.
Qed.

(** Every listed length is the length of a word of the pattern at the start
    of the text. *)
Lemma matches_sound r : forall l n,
  n ∈ matches r l -> n <= length l /\ Lang r (take n l).
Proof.
  induction r as [|p|p|r1 IH1 r2 IH2|r IH]; intros l n Hn; simpl in *.
  - apply list_elem_of_singleton in Hn as ->. split; [lia|]. now rewrite take_0.
  - destruct l as [|c l]; [now apply elem_of_nil in Hn|].
    destruct (p c) eqn:E; [|now apply elem_of_nil in Hn].
    apply list_elem_of_singleton in Hn as ->. simpl. split; [lia|].
    exists c. rewrite take_0. auto.
  - apply elem_of_countdown in Hn. pose proof (span_len_le p l).
    split; [lia|]. split.
    + destruct l; simpl in *; [lia|]. destruct n; [lia|]. simpl. discriminate.
    + apply span_len_take. lia.
  - apply list_elem_of_bind in Hn as (n1 & Hn & Hn1).
    apply list_elem_of_fmap in Hn as (n2 & -> & Hn2).
    apply IH1 in Hn1 as [Hle1 HL1]. apply IH2 in Hn2 as [Hle2 HL2].
    rewrite length_drop in Hle2. split; [lia|].
    exists (take n1 l), (take n2 (drop n1 l)). split; [apply take_add_app | auto].
  - apply elem_of_app in Hn as [Hn | Hn].
    + apply IH in Hn as [? ?]. auto.
    + apply list_elem_of_singleton in Hn as ->. split; [lia|]. right. now rewrite take_0.
Qed.

(** Every word of the pattern at the start of the text is listed. *)
Lemma matches_complete r : forall w rest,
  Lang r w -> length w ∈ matches r (w ++ rest).
Proof.
  induction r as [|p|p|r1 IH1 r2 IH2|r IH]; intros w rest HL; simpl in *.
  - subst. simpl. apply list_elem_of_singleton. reflexivity.
  - destruct HL as (c & -> & Hc). simpl. rewrite Hc. apply list_elem_of_singleton. reflexivity.
  - destruct HL as [Hne Hall]. apply elem_of_countdown.
    pose proof (span_len_app p w rest Hall). destruct w; [congruence|]. simpl in *. lia.
  - destruct HL as (w1 & w2 & -> & H1 & H2).
    apply list_elem_of_bind. exists (length w1). split.
    + rewrite length_app. apply list_elem_of_fmap. exists (length w2). split; [reflexivity|].
      rewrite <- app_assoc, drop_app_length. now apply IH2.
    + rewrite <- app_assoc. now apply IH1.
  - destruct HL as [HL | ->].
    + apply elem_of_app. left. now apply IH.
    + apply elem_of_app. right. apply list_elem_of_singleton. reflexivity.
Qed.

Lemma fullmatch_Lang r l : fullmatch r l = true <-> Lang r l.
Proof.
  unfold fullmatch. rewrite bool_decide_eq_true. split.
  - intros H. apply matches_sound in H as [_ H]. now rewrite firstn_all in H.
  - intros H. pose proof (matches_complete r l [] H) as H'. now rewrite app_nil_r in H'.
Qed.

Lemma bind_ext {A C} (f g : A -> list C) l :
  (forall x, f x = g x) -> l ≫= f = l ≫= g.
Proof.
  intros H. induction l as [|a l IH]; [reflexivity|].
  change ((a :: l) ≫= f) with (f a ++ (l ≫= f)).
  change ((a :: l) ≫= g) with (g a ++ (l ≫= g)).
  now rewrite H, IH.
Qed.

(** A case-blind pattern matches a text as it matches its lower-case form. *)
Lemma matches_lower r : case_blind r ->
  forall l, matches r (lower_l l) = matches r l.
Proof.
  unfold lower_l.
  induction r as [|p|p|r1 IH1 r2 IH2|r IH]; intros Hcb l; simpl in *.
  - reflexivity.
  - destruct l as [|c l]; csimpl; [reflexivity|]. now rewrite Hcb.
  - now rewrite span_len_fmap.
  - destruct Hcb as [H1 H2]. rewrite (IH1 H1).
    apply bind_ext. intros n. now rewrite <- fmap_drop, (IH2 H2).
  - now rewrite (IH Hcb).
Qed.

Lemma search_from_lower r : case_blind r ->
  forall l i, search_from r (lower_l l) i = search_from r l i.
Proof.
  intros Hcb l. induction l as [|c l IH]; intros i.
  - reflexivity.
  - change (lower_l (c :: l)) with (to_lower c :: lower_l l).
    simpl. change (to_lower c :: lower_l l) with (lower_l (c :: l)).
    rewrite (matches_lower r Hcb). destruct (matches r (c :: l)); [apply IH | reflexivity].
Qed.

Lemma found_lower r l : case_blind r -> found r (lower_l l) = found r l.
Proof. intros H. unfold found, search. now rewrite search_from_lower. Qed.

(** Where [search] reports a span, the pattern's first match starts. *)
Lemma search_from_Some r : forall l i s e,
  search_from r l i = Some (s, e) ->
  exists k n, s = i + k /\ e = s + n /\ k <= length l /\ n ∈ matches r (drop k l).
Proof.
  induction l as [|c l IH]; intros i s e H; simpl in H.
  - destruct (matches r []) as [|n ns] eqn:E; [discriminate|].
    injection H as <- <-. exists 0, n. rewrite Nat.add_0_r, drop_0, E.
    repeat split; simpl; try lia; apply list_elem_of_here.
  - destruct (matches r (c :: l)) as [|n ns] eqn:E.
    + apply IH in H as (k & n & -> & -> & Hk & Hn).
      exists (S k), n. simpl. repeat split; try lia; exact Hn.
    + injection H as <- <-. exists 0, n. rewrite Nat.add_0_r, drop_0, E.
      repeat split; simpl; try lia; apply list_elem_of_here.
Qed.

Lemma search_at_start r l n :
  n ∈ matches r l -> exists e, search r l = Some (0, e).
Proof.
  intros H. unfold search. destruct l; simpl; destruct (matches r _) eqn:E;
    try (now apply elem_of_nil in H); eauto.
Qed.

(** The text a case-blind [search] on the lower-cased text points at is a
    word of the pattern, also in the original spelling. *)
Lemma search_lower_slice r text s e : case_blind r ->
  search r (lower_l text) = Some (s, e) -> Lang r (slice text s e).
Proof.
  intros Hcb H. unfold search in H. rewrite search_from_lower in H by assumption.
  apply search_from_Some in H as (k & n & -> & -> & Hk & Hn).
  apply matches_sound in Hn as [_ HL]. unfold slice. simpl.
  now replace (k + n - k) with n by lia.
Qed.

End ReFacts.

(** ** app.py: identifiers *)
Module AppFacts.
Import Py Re PyFacts ReFacts Pandas App.

Lemma upper_alnum_plain c :
  is_upper_alnum c = true -> is_space c = false /\ to_upper c = c /\ c <> ","%char.
Proof. by_cases_on_char c; repeat split; discriminate. Qed.

Lemma Lang_times_Any n p : forall w,
  Lang (times n (Any p)) w <-> length w = n /\ forallb p w = true.
Proof.
  induction n as [|n IH]; intros w; simpl.
  - split; [intros ->; auto | intros [H _]; now destruct w].
  - split.
    + intros (w1 & w2 & -> & (c & -> & Hc) & H2). apply IH in H2 as [<- H2].
      simpl. rewrite Hc, H2. auto.
    + intros [Hlen Hall]. destruct w as [|c w]; [discriminate|].
      simpl in *. apply andb_true_iff in Hall as [Hc Hw].
      exists [c], w. split; [reflexivity|]. split; [eauto|]. apply IH. split; [lia | assumption].
Qed.

Lemma Lang_asin_re l :
  Lang asin_re l <->
  exists tail, l = "B"%char :: "0"%char :: tail /\ length tail = 8 /\
               forallb is_upper_alnum tail = true.
Proof.
  unfold asin_re, chr. split.
  - intros (w1 & w2 & -> & (c1 & -> & H1) & w3 & w4 & -> & (c2 & -> & H2) & H8).
    apply Ascii.eqb_eq in H1 as <-. apply Ascii.eqb_eq in H2 as <-.
    apply Lang_times_Any in H8 as [? ?]. exists w4. auto.
  - intros (tail & -> & Hlen & Hall).
    exists ["B"%char], ("0"%char :: tail). split; [reflexivity|]. split.
    + exists "B"%char. split; [reflexivity | apply Ascii.eqb_refl].
    + exists ["0"%char], tail. split; [reflexivity|]. split.
      * exists "0"%char. split; [reflexivity | apply Ascii.eqb_refl].
      * apply Lang_times_Any. auto.
Qed.

(** The pattern of the code is the format of the specification. *)
Lemma is_asin_canonical x : is_asin x = true <-> canonical_identifier x.
Proof.
  unfold is_asin, canonical_identifier. rewrite fullmatch_Lang, Lang_asin_re.
  split; intros (tail & H & Hlen & Hall); exists tail; repeat split; try assumption.
  - apply Forall_forall. intros c Hc. rewrite forallb_forall in Hall.
    apply list_elem_of_In, Hall in Hc. unfold is_upper_alnum in Hc.
    now apply orb_true_iff in Hc.
  - apply forallb_forall. intros c Hc. rewrite Forall_forall in Hall.
    unfold is_upper_alnum. apply orb_true_iff. now apply Hall, list_elem_of_In.
Qed.

Lemma is_asin_chars x :
  is_asin x = true -> forallb is_upper_alnum (chars x) = true.
Proof.
  unfold is_asin. rewrite fullmatch_Lang, Lang_asin_re.
  intros (tail & -> & _ & Hall). simpl. exact Hall.
Qed.

Lemma upper_alnum_strip l :
  forallb is_upper_alnum l = true -> strip_l l = l.
Proof.
  intros H. apply strip_l_id. apply forallb_forall. intros c Hc.
  rewrite forallb_forall in H. apply H, upper_alnum_plain in Hc as [-> _]. reflexivity.
Qed.

Lemma upper_alnum_upper l :
  forallb is_upper_alnum l = true -> upper_l l = l.
Proof.
  unfold upper_l. induction l as [|c l IH]; csimpl; [reflexivity|].
  intros H. apply andb_true_iff in H as [Hc Hl].
  apply upper_alnum_plain in Hc as (_ & -> & _). now rewrite IH.
Qed.

(** A canonical identifier is a fixed point of the normalisation. *)
Lemma norm_asin_fixed x : is_asin x = true -> _norm_asin (CStr x) = x.
Proof.
  intros H. pose proof (is_asin_chars x H) as Hall.
  unfold _norm_asin. simpl.
  assert (Hx : upper (strip x) = x).
  { unfold upper, strip. rewrite chars_str, (upper_alnum_strip _ Hall),
      (upper_alnum_upper _ Hall). apply str_chars. }
  now rewrite Hx, H.
Qed.

(** C9.  Normalising an identifier twice is normalising it once, and the
    result is either the empty string or an upper-case token of the fixed
    format B0 + 8 characters of A-Z, 0-9, which is exactly what the pattern
    of the code accepts. *)
Theorem norm_asin_idempotent (t : cell) :
  _norm_asin (CStr (_norm_asin t)) = _norm_asin t /\
  (_norm_asin t = "" \/
   (canonical_identifier (_norm_asin t) /\ is_asin (_norm_asin t) = true /\
    upper (_norm_asin t) = _norm_asin t)).
Proof.
  assert (Hcases : _norm_asin t = "" \/ is_asin (_norm_asin t) = true).
  { unfold _norm_asin. destruct (isna t); [now left|].
    destruct (is_asin (upper (strip (to_str t)))) eqn:E; [now right | now left]. }
  destruct Hcases as [E | E].
  - rewrite E. split; [reflexivity | now left].
  - split; [now apply norm_asin_fixed|]. right.
    split; [now apply is_asin_canonical|]. split; [assumption|].
    pose proof (is_asin_chars _ E) as Hall.
    unfold upper. rewrite (upper_alnum_upper _ Hall). apply str_chars.
Qed.

End AppFacts.

(** ** scraper_products.py: the fetch loop *)
Module FetchFacts.
Import Py Pandas Eff Products.

Ltac unfold_m :=
  unfold mbind, M_bind, bind, mret, M_ret, ret, raise, try_except, get, modify,
         log, logged, append_main, extend_buybox in *.

#[global] Arguments not_found_row : simpl never.
#[global] Arguments product_data : simpl never.
#[global] Arguments offer_row : simpl never.

Lemma product_data_truthy asin name f :
  dict_truthy (product_data asin name f) = true.
Proof.
  unfold dict_truthy. apply negb_true_iff, bool_decide_eq_false. intros H.
  assert (E : product_data asin name f !! "ASIN" = Some asin) by reflexivity.
  rewrite H in E. discriminate.
Qed.

Lemma product_data_carries asin name f : carries final_columns (product_data asin name f).
Proof. unfold carries, final_columns. repeat constructor; vm_compute; eauto. Qed.

Lemma offer_row_carries asin name o : carries final_cols (offer_row asin name o).
Proof. unfold carries, final_cols. repeat constructor; vm_compute; eauto. Qed.

Lemma not_found_row_carries asin : carries final_columns (not_found_row asin).
Proof. unfold carries, final_columns. repeat constructor; vm_compute; eauto. Qed.

Lemma attempt_eq net asin url name s :
  attempt net asin url name s =
  (Ok match net (trace s) asin url with
      | PageFound f offers =>
          (Some (product_data asin name f), offer_row asin name <$> offers)
      | _ => (None, [])
      end, logged s (Request asin url)).
Proof.
  unfold attempt, scrape_asin_from_url. unfold_m. simpl.
  destruct (net (trace s) asin url); reflexivity.
Qed.

Lemma while_retries_S net left asin url name s :
  while_retries net (S left) asin url name s =
  match net (trace s) asin url with
  | PageFound f offers =>
      (Ok true,
       {| trace := trace s ++ [Request asin url];
          all_main := all_main s ++ [product_data asin name f];
          all_buybox := all_buybox s ++ (offer_row asin name <$> offers) |})
  | _ =>
      while_retries net left asin url name
        (match left with
         | 0 => logged s (Request asin url)
         | S _ => logged (logged s (Request asin url)) (Sleep 3)
         end)
  end.
Proof.
  cbn [while_retries].
  unfold mbind at 1, M_bind at 1, bind at 1. rewrite attempt_eq.
  destruct (net (trace s) asin url) as [| |f offers].
  - destruct left; reflexivity.
  - destruct left; reflexivity.
  - rewrite product_data_truthy. unfold_m. simpl.
    destruct offers as [|o offers]; simpl; [|reflexivity].
    now rewrite app_nil_r.
Qed.

(** The loop always comes back, and it either appended the record of a page
    it found or left both lists as they were. *)
Lemma while_retries_rows net asin url name : forall left s,
  exists found s', while_retries net left asin url name s = (Ok found, s') /\
    ((found = true /\ exists f offers,
        all_main s' = all_main s ++ [product_data asin name f] /\
        all_buybox s' = all_buybox s ++ (offer_row asin name <$> offers)) \/
     (found = false /\ all_main s' = all_main s /\ all_buybox s' = all_buybox s)).
Proof.
  induction left as [|left IH]; intros s.
  - exists false, s. split; [reflexivity|]. right. auto.
  - rewrite while_retries_S. destruct (net (trace s) asin url) as [| |f offers].
    + destruct (IH (match left with 0 => logged s (Request asin url)
                    | S _ => logged (logged s (Request asin url)) (Sleep 3) end))
        as (found & s' & E & H).
      exists found, s'. split; [exact E|]. destruct left; exact H.
    + destruct (IH (match left with 0 => logged s (Request asin url)
                    | S _ => logged (logged s (Request asin url)) (Sleep 3) end))
        as (found & s' & E & H).
      exists found, s'. split; [exact E|]. destruct left; exact H.
    + eexists true, _. split; [reflexivity|]. left. split; [reflexivity|].
      exists f, offers. auto.
Qed.

(** When no attempt finds the page, the loop makes all its attempts, pausing
    between them, and leaves the lists alone. *)
Lemma while_retries_never_found net asin url name :
  (forall tr f offers, net tr asin url <> PageFound f offers) ->
  forall left s,
    while_retries net left asin url name s =
    (Ok false, {| trace := trace s ++ failed_attempts left asin url;
                  all_main := all_main s; all_buybox := all_buybox s |}).
Proof.
  intros Hnet. induction left as [|left IH]; intros s.
  - simpl. rewrite app_nil_r. destruct s; reflexivity.
  - rewrite while_retries_S.
    destruct (net (trace s) asin url) as [| |f offers] eqn:E;
      try (now apply Hnet in E);
      rewrite IH; destruct left; simpl; rewrite <- ?app_assoc; reflexivity.
Qed.

Lemma for_marketplaces_last targets : for_marketplaces targets = last targets.
Proof.
  unfold for_marketplaces. induction targets as [|t targets IH] using rev_ind.
  - reflexivity.
  - rewrite foldl_app, last_snoc. reflexivity.
Qed.

Lemma specific_marketplaces_last marketplace :
  exists target, for_marketplaces (specific_marketplaces marketplace) = Some target.
Proof.
  unfold specific_marketplaces.
  destruct (_resolve_marketplace marketplace) as [r|]; eexists; reflexivity.
Qed.

(** One pass of the identifier loop appends exactly one Products record, with
    the identifier in its ASIN field and with every column of the sheet. *)
Lemma fetch_asin_rows net targets asin s target :
  for_marketplaces targets = Some target ->
  exists s' row offers,
    fetch_asin net targets asin s = (Ok tt, s') /\
    all_main s' = all_main s ++ [row] /\
    row !! "ASIN" = Some asin /\ carries final_columns row /\
    all_buybox s' = all_buybox s ++ offers /\ Forall (carries final_cols) offers.
Proof.
  intros Ht. unfold fetch_asin. rewrite Ht. destruct target as [name url].
  destruct (while_retries_rows net asin url name MAX_RETRIES s)
    as (found & s1 & E & [(-> & f & offers & Hm & Hb) | (-> & Hm & Hb)]).
  - exists s1, (product_data asin name f), (offer_row asin name <$> offers).
    unfold mbind, M_bind, bind. rewrite E. split; [reflexivity|].
    split; [exact Hm|]. split; [reflexivity|]. split; [apply product_data_carries|].
    split; [exact Hb|]. apply Forall_fmap, Forall_forall. intros o _.
    apply offer_row_carries.
  - exists {| trace := trace s1;
              all_main := all_main s1 ++ [not_found_row asin];
              all_buybox := all_buybox s1 |}, (not_found_row asin), [].
    unfold mbind, M_bind, bind. rewrite E.
    split; [reflexivity|]. cbn [all_main all_buybox]. rewrite Hm, Hb, app_nil_r.
    split; [reflexivity|]. split; [reflexivity|].
    split; [apply not_found_row_carries|]. split; [reflexivity | constructor].
Qed.

(** The identifier loop: one record per identifier, in order. *)
Lemma for_asins_rows net targets target :
  for_marketplaces targets = Some target ->
  forall asins s,
  exists s' rows offers,
    for_asins net targets asins s = (Ok tt, s') /\
    all_main s' = all_main s ++ rows /\
    Forall2 (fun asin row => row !! "ASIN" = Some asin /\ carries final_columns row)
            asins rows /\
    all_buybox s' = all_buybox s ++ offers /\ Forall (carries final_cols) offers.
Proof.
  intros Ht. induction asins as [|asin asins IH]; intros s.
  - exists s, [], []. rewrite !app_nil_r. repeat split; constructor.
  - destruct (fetch_asin_rows net targets asin s target Ht)
      as (s1 & row & offers1 & E1 & Hm1 & Hasin & Hc & Hb1 & Ho1).
    destruct (IH s1) as (s2 & rows & offers2 & E2 & Hm2 & Hrows & Hb2 & Ho2).
    exists s2, (row :: rows), (offers1 ++ offers2).
    cbn [for_asins]. unfold mbind, M_bind, bind. rewrite E1.
    split; [exact E2|]. rewrite Hm2, Hm1, Hb2, Hb1, <- !app_assoc.
    repeat split; try reflexivity.
    + constructor; auto.
    + apply Forall_app. auto.
Qed.

End FetchFacts.

(** ** scraper_products.py: the fetch policy and the workbook *)
Module ProductsSpec.
Import Py Pandas Eff Products FetchFacts Scenarios.

(** Decidable facts about concrete data are settled by evaluation. *)
Ltac by_compute :=
  match goal with
  | |- ?P => apply (@bool_decide_eq_true_1 P _)
  end; vm_compute; reflexivity.

(** The fetch of the source is the in-order fetch over the last target
    alone: the earlier targets are never contacted. *)
Lemma fetch_asin_last_only net targets target asin s :
  last targets = Some target ->
  fetch_asin net targets asin s = fetch_asin_in_order net [target] asin s.
Proof.
  intros H. unfold fetch_asin. rewrite for_marketplaces_last, H.
  destruct target as [name url]. reflexivity.
Qed.

(** C1.  The code at the failing input: all five marketplaces are targets,
    the page exists at the first one (amazon.in) only.  The run never
    contacts amazon.in: it makes its five attempts at the last target,
    amazon.co.uk, and records the identifier as not found, where the in-order
    fetch of the specification stops at amazon.in with the page's record. *)
Theorem fetch_contacts_last_marketplace_only :
  specific_marketplaces None = MARKETPLACES /\
  (let s := (run_products_scraper net_india_only "B0ABCDEFGH" None).2 in
   trace s = failed_attempts 5 "B0ABCDEFGH" "https://www.amazon.co.uk/dp/" /\
   ((Request "B0ABCDEFGH" "https://www.amazon.in/dp/") ∉ trace s) /\
   (fun row : gmap string string =>
      (row !! "ASIN", row !! "Marketplace", row !! "Product Title"))
     <$> all_main s = [(Some "B0ABCDEFGH", Some "N/A", Some "Not Found")]) /\
  (let s := (fetch_asin_in_order net_india_only MARKETPLACES "B0ABCDEFGH"
               initial_state).2 in
   trace s = [Request "B0ABCDEFGH" "https://www.amazon.in/dp/"] /\
   (fun row : gmap string string =>
      (row !! "ASIN", row !! "Marketplace", row !! "Product Title"))
     <$> all_main s = [(Some "B0ABCDEFGH", Some "Amazon India", Some "Widget")]).
Proof.
  split; [reflexivity|]. split.
  - split; [vm_compute; reflexivity|]. split; [by_compute | vm_compute; reflexivity].
  - split; vm_compute; reflexivity.
Qed.

Lemma not_found_row_fields asin :
  not_found_row asin !! "ASIN" = Some asin /\
  not_found_row asin !! "Marketplace" = Some "N/A" /\
  not_found_row asin !! "Product Title" = Some "Not Found" /\
  not_found_row asin !! "Amazons_Choice_Text" = Some "unavailable" /\
  not_found_row asin !! "Deal_Badge_Text" = Some "unavailable" /\
  not_found_row asin !! "Best_Seller_Text" = Some "unavailable" /\
  (forall col, col ∈ final_columns -> col ∉ special_columns ->
               not_found_row asin !! col = Some "N/A").
Proof.
  repeat (split; [reflexivity|]).
  assert (H : Forall (fun col => col ∈ special_columns \/
                                 not_found_row asin !! col = Some "N/A") final_columns).
  { unfold final_columns, special_columns.
    repeat (apply List.Forall_cons;
            [ first [ right; vm_compute; reflexivity | left; by_compute ] | ]).
    apply List.Forall_nil. }
  intros col Hin Hnot. rewrite Forall_forall in H. destruct (H col Hin); tauto.
Qed.

(** C2 (amended).  When no marketplace yields the page for an identifier,
    whatever the selector, the pass for that identifier returns without
    raising and appends one row: the identifier in ASIN, "Not Found" in
    Product Title, "unavailable" in the three badge fields, and "N/A" in
    every other column, Marketplace included; no offer row is added. *)
Theorem not_found_row_appended (net : network) (asin : string)
    (marketplace : option string) (s : run_state) :
  (forall tr url f offers, net tr asin url <> PageFound f offers) ->
  exists s',
    fetch_asin net (specific_marketplaces marketplace) asin s = (Ok tt, s') /\
    all_main s' = all_main s ++ [not_found_row asin] /\
    all_buybox s' = all_buybox s /\
    not_found_row asin !! "ASIN" = Some asin /\
    not_found_row asin !! "Marketplace" = Some "N/A" /\
    not_found_row asin !! "Product Title" = Some "Not Found" /\
    not_found_row asin !! "Amazons_Choice_Text" = Some "unavailable" /\
    not_found_row asin !! "Deal_Badge_Text" = Some "unavailable" /\
    not_found_row asin !! "Best_Seller_Text" = Some "unavailable" /\
    (forall col, col ∈ final_columns -> col ∉ special_columns ->
                 not_found_row asin !! col = Some "N/A").
Proof.
  intros Hnet.
  destruct (specific_marketplaces_last marketplace) as ([name url] & Ht).
  eexists. split.
  - unfold fetch_asin. rewrite Ht. unfold mbind, M_bind, bind.
    rewrite (while_retries_never_found net asin url name (fun tr => Hnet tr url)).
    reflexivity.
  - cbn [all_main all_buybox].
    split; [reflexivity|]. split; [reflexivity|]. apply not_found_row_fields.
Qed.

Lemma not_found_row_appended_witness :
  exists s',
    fetch_asin net_nothing (specific_marketplaces (Some "uk")) "B0ABCDEFGH"
      initial_state = (Ok tt, s') /\
    all_main s' = all_main initial_state ++ [not_found_row "B0ABCDEFGH"].
Proof.
  destruct (not_found_row_appended net_nothing "B0ABCDEFGH" (Some "uk") initial_state)
    as (s' & E & Hm & _).
  - intros tr url f offers. unfold net_nothing. discriminate.
  - exists s'. split; assumption.
Defined.

(** C2, as stated, fails: the row of an identifier found nowhere does not
    carry "N/A" in every field. *)
Lemma not_found_row_not_all_sentinel :
  let rows := all_main (run_products_scraper net_nothing "B0ABCDEFGH" None).2 in
  length rows = 1 /\
  ~ Forall (fun row : gmap string string =>
              forall col, col ∈ final_columns -> row !! col = Some "N/A") rows.
Proof.
  assert (E : (fun row : gmap string string => row !! "Product Title")
                <$> all_main (run_products_scraper net_nothing "B0ABCDEFGH" None).2
              = [Some "Not Found"]) by (vm_compute; reflexivity).
  destruct (all_main _) as [|row [|row' rows]]; try discriminate E.
  injection E as E. split; [reflexivity|].
  intros H. apply Forall_inv in H. specialize (H "Product Title").
  rewrite E in H. discriminate H. by_compute.
Qed.

(** *** The workbook *)

Lemma elem_of_record_keys (records : list (gmap string string)) r col :
  r ∈ records -> is_Some (r !! col) -> col ∈ record_keys records.
Proof.
  intros Hr Hc. unfold record_keys. apply elem_of_union_list.
  exists (dom r). split; [now apply list_elem_of_fmap_2 | now apply elem_of_dom].
Qed.

(** A cell of a record that has the key holds the record's value. *)
Lemma reindex_cell_carried (records : list (gmap string string)) fill r col v :
  r ∈ records -> r !! col = Some v -> reindex_cell records fill r col = CStr v.
Proof.
  intros Hr Hv. unfold reindex_cell.
  destruct (decide (col ∈ record_keys records)) as [_|Hn].
  - now rewrite Hv.
  - exfalso. apply Hn. eapply elem_of_record_keys; eauto.
Qed.






End ProductsSpec.

(** ** scraper_products.py: marketplace resolution *)
Module MarketplaceSpec.
Import Py PyFacts Pandas Eff Products.

Lemma to_lower_to_upper c : to_lower (to_upper c) = to_lower c.
Proof. by_cases_on_char c. Qed.

Lemma is_space_to_upper c : is_space (to_upper c) = is_space c.
Proof. by_cases_on_char c. Qed.

Lemma strip_l_fmap (f : ascii -> ascii) l :
  (forall c, is_space (f c) = is_space c) -> strip_l (f <$> l) = f <$> strip_l l.
Proof.
  intros H. unfold strip_l. now rewrite lstrip_by_fmap, rstrip_by_fmap.
Qed.

(** The key looked up in the alias table. *)
Lemma key_of_upper u : lower (strip (upper u)) = lower (strip u).
Proof.
  unfold lower, strip, upper, lower_l, upper_l. rewrite !chars_str.
  rewrite (strip_l_fmap to_upper _ is_space_to_upper).
  rewrite <- list_fmap_compose. f_equal.
  apply list_fmap_ext. intros ? c _. apply to_lower_to_upper.
Qed.

Lemma key_of_lower u : lower (strip (lower u)) = lower (strip u).
Proof.
  unfold lower, strip, lower_l. rewrite !chars_str.
  rewrite (strip_l_fmap to_lower _ is_space_to_lower).
  rewrite <- list_fmap_compose. f_equal.
  apply list_fmap_ext. intros ? c _. apply to_lower_idem.
Qed.

Lemma truthy_upper u : truthy (upper u) = truthy u.
Proof. destruct u; reflexivity. Qed.

Lemma truthy_lower u : truthy (lower u) = truthy u.
Proof. destruct u; reflexivity. Qed.

Lemma dict_get_In d k v : dict_get d k = Some v -> In (k, v) d.
Proof.
  induction d as [|[k' v'] d IH]; simpl; [discriminate|].
  destruct (String.eqb k k') eqn:E.
  - apply String.eqb_eq in E as ->. intros [= ->]. now left.
  - intros H. right. now apply IH.
Qed.

(** Every alias names a configured marketplace. *)
Lemma alias_is_configured key mp_name :
  dict_get _MARKETPLACE_ALIASES key = Some mp_name ->
  truthy mp_name = true /\
  exists base_url, dict_get MARKETPLACES mp_name = Some base_url /\
                   truthy base_url = true /\ In (mp_name, base_url) MARKETPLACES.
Proof.
  intros H. apply dict_get_In in H. simpl in H.
  repeat (destruct H as [[= <- <-] | H];
          [split; [reflexivity|]; eexists; split; [reflexivity|];
           split; [reflexivity|]; simpl; tauto |]).
  contradiction.
Qed.

(** C7.  The code at the failing input.  An alias resolves, whatever its
    letter case and surrounding whitespace, to the one marketplace it names,
    and a selector that is absent, empty or no alias gives the five
    configured marketplaces, in configuration order, as targets.  But the
    targets of that fallback are not tried in order: with the page at the
    first of them (amazon.in) only, the run for an empty selector and for
    the selector "mars" makes its five attempts at the last one,
    amazon.co.uk, never asks amazon.in, and records the identifier as not
    found, where trying the same target list in order stops at amazon.in
    with the page's record. *)
Theorem fallback_contacts_last_target_only :
  Forall (fun u => specific_marketplaces (Some u)
                   = [("Amazon India", "https://www.amazon.in/dp/")])
         ["india"; "INDIA"; " India "; "in"] /\
  Forall (fun sel => specific_marketplaces sel = MARKETPLACES)
         [None; Some ""; Some "mars"] /\
  Forall (fun sel =>
            let s := (run_products_scraper Scenarios.net_india_only "B0ABCDEFGH" sel).2 in
            trace s = failed_attempts 5 "B0ABCDEFGH" "https://www.amazon.co.uk/dp/" /\
            ((Request "B0ABCDEFGH" "https://www.amazon.in/dp/") ∉ trace s) /\
            (fun row : gmap string string =>
               (row !! "ASIN", row !! "Marketplace", row !! "Product Title"))
              <$> all_main s = [(Some "B0ABCDEFGH", Some "N/A", Some "Not Found")])
         [Some ""; Some "mars"] /\
  (let s := (fetch_asin_in_order Scenarios.net_india_only
               (specific_marketplaces (Some "mars")) "B0ABCDEFGH" initial_state).2 in
   trace s = [Request "B0ABCDEFGH" "https://www.amazon.in/dp/"] /\
   (fun row : gmap string string =>
      (row !! "ASIN", row !! "Marketplace", row !! "Product Title"))
     <$> all_main s = [(Some "B0ABCDEFGH", Some "Amazon India", Some "Widget")]).
Proof.
  split; [repeat constructor|]. split; [repeat constructor|]. split.
  - repeat (apply List.Forall_cons;
            [split; [vm_compute; reflexivity|];
             split; [apply (@bool_decide_eq_true_1 _ _); vm_compute; reflexivity
                    | vm_compute; reflexivity] |]).
    apply List.Forall_nil.
  - split; vm_compute; reflexivity.
Qed.

End MarketplaceSpec.

(** ** Splitting and joining tokens *)
Module TokenFacts.
Import Py PyFacts.

Lemma split_l_cons c l :
  split_l (c :: l) =
  if is_space c then split_l l
  else match l with
       | [] => [[c]]
       | d :: _ =>
           if is_space d then [c] :: split_l l
           else match split_l l with
                | w :: ws => (c :: w) :: ws
                | [] => [[c]]
                end
       end.
Proof. reflexivity. Qed.

(** Every token [split] returns is a word. *)
Lemma split_l_words l : Forall (fun w => is_word w = true) (split_l l).
Proof.
  induction l as [|c l IH]; [constructor|].
  rewrite split_l_cons. destruct (is_space c) eqn:Ec; [exact IH|].
  destruct l as [|d l]; [repeat constructor; simpl; now rewrite Ec|].
  destruct (is_space d) eqn:Ed.
  - constructor; [simpl; now rewrite Ec | exact IH].
  - destruct (split_l (d :: l)) as [|w ws]; [repeat constructor; simpl; now rewrite Ec|].
    inversion IH as [|? ? Hw Hws]; subst. constructor; [|exact Hws].
    destruct w as [|e w]; [discriminate|]. simpl in *. now rewrite Ec.
Qed.

Lemma split_l_word_then_space w rest :
  is_word w = true -> split_l (w ++ " "%char :: rest) = w :: split_l rest.
Proof.
  induction w as [|c w IH]; [discriminate|].
  intros Hw. simpl in Hw. apply andb_true_iff in Hw as [Hc Hw].
  apply negb_true_iff in Hc.
  change ((c :: w) ++ " "%char :: rest) with (c :: (w ++ " "%char :: rest)).
  rewrite split_l_cons, Hc. destruct w as [|d w].
  - simpl app. change (is_space " ") with true. cbv iota.
    now rewrite (split_l_cons " "%char rest).
  - assert (Hdw : is_word (d :: w) = true) by exact Hw.
    simpl in Hw. apply andb_true_iff in Hw as [Hd _]. apply negb_true_iff in Hd.
    change ((d :: w) ++ " "%char :: rest) with (d :: (w ++ " "%char :: rest)) in *.
    cbv iota. rewrite Hd. now rewrite (IH Hdw).
Qed.

Lemma split_l_word w : is_word w = true -> split_l w = [w].
Proof.
  induction w as [|c w IH]; [discriminate|].
  intros Hw. simpl in Hw. apply andb_true_iff in Hw as [Hc Hw].
  apply negb_true_iff in Hc. rewrite split_l_cons, Hc.
  destruct w as [|d w]; [reflexivity|].
  assert (Hdw : is_word (d :: w) = true) by exact Hw.
  simpl in Hw. apply andb_true_iff in Hw as [Hd _]. apply negb_true_iff in Hd.
  now rewrite Hd, (IH Hdw).
Qed.

(** Splitting what was joined with single spaces gives the words back. *)
Lemma split_l_join ws :
  Forall (fun w => is_word w = true) ws -> split_l (join_l [" "%char] ws) = ws.
Proof.
  induction ws as [|w ws IH]; [reflexivity|].
  intros H. inversion H as [|? ? Hw Hws]; subst.
  destruct ws as [|w' ws]; [now apply split_l_word|].
  change (join_l [" "%char] (w :: w' :: ws))
    with (w ++ " "%char :: join_l [" "%char] (w' :: ws)).
  rewrite (split_l_word_then_space _ _ Hw). now rewrite (IH Hws).
Qed.

Lemma fmap_join_l (f : ascii -> ascii) (sep : list ascii) (ws : list (list ascii)) :
  f <$> join_l sep ws = join_l (f <$> sep) ((fun w : list ascii => f <$> w) <$> ws).
Proof.
  induction ws as [|w ws IH]; [reflexivity|].
  destruct ws as [|w' ws]; [reflexivity|].
  change (join_l sep (w :: w' :: ws)) with (w ++ sep ++ join_l sep (w' :: ws)).
  rewrite !fmap_app, IH. reflexivity.
Qed.

Lemma fmap_fixed {A} (f : A -> A) l : Forall (fun x => f x = x) l -> f <$> l = l.
Proof. induction 1 as [|x l Hx _ IH]; csimpl; [reflexivity|]. now rewrite Hx, IH. Qed.

Lemma filter_all {A} (P : A -> Prop) `{forall x, Decision (P x)} l :
  Forall P l -> filter P l = l.
Proof.
  induction 1 as [|x l Hx _ IH]; [reflexivity|].
  rewrite filter_cons_True by assumption. now rewrite IH.
Qed.

Lemma is_word_strip w : is_word w = true -> strip_l w = w.
Proof. intros H. apply strip_l_id. destruct w; [discriminate | exact H]. Qed.

(** A token list built by [split] is not changed by the filter and the
    [strip] of the list comprehensions that follow it in the source. *)
Lemma tokens_kept l :
  strip <$> filter (fun a => truthy (strip a) = true) (str <$> split_l l)
  = str <$> split_l l.
Proof.
  pose proof (split_l_words l) as Hw.
  assert (Hs : Forall (fun a => strip a = a) (str <$> split_l l)).
  { apply Forall_fmap. eapply Forall_impl; [exact Hw|]. intros w H. simpl.
    unfold strip. now rewrite chars_str, (is_word_strip _ H). }
  rewrite filter_all.
  - now apply fmap_fixed.
  - apply Forall_fmap. eapply Forall_impl; [exact Hw|]. intros w H. simpl.
    unfold strip. rewrite chars_str, (is_word_strip _ H).
    apply truthy_chars. rewrite chars_str. destruct w; [discriminate | discriminate].
Qed.

End TokenFacts.

(** ** app.py: the identifier union of the competitor route *)
Module RouteSpec.
Import Py PyFacts Pandas Eff App AppFacts TokenFacts Scenarios.

Ltac by_compute :=
  match goal with
  | |- ?P => apply (@bool_decide_eq_true_1 P _)
  end; vm_compute; reflexivity.

Lemma elem_of_insert_sorted x y l : x ∈ insert_sorted y l <-> x = y \/ x ∈ l.
Proof.
  induction l as [|z l IH]; simpl.
  - rewrite list_elem_of_singleton, elem_of_nil. tauto.
  - destruct (String.leb y z); rewrite !elem_of_cons; [tauto|]. rewrite IH. tauto.
Qed.

(** [sorted(set(xs))] has the elements of [xs]. *)
Lemma elem_of_sorted_set x xs : x ∈ sorted_set xs <-> x ∈ xs.
Proof.
  unfold sorted_set. rewrite <- (elem_of_remove_dups xs).
  induction (remove_dups xs) as [|y l IH]; simpl; [reflexivity|].
  rewrite elem_of_insert_sorted, elem_of_cons, IH. reflexivity.
Qed.

Lemma route_union_valid seed_asins_raw comp_df a :
  a ∈ route_asin_union seed_asins_raw comp_df -> is_asin a = true.
Proof.
  unfold route_asin_union. rewrite elem_of_sorted_set, elem_of_app.
  unfold route_seed_asins, route_comp_asins.
  intros [H | H]; apply list_elem_of_filter in H as [H _]; exact H.
Qed.

Lemma asin_is_word a : is_asin a = true -> is_word (chars a) = true.
Proof.
  intros H. pose proof (is_asin_chars a H) as Hall.
  apply is_asin_canonical in H as (tail & E & _). rewrite E in *.
  unfold is_word. apply forallb_forall. intros c Hc.
  rewrite forallb_forall in Hall. apply Hall, upper_alnum_plain in Hc as [-> _].
  reflexivity.
Qed.

Lemma asin_comma_free a :
  is_asin a = true -> comma_to_space <$> chars a = chars a.
Proof.
  intros H. pose proof (is_asin_chars a H) as Hall.
  apply fmap_fixed, Forall_forall. intros c Hc.
  rewrite forallb_forall in Hall. apply list_elem_of_In, Hall in Hc.
  apply upper_alnum_plain in Hc as (_ & _ & Hne).
  unfold comma_to_space. destruct (Ascii.eqb c ",") eqn:E; [|reflexivity].
  apply Ascii.eqb_eq in E. contradiction.
Qed.

(** Identifiers joined with spaces come back as the same list from the
    tokenisation at the head of [run_products_scraper]. *)
Lemma asin_list_of_join l :
  Forall (fun a => is_asin a = true) l ->
  Products.asin_list_of (join " " l) = l.
Proof.
  intros Hl. unfold Products.asin_list_of, split, replace_commas, join.
  rewrite !chars_str, fmap_join_l.
  assert (E1 : (fun w : list ascii => comma_to_space <$> w) <$> (chars <$> l)
               = chars <$> l).
  { apply fmap_fixed, Forall_fmap. eapply Forall_impl; [exact Hl|].
    intros a Ha. simpl. now apply asin_comma_free. }
  rewrite E1. change (comma_to_space <$> chars " ") with [" "%char].
  assert (E2 : split_l (join_l [" "%char] (chars <$> l)) = chars <$> l).
  { apply split_l_join, Forall_fmap. eapply Forall_impl; [exact Hl|].
    intros a Ha. simpl. now apply asin_is_word. }
  pose proof (tokens_kept (join_l [" "%char] (chars <$> l))) as Hk.
  rewrite E2 in Hk. rewrite E2, Hk, <- list_fmap_compose.
  apply fmap_fixed, Forall_forall. intros a _. simpl. apply str_chars.
Qed.

(** C4 (amended).  In the competitor route every identifier of the union
    handed to the product fetch has the fixed format (B0 + 8 characters of
    A-Z, 0-9), whatever the form field and the Competitors sheet contain, and
    the product scraper's working list for that text is the union itself.
    [run_products_scraper] on its own validates nothing: its working list is
    every whitespace- or comma-separated token of its input, unchanged. *)
Theorem route_union_only_identifiers (seed_asins_raw : string) (comp_df : DataFrame) :
  Forall (fun a => is_asin a = true /\ canonical_identifier a)
         (route_asin_union seed_asins_raw comp_df) /\
  Products.asin_list_of (route_asin_for_amazon seed_asins_raw comp_df)
  = route_asin_union seed_asins_raw comp_df /\
  (forall asin_input,
     Products.asin_list_of asin_input = split (replace_commas asin_input)).
Proof.
  assert (H : Forall (fun a => is_asin a = true)
                     (route_asin_union seed_asins_raw comp_df)).
  { apply Forall_forall. intros a. apply route_union_valid. }
  split; [|split].
  - eapply Forall_impl; [exact H|]. intros a Ha. split; [exact Ha|].
    now apply is_asin_canonical.
  - unfold route_asin_for_amazon. now apply asin_list_of_join.
  - intros asin_input. unfold Products.asin_list_of, split. apply tokens_kept.
Qed.

(** C4, as stated, fails for [run_products_scraper]: a token that is not an
    identifier is placed in the working list and fetched. *)
Lemma malformed_token_is_fetched :
  Products.asin_list_of "hello" = ["hello"] /\
  is_asin "hello" = false /\ is_asin (upper "hello") = false /\
  (Products.Request "hello" "https://www.amazon.co.uk/dp/")
    ∈ Products.trace (Products.run_products_scraper net_nothing "hello" None).2.
Proof.
  split; [vm_compute; reflexivity|]. split; [vm_compute; reflexivity|].
  split; [vm_compute; reflexivity|]. by_compute.
Qed.

End RouteSpec.

(** ** app.py: the competitor-to-seed map and the Search_ASIN column *)
Module SearchMapSpec.
Import Py PyFacts Pandas Eff App AppFacts FetchFacts Scenarios.

Lemma norm_asin_cases x : _norm_asin x = "" \/ is_asin (_norm_asin x) = true.
Proof.
  unfold _norm_asin. destruct (isna x); [now left|].
  destruct (is_asin (upper (strip (to_str x)))) eqn:E; [now right | now left].
Qed.

Lemma dict_of_pairs_from kvs : forall (m : gmap string string) k v,
  foldl (fun m kv => <[kv.1 := kv.2]> m) m kvs !! k = Some v ->
  (k, v) ∈ kvs \/ m !! k = Some v.
Proof.
  induction kvs as [|[k' v'] kvs IH]; intros m k v H; simpl in H; [now right|].
  apply IH in H as [H | H]; [left; now apply list_elem_of_further|].
  destruct (decide (k' = k)) as [->|Hne].
  - rewrite lookup_insert_eq in H. injection H as ->. left. apply list_elem_of_here.
  - rewrite lookup_insert_ne in H by assumption. now right.
Qed.

Lemma zip_fmap_same {A C D} (f : A -> C) (g : A -> D) (l : list A) :
  zip (f <$> l) (g <$> l) = (fun x => (f x, g x)) <$> l.
Proof. induction l as [|x l IH]; csimpl; [reflexivity|]. now rewrite IH. Qed.

(** Every entry of the map comes from a row of the Competitors sheet whose
    two identifiers are both valid; no entry has an empty side. *)
Lemma search_map_entry comp_df k v :
  _build_search_map_from_comp_df comp_df !! k = Some v ->
  is_asin k = true /\ is_asin v = true /\ truthy v = true /\
  exists r, r ∈ rows comp_df /\
    k = _norm_asin (default CNaN (r !! "Competitor_ASIN")) /\
    v = _norm_asin (default CNaN (r !! "Search_ASIN")).
Proof.
  unfold _build_search_map_from_comp_df.
  destruct (bool_decide _); [rewrite lookup_empty; discriminate|].
  intros H. apply dict_of_pairs_from in H as [H | H];
    [|rewrite lookup_empty in H; discriminate].
  apply list_elem_of_filter in H as [[Hk Hv] H]. simpl in Hk, Hv.
  unfold column in H. rewrite <- !list_fmap_compose, zip_fmap_same in H.
  apply list_elem_of_fmap in H as (r & [= -> ->] & Hr). simpl in *.
  assert (Hnorm : forall x, _norm_asin x <> "" -> is_asin (_norm_asin x) = true).
  { intros x Hx. destruct (norm_asin_cases x) as [E | E];
      [contradiction | exact E]. }
  split; [now apply Hnorm|]. split; [now apply Hnorm|].
  split.
  { destruct (_norm_asin (default CNaN (r !! "Search_ASIN")));
      [contradiction | reflexivity]. }
  exists r. auto.
Qed.

Lemma attach_rows search_map seed_asins df :
  rows (_attach search_map seed_asins df) =
  (fun r => <["Search_ASIN" :=
               if bool_decide ("ASIN" ∈ columns df)
               then search_asin_of search_map (list_to_set seed_asins)
                      (_norm_asin (CStr (to_str (default CNaN (r !! "ASIN")))))
               else CNaN]> r) <$> rows df.
Proof.
  unfold _attach, _ensure_first_column. cbn [rows].
  rewrite <- list_fmap_compose. apply list_fmap_ext. intros i r _. simpl.
  now rewrite lookup_insert_eq.
Qed.

(** With the map built from the sheet, the guard on an empty mapped value
    never fires: the annotation is the mapped seed, else the identifier
    itself when it is a seed, else missing. *)
Lemma search_asin_of_built comp_df seed_asins a :
  search_asin_of (_build_search_map_from_comp_df comp_df) (list_to_set seed_asins) a
  = match _build_search_map_from_comp_df comp_df !! a with
    | Some seed => CStr seed
    | None => if decide (a ∈ seed_asins) then CStr a else CNaN
    end.
Proof.
  unfold search_asin_of.
  destruct (_build_search_map_from_comp_df comp_df !! a) as [seed|] eqn:E.
  - apply search_map_entry in E as (_ & _ & -> & _). reflexivity.
  - destruct (decide (a ∈ seed_asins)) as [Hin|Hnot];
      destruct (decide (a ∈ (list_to_set seed_asins : gset string))) as [Hin'|Hnot'];
      try reflexivity; exfalso.
    + apply Hnot'. now apply elem_of_list_to_set.
    + apply Hnot. now apply elem_of_list_to_set in Hin'.
Qed.

Lemma attach_column_search search_map seed_asins df :
  column (_attach search_map seed_asins df) "Search_ASIN" =
  (fun r => if bool_decide ("ASIN" ∈ columns df)
            then search_asin_of search_map (list_to_set seed_asins)
                   (_norm_asin (CStr (to_str (default CNaN (r !! "ASIN")))))
            else CNaN) <$> rows df.
Proof.
  unfold column. rewrite attach_rows, <- list_fmap_compose.
  apply list_fmap_ext. intros i r _. simpl. now rewrite lookup_insert_eq.
Qed.

Lemma attach_column_other search_map seed_asins df col :
  col <> "Search_ASIN" ->
  column (_attach search_map seed_asins df) col = column df col.
Proof.
  intros Hne. unfold column. rewrite attach_rows, <- list_fmap_compose.
  apply list_fmap_ext. intros i r _. simpl. now rewrite lookup_insert_ne.
Qed.

Lemma attach_first_column search_map seed_asins df :
  head (columns (_attach search_map seed_asins df)) = Some "Search_ASIN".
Proof. reflexivity. Qed.

(** Reading the Products sheet back gives the identifier of each record in
    the ASIN column. *)
Lemma read_back_asin (records : list (gmap string string)) r a :
  r ∈ records -> r !! "ASIN" = Some a ->
  default CNaN
    ((list_to_map (zip Products.final_columns
        (read_cell <$> (reindex_cell records "N/A" r <$> Products.final_columns)))
      : gmap string cell) !! "ASIN")
  = read_cell (CStr a).
Proof.
  intros Hr Ha. unfold Products.final_columns.
  rewrite !fmap_cons. cbn [zip zip_with]. rewrite list_to_map_cons.
  cbn [fst snd]. rewrite lookup_insert_eq. cbn [default].
  now rewrite (ProductsSpec.reindex_cell_carried records "N/A" r "ASIN" a Hr Ha).
Qed.

(** C6.  The Search_ASIN column is first, and for every row it holds what the
    rule says for the row's normalised identifier: the seed the map built
    from the Competitors sheet gives it, else the identifier itself when it
    is a seed, else a missing value; every entry of that map pairs the valid
    competitor and seed identifiers of one row of the sheet.  End to end:
    with the seed B0ABCDEFGH and the discovered competitor B0XYZ12345, the
    product run over the union writes two Products rows, whatever the
    marketplaces answer, and both are annotated with B0ABCDEFGH. *)
Theorem search_asin_annotation :
  (forall (comp_df df : DataFrame) (seed_asins : list string),
     let search_map := _build_search_map_from_comp_df comp_df in
     let out := _attach search_map seed_asins df in
     _add_search_asin_to_amazon_frames df df search_map seed_asins = (out, out) /\
     head (columns out) = Some "Search_ASIN" /\
     column out "Search_ASIN" =
       (fun r => if bool_decide ("ASIN" ∈ columns df)
                 then search_asin_rule search_map seed_asins
                        (_norm_asin (CStr (to_str (default CNaN (r !! "ASIN")))))
                 else CNaN) <$> rows df /\
     (forall k v, search_map !! k = Some v ->
        is_asin k = true /\ is_asin v = true /\
        exists r, r ∈ rows comp_df /\
          k = _norm_asin (default CNaN (r !! "Competitor_ASIN")) /\
          v = _norm_asin (default CNaN (r !! "Search_ASIN")))) /\
  (route_asin_union seed_input competitors_read = ["B0ABCDEFGH"; "B0XYZ12345"] /\
   forall (net : Products.network) (marketplace : option string),
     exists wb s,
       Products.run_products_scraper net
         (route_asin_for_amazon seed_input competitors_read) marketplace
       = (Ok wb, s) /\
       let out := (_add_search_asin_to_amazon_frames
                     (read_excel (Products.Products wb))
                     (read_excel (Products.OtherSellers wb))
                     (_build_search_map_from_comp_df competitors_read)
                     (route_seed_asins seed_input)).1 in
       column out "ASIN" = [CStr "B0ABCDEFGH"; CStr "B0XYZ12345"] /\
       column out "Search_ASIN" = [CStr "B0ABCDEFGH"; CStr "B0ABCDEFGH"]).
Proof.
  split.
  - intros comp_df df seed_asins search_map out.
    split; [reflexivity|]. split; [reflexivity|]. split.
    + unfold out. rewrite attach_column_search.
      apply list_fmap_ext. intros i r _. simpl.
      destruct (bool_decide _); [|reflexivity]. apply search_asin_of_built.
    + intros k v H. apply search_map_entry in H as (? & ? & _ & ?). auto.
  - split; [vm_compute; reflexivity|]. intros net marketplace.
    destruct (specific_marketplaces_last marketplace) as (target & Ht).
    destruct (for_asins_rows net _ target Ht
                (Products.asin_list_of (route_asin_for_amazon seed_input competitors_read))
                Products.initial_state)
      as (s & recs & offers & E & Hm & Hrecs & Hb & _).
    cbn [Products.all_main Products.all_buybox Products.initial_state app] in Hm, Hb.
    assert (El : Products.asin_list_of (route_asin_for_amazon seed_input competitors_read)
                 = ["B0ABCDEFGH"; "B0XYZ12345"]) by (vm_compute; reflexivity).
    rewrite El in Hrecs.
    apply Forall2_cons_inv_l in Hrecs as (r1 & recs1 & [H1 _] & Hrecs & ->).
    apply Forall2_cons_inv_l in Hrecs as (r2 & recs2 & [H2 _] & Hrecs & ->).
    apply Forall2_nil_inv_l in Hrecs as ->.
    exists (Products.write_workbook [r1; r2] offers), s. split.
    { unfold Products.run_products_scraper.
      unfold mbind at 1, M_bind at 1, bind at 1. rewrite E.
      unfold mbind, M_bind, bind, get, mret, M_ret, ret. now rewrite Hm, Hb. }
    cbn [fst _add_search_asin_to_amazon_frames].
    assert (Hin1 : r1 ∈ [r1; r2]) by apply list_elem_of_here.
    assert (Hin2 : r2 ∈ [r1; r2]) by (apply list_elem_of_further, list_elem_of_here).
    assert (Hasin : column (read_excel (Products.Products
                                          (Products.write_workbook [r1; r2] offers))) "ASIN"
                    = [CStr "B0ABCDEFGH"; CStr "B0XYZ12345"]).
    { unfold column, read_excel, Products.write_workbook.
      cbn [Products.Products rows header body frame_reindexed].
      rewrite !fmap_cons, !fmap_nil.
      rewrite (read_back_asin [r1; r2] r1 _ Hin1 H1),
              (read_back_asin [r1; r2] r2 _ Hin2 H2).
      reflexivity. }
    split.
    + rewrite attach_column_other by discriminate. exact Hasin.
    + rewrite attach_column_search.
      assert (Hc : bool_decide ("ASIN" ∈ columns (read_excel (Products.Products
                     (Products.write_workbook [r1; r2] offers)))) = true)
        by (vm_compute; reflexivity).
      rewrite Hc.
      unfold column in Hasin.
      set (df := read_excel _) in *.
      destruct (rows df) as [|x1 [|x2 [|x3 xs]]]; try discriminate Hasin.
      rewrite !fmap_cons, !fmap_nil in Hasin. injection Hasin as E1 E2.
      rewrite !fmap_cons, !fmap_nil, E1, E2.
      vm_compute. reflexivity.
Qed.

End SearchMapSpec.

(** ** scraper_competitor.py *)
Module CompetitorSpec.
Import Py PyFacts Pandas Eff Competitor Scenarios.

Ltac unfold_eff :=
  progress unfold mbind, M_bind, bind, mret, M_ret, ret, raise, try_timeout,
                  try_except, get, modify, lift_total, or_quit in *.




Section WithBrowser.
Context {B : Type} (br : Browser B).

Lemma search_and_harvest_skips marketplace_value asin b b' fuel :
  skip_cause br marketplace_value asin b b' ->
  search_and_harvest br fuel marketplace_value asin b = (Ok Skipped, b').
Proof.
  intros [b1 b2 b3 e H1 H2 H3 H4 | b1 b2 b3 b4 b5 e H1 H2 H3 H4 H5 H6];
    unfold search_and_harvest; unfold mbind at 1, M_bind at 1, bind at 1;
    rewrite H1; unfold mbind at 1, M_bind at 1, bind at 1.
  - assert (E : submit br marketplace_value asin b1 = (Ok false, b')).
    { unfold submit. repeat unfold_eff. rewrite H2, H3, H4. reflexivity. }
    rewrite E. reflexivity.
  - rewrite H2. cbn [negb]. unfold mbind at 1, M_bind at 1, bind at 1.
    assert (E : await_results br marketplace_value asin b2 = (Ok false, b')).
    { unfold await_results. repeat unfold_eff. rewrite H3, H4, H5.
      destruct (reenter_and_click br asin b5) as [[[]|e1] b6] eqn:E6.
      - rewrite H6. reflexivity.
      - injection H6 as -> ->. reflexivity. }
    rewrite E. reflexivity.
Qed.

End WithBrowser.

(** C8 (amended).  When the "Get Competitors" control is still missing after
    the one hard reload and retry, or the results never load and the one
    retry after a hard reload fails, only that identifier is skipped: the
    loop goes on with the next identifier from the state the failed pass left
    and with the rows gathered so far, and once the loop is through, the
    Competitors sheet is written.  A failure of the login or of the
    marketplace selection ends the run with that exception, after closing
    the browser. *)
Theorem failed_identifier_is_skipped {B : Type} (br : Browser B)
    (marketplace_value asin : string) (b b' : B) :
  skip_cause br marketplace_value asin b b' ->
  (forall fuel rest results,
     for_asins br fuel marketplace_value (asin :: rest) results b
     = for_asins br fuel marketplace_value rest results b') /\
  (forall fuel cfg b0 b1 rows b2,
     start_session br cfg b0 = (Ok tt, b1) ->
     for_asins br fuel (Competitor.marketplace_value cfg) (asin_list cfg) [] b1
       = (Ok (Some rows), b2) ->
     session br fuel cfg b0 = (Ok (Some (competitors_sheet rows)), quit br b2)) /\
  (forall fuel cfg b0 b1 b2 e,
     open_signin br b0 = (Ok tt, b1) ->
     login br (cfg_email cfg) (cfg_password cfg) b1 = (Raise e, b2) ->
     session br fuel cfg b0 = (Raise e, quit br b2)) /\
  (forall fuel cfg b0 b1 b2 b3 b4 e,
     open_signin br b0 = (Ok tt, b1) ->
     login br (cfg_email cfg) (cfg_password cfg) b1 = (Ok tt, b2) ->
     open_cerebro br b2 = (Ok tt, b3) ->
     (open_marketplace_dropdown br;;
      select_marketplace_by_value br (Competitor.marketplace_value cfg)) b3
       = (Raise e, b4) ->
     session br fuel cfg b0 = (Raise e, quit br b4)).
Proof.
  intros Hskip. split; [|split; [|split]].
  - intros fuel rest results. cbn [for_asins].
    unfold mbind at 1, M_bind at 1, bind at 1.
    now rewrite (search_and_harvest_skips br _ _ _ _ fuel Hskip).
  - intros fuel cfg b0 b1 rows b2 H1 H2. unfold session.
    unfold mbind at 1, M_bind at 1, bind at 1. rewrite H1.
    unfold mbind at 1, M_bind at 1, bind at 1. rewrite H2. reflexivity.
  - intros fuel cfg b0 b1 b2 e H1 H2. unfold session, start_session.
    repeat unfold_eff. rewrite H1. cbv beta iota. rewrite H2. reflexivity.
  - intros fuel cfg b0 b1 b2 b3 b4 e H1 H2 H3 H4. unfold session, start_session.
    repeat unfold_eff. rewrite H1. cbv beta iota. rewrite H2. cbv beta iota.
    rewrite H3. cbv beta iota. rewrite H4. reflexivity.
Qed.

Lemma failed_identifier_is_skipped_witness :
  for_asins scripted 20 "amazon.com" ["B0NOBUTTON0"; "B0ABCDEFGH"] [] ["select amazon.com"]
  = for_asins scripted 20 "amazon.com" ["B0ABCDEFGH"] []
      [ "select amazon.com"; "soft reset"; "enter B0NOBUTTON0"; "no button";
        "reload"; "open dropdown"; "select amazon.com";
        "retry fails for B0NOBUTTON0" ].
Proof.
  apply (failed_identifier_is_skipped scripted "amazon.com" "B0NOBUTTON0").
  eapply no_get_competitors_control with (e := TimeoutException); reflexivity.
Defined.

(** C8, as stated, fails: with the login and the marketplace selection both
    successful, an identifier whose input box cannot be located ends the
    whole run with the timeout exception; the rows of the identifier
    harvested before it are lost and no sheet is written. *)
Lemma unguarded_step_aborts_run :
  run_competitor_scraper scripted 20 (Some "a@b.c") (Some "pw") no_env
    "B0ABCDEFGH B0NOINPUT0 B0XYZ12345" "us" []
  = (Raise TimeoutException,
     [ "open signin"; "login"; "open cerebro"; "open dropdown";
       "select amazon.com"; "soft reset"; "enter B0ABCDEFGH"; "click";
       "results for B0ABCDEFGH"; "first card"; "cards read"; "soft reset";
       "soft reset"; "no input box for B0NOINPUT0" ]).
Proof. vm_compute. reflexivity. Qed.

End CompetitorSpec.

(** ** scraper_products.py: text cleaning *)
Module CleanTextSpec.
Import Py PyFacts TokenFacts Products.

Lemma split_l_nil l : split_l l = [] <-> forallb is_space l = true.
Proof.
  induction l as [|c l IH]; [simpl; tauto|].
  cbn [split_l forallb]. destruct (is_space c); simpl; [exact IH|].
  split; [|discriminate]. destruct l as [|d l]; [discriminate|].
  destruct (is_space d); [discriminate|]. destruct (split_l (d :: l)); discriminate.
Qed.

Lemma chars_str_all (ws : list (list ascii)) : chars <$> (str <$> ws) = ws.
Proof.
  rewrite <- list_fmap_compose. induction ws as [|w ws IH]; csimpl; [reflexivity|].
  now rewrite chars_str, IH.
Qed.

(** Words joined by single spaces begin and end with a character of a
    word. *)
Lemma join_l_words_strip ws :
  Forall (fun w => is_word w = true) ws -> strip_l (join_l [" "%char] ws) = join_l [" "%char] ws.
Proof.
  intros Hws. destruct ws as [|w ws]; [reflexivity|].
  assert (Hhead : exists c rest, join_l [" "%char] (w :: ws) = c :: rest /\ is_space c = false).
  { apply Forall_cons_1 in Hws as [Hw _]. destruct w as [|c w]; [discriminate Hw|].
    simpl in Hw. apply andb_true_iff in Hw as [Hc _]. apply negb_true_iff in Hc.
    destruct ws; simpl; eauto. }
  assert (Hlast : exists front z, join_l [" "%char] (w :: ws) = front ++ [z] /\ is_space z = false).
  { clear Hhead. revert w Hws. induction ws as [|w' ws IH]; intros w Hws.
    - apply Forall_cons_1 in Hws as [Hw _]. simpl.
      destruct w as [|c w] using rev_ind; [discriminate Hw|].
      exists w, c. split; [reflexivity|].
      assert (H : forallb (fun c => negb (is_space c)) (w ++ [c]) = true).
      { destruct (w ++ [c]) eqn:E; [now destruct w | exact Hw]. }
      rewrite forallb_app in H. apply andb_true_iff in H as [_ H]. simpl in H.
      rewrite andb_true_r in H. now apply negb_true_iff.
    - apply Forall_cons_1 in Hws as [_ Hws]. destruct (IH w' Hws) as (front & z & E & Hz).
      change (join_l [" "%char] (w :: w' :: ws))
        with (w ++ [" "%char] ++ join_l [" "%char] (w' :: ws)).
      rewrite E. exists (w ++ [" "%char] ++ front), z.
      split; [now rewrite <- !app_assoc | exact Hz]. }
  destruct Hhead as (c & rest & E & Hc). destruct Hlast as (front & z & E' & Hz).
  unfold strip_l. rewrite E. simpl lstrip_by. rewrite Hc, <- E, E'.
  unfold rstrip_by. rewrite rev_app_distr. simpl. rewrite Hz.
  change (z :: rev front) with (rev [z] ++ rev front).
  now rewrite <- rev_app_distr, rev_involutive.
Qed.

Lemma clean_text_words s : truthy s = true ->
  _clean_text s = join " " (split s).
Proof.
  intros Hs. unfold _clean_text, strip, join, split. rewrite Hs. cbn [negb].
  rewrite chars_str, chars_str_all. f_equal.
  apply join_l_words_strip, split_l_words.
Qed.

Lemma split_clean_text s : truthy s = true -> split (_clean_text s) = split s.
Proof.
  intros Hs. rewrite (clean_text_words s Hs). unfold join, split.
  rewrite chars_str, chars_str_all. f_equal. apply split_l_join, split_l_words.
Qed.

(** X1.  For a text that is not empty, [_clean_text] gives its words joined
    by single spaces: the words of the result are the words of the text.  If
    the text has a word, cleaning the result again changes nothing.  A text
    of whitespace only is cleaned to the empty text, not to the sentinel, and
    cleaning that gives the sentinel. *)
Theorem clean_text_normal_form (s : string) :
  truthy s = true ->
  _clean_text s = join " " (split s) /\
  split (_clean_text s) = split s /\
  (blank s = false -> _clean_text (_clean_text s) = _clean_text s) /\
  (blank s = true ->
   _clean_text s = "" /\ _clean_text (_clean_text s) = "N/A").
Proof.
  intros Hs. split; [now apply clean_text_words|].
  split; [now apply split_clean_text|]. split.
  - intros Hb.
    assert (Ht : truthy (_clean_text s) = true).
    { destruct (_clean_text s) eqn:E; [|reflexivity].
      pose proof (split_clean_text s Hs) as H. rewrite E in H.
      unfold split in H. simpl in H. symmetry in H.
      apply fmap_nil_inv, split_l_nil in H. unfold blank in Hb. congruence. }
    rewrite (clean_text_words _ Ht), (split_clean_text s Hs).
    symmetry. now apply clean_text_words.
  - intros Hb. unfold blank in Hb. apply split_l_nil in Hb.
    assert (E : _clean_text s = "").
    { rewrite (clean_text_words s Hs). unfold join, split. now rewrite Hb. }
    now rewrite E.
Qed.

Lemma clean_text_normal_form_witness :
  _clean_text "  In   stock " = "In stock" /\
  _clean_text (_clean_text "  In   stock ") = "In stock" /\
  _clean_text "   " = "" /\ _clean_text (_clean_text "   ") = "N/A".
Proof.
  destruct (clean_text_normal_form "  In   stock " eq_refl) as (H1 & _ & H2 & _).
  destruct (clean_text_normal_form "   " eq_refl) as (_ & _ & _ & H3).
  destruct (H3 eq_refl) as [H4 H5].
  split; [exact H1|]. split; [exact (eq_trans (H2 eq_refl) H1)|].
  split; [exact H4 | exact H5].
Defined.

End CleanTextSpec.

(** ** scraper_products.py: what a run asks of the marketplaces *)
Module FetchBounds.
Import Py Pandas Eff Products FetchFacts Scenarios.

(** The events of one retry loop are those of [k] attempts, the last of
    which may have found the page: requests for the one identifier at the one
    address, with a pause between two of them and none after the last. *)
Lemma while_retries_trace net asin url name : forall left s,
  exists k found s',
    while_retries net left asin url name s = (Ok found, s') /\
    trace s' = trace s ++ failed_attempts k asin url /\
    k <= left /\ (0 < left -> 0 < k) /\ (found = false -> k = left).
Proof.
  induction left as [|left IH]; intros s.
  - exists 0, false, s. simpl. rewrite app_nil_r. repeat split; lia.
  - rewrite while_retries_S.
    assert (Hfail : exists k found s',
      while_retries net left asin url name
        (match left with
         | 0 => logged s (Request asin url)
         | S _ => logged (logged s (Request asin url)) (Sleep 3)
         end) = (Ok found, s') /\
      trace s' = trace s ++ failed_attempts k asin url /\
      k <= S left /\ (0 < S left -> 0 < k) /\ (found = false -> k = S left)).
    { destruct (IH (match left with
                    | 0 => logged s (Request asin url)
                    | S _ => logged (logged s (Request asin url)) (Sleep 3)
                    end)) as (k & found & s' & E & Ht & Hk & Hpos & Hf).
      exists (S k), found, s'. split; [exact E|]. split.
      - rewrite Ht. destruct left as [|left].
        + assert (k = 0) as -> by lia. simpl. now rewrite app_nil_r.
        + destruct k as [|k]; [lia|]. cbn [trace logged].
          change (failed_attempts (S (S k)) asin url)
            with (Request asin url :: Sleep 3 :: failed_attempts (S k) asin url).
          now rewrite <- !app_assoc.
      - repeat split; try lia. intros H. specialize (Hf H). lia. }
    destruct (net (trace s) asin url) as [| |f offers]; try exact Hfail.
    eexists 1, true, _. split; [reflexivity|]. simpl.
    repeat split; try lia; discriminate.
Qed.

Lemma fetch_asin_trace net targets asin s name url :
  for_marketplaces targets = Some (name, url) ->
  exists k s', fetch_asin net targets asin s = (Ok tt, s') /\
    trace s' = trace s ++ failed_attempts k asin url /\ 1 <= k <= MAX_RETRIES.
Proof.
  intros Ht. unfold fetch_asin. rewrite Ht.
  destruct (while_retries_trace net asin url name MAX_RETRIES s)
    as (k & found & s1 & E & Htr & Hk & Hpos & _).
  unfold mbind, M_bind, bind. rewrite E.
  assert (1 <= k) by (apply Hpos; unfold MAX_RETRIES; lia).
  destruct found.
  - exists k, s1. repeat split; auto.
  - eexists k, _. split; [reflexivity|]. cbn [trace]. repeat split; auto.
Qed.

Lemma for_asins_trace net targets name url :
  for_marketplaces targets = Some (name, url) ->
  forall asins s, exists ks s',
    for_asins net targets asins s = (Ok tt, s') /\
    Forall2 (fun (k : nat) (_ : string) => 1 <= k <= MAX_RETRIES) ks asins /\
    trace s' = trace s ++ concat (zip_with (fun k a => failed_attempts k a url) ks asins).
Proof.
  intros Ht. induction asins as [|asin asins IH]; intros s.
  - exists [], s. simpl. rewrite app_nil_r. repeat split. constructor.
  - destruct (fetch_asin_trace net targets asin s name url Ht) as (k & s1 & E1 & Ht1 & Hk).
    destruct (IH s1) as (ks & s2 & E2 & Hks & Ht2).
    exists (k :: ks), s2. cbn [for_asins]. unfold mbind, M_bind, bind. rewrite E1.
    split; [exact E2|]. split; [now constructor|].
    rewrite Ht2, Ht1. simpl. now rewrite <- app_assoc.
Qed.

(** X2.  Whatever the marketplaces answer, a run talks to one address only,
    that of the last target, and asks it about each identifier of the input
    between once and [MAX_RETRIES] times, identifier after identifier in
    input order, with a pause of three seconds between two attempts for the
    same identifier and none after its last one. *)
Theorem requests_per_identifier (net : network) (asin_input : string)
    (marketplace : option string) :
  exists name url ks,
    last (specific_marketplaces marketplace) = Some (name, url) /\
    Forall2 (fun (k : nat) (_ : string) => 1 <= k <= MAX_RETRIES)
            ks (asin_list_of asin_input) /\
    trace (run_products_scraper net asin_input marketplace).2
    = concat (zip_with (fun k a => failed_attempts k a url) ks (asin_list_of asin_input)).
Proof.
  destruct (specific_marketplaces_last marketplace) as ([name url] & Ht).
  destruct (for_asins_trace net _ name url Ht (asin_list_of asin_input) initial_state)
    as (ks & s & E & Hks & Htr).
  exists name, url, ks. split; [now rewrite <- for_marketplaces_last|].
  split; [exact Hks|]. unfold run_products_scraper.
  unfold mbind at 1, M_bind at 1, bind at 1. rewrite E.
  unfold mbind, M_bind, bind, get, mret, M_ret, ret. cbn [snd]. exact Htr.
Qed.

Lemma first_cells (all recs : list (gmap string string)) (asins : list string) :
  Forall2 (fun asin row => row !! "ASIN" = Some asin /\ carries final_columns row)
          asins recs ->
  (forall r, r ∈ recs -> r ∈ all) ->
  (fun row : gmap string string => row !! "ASIN") <$> recs = Some <$> asins /\
  head <$> ((fun r => reindex_cell all "N/A" r <$> final_columns) <$> recs)
    = (fun a => Some (CStr a)) <$> asins.
Proof.
  induction 1 as [|a r asins recs [Ha _] _ IH]; intros Hall; [split; reflexivity|].
  destruct IH as [IH1 IH2].
  { intros r' Hr'. apply Hall. now apply list_elem_of_further. }
  rewrite !fmap_cons, IH1, IH2, Ha. split; [reflexivity|]. f_equal.
  unfold final_columns. rewrite fmap_cons. cbn [head].
  now rewrite (ProductsSpec.reindex_cell_carried all "N/A" r "ASIN" a
                 (Hall r (list_elem_of_here _ _)) Ha).
Qed.

(** X3.  A run never raises and writes one Products row per token of the
    input, in input order, duplicates included, with the token in the first
    cell. *)
Theorem one_row_per_token (net : network) (asin_input : string)
    (marketplace : option string) :
  exists wb s,
    run_products_scraper net asin_input marketplace = (Ok wb, s) /\
    (fun row : gmap string string => row !! "ASIN") <$> all_main s
      = Some <$> asin_list_of asin_input /\
    head <$> body (Products wb) = (fun a => Some (CStr a)) <$> asin_list_of asin_input.
Proof.
  destruct (specific_marketplaces_last marketplace) as (target & Ht).
  destruct (for_asins_rows net _ target Ht (asin_list_of asin_input) initial_state)
    as (s & recs & offers & E & Hm & Hrecs & Hb & _).
  cbn [all_main all_buybox initial_state app] in Hm, Hb.
  exists (write_workbook recs offers), s. split.
  { unfold run_products_scraper. unfold mbind at 1, M_bind at 1, bind at 1. rewrite E.
    unfold mbind, M_bind, bind, get, mret, M_ret, ret. now rewrite Hm, Hb. }
  rewrite Hm. unfold write_workbook. cbn [Products.Products frame_reindexed body].
  now apply first_cells.
Qed.

(** X4.  When no marketplace has a page for any identifier, every identifier
    gets its [MAX_RETRIES] attempts with the four pauses between them, the
    Products sheet holds the not-found row of each token, and the OtherSellers
    sheet is the header alone. *)
Theorem nothing_found_run (net : network) (asin_input : string)
    (marketplace : option string) :
  (forall tr asin url f offers, net tr asin url <> PageFound f offers) ->
  exists name url s,
    last (specific_marketplaces marketplace) = Some (name, url) /\
    run_products_scraper net asin_input marketplace
    = (Ok (write_workbook (not_found_row <$> asin_list_of asin_input) []), s) /\
    trace s = concat ((fun a => failed_attempts MAX_RETRIES a url)
                        <$> asin_list_of asin_input) /\
    OtherSellers (write_workbook (not_found_row <$> asin_list_of asin_input) [])
    = empty_frame final_cols.
Proof.
  intros Hnet.
  destruct (specific_marketplaces_last marketplace) as ([name url] & Ht).
  assert (Hloop : forall asins s,
    for_asins net (specific_marketplaces marketplace) asins s =
    (Ok tt, {| trace := trace s ++ concat ((fun a => failed_attempts MAX_RETRIES a url)
                                             <$> asins);
               all_main := all_main s ++ (not_found_row <$> asins);
               all_buybox := all_buybox s |})).
  { induction asins as [|asin asins IH]; intros s.
    - simpl. rewrite !app_nil_r. now destruct s.
    - cbn [for_asins]. unfold mbind, M_bind, bind. unfold fetch_asin. rewrite Ht.
      unfold mbind, M_bind, bind.
      rewrite (while_retries_never_found net asin url name
                 (fun tr f offers => Hnet tr asin url f offers)).
      unfold append_main, modify. rewrite IH. cbn [trace all_main all_buybox].
      rewrite !fmap_cons. simpl concat. now rewrite <- !app_assoc. }
  eexists name, url, _. split; [now rewrite <- for_marketplaces_last|].
  split; [|split; [|reflexivity]].
  - unfold run_products_scraper. unfold mbind at 1, M_bind at 1, bind at 1.
    rewrite Hloop. reflexivity.
  - reflexivity.
Qed.

Lemma nothing_found_run_witness :
  exists s,
    run_products_scraper net_nothing "B0ABCDEFGH, hello" (Some "US")
    = (Ok (write_workbook [not_found_row "B0ABCDEFGH"; not_found_row "hello"] []), s) /\
    trace s = failed_attempts 5 "B0ABCDEFGH" "https://www.amazon.com/dp/"
              ++ failed_attempts 5 "hello" "https://www.amazon.com/dp/".
Proof.
  destruct (nothing_found_run net_nothing "B0ABCDEFGH, hello" (Some "US"))
    as (name & url & s & Hlast & Hrun & Htr & _).
  - intros tr asin url f offers. discriminate.
  - injection Hlast as _ <-. exists s. split; [exact Hrun|].
    rewrite Htr. vm_compute. reflexivity.
Defined.

End FetchBounds.

(** ** scraper_products.py: the keys of the records *)
Module RecordKeys.
Import Py Pandas Eff Products FetchFacts.

(** X5.  The three record literals of the source carry exactly the columns
    of their sheet: a found record and a not-found row the 25 of the Products
    sheet, an offer row the 11 of OtherSellers.  Item details other than the
    seven allowed ones never reach a record, and an allowed detail the page
    lacks is "N/A". *)
Theorem record_keys_are_the_schema :
  (forall asin name f,
     dom (product_data asin name f) = list_to_set final_columns /\
     (forall col, col ∈ ALLOWED_ITEM_DETAILS ->
        product_data asin name f !! col = Some (default "N/A" (item_details f !! col))) /\
     (forall col, col ∉ final_columns -> product_data asin name f !! col = None)) /\
  (forall asin, dom (not_found_row asin) = list_to_set final_columns) /\
  (forall asin name o, dom (offer_row asin name o) = list_to_set final_cols).
Proof.
  assert (Hdom : forall asin name f,
            dom (product_data asin name f) = list_to_set final_columns).
  { intros asin name f. unfold product_data, box_data.
    rewrite dom_union_L. cbn [foldl ALLOWED_ITEM_DETAILS].
    rewrite !dom_insert_L, !dom_empty_L. unfold final_columns. cbn [list_to_set].
    set_solver. }
  split; [|split].
  - intros asin name f. split; [apply Hdom|]. split.
    + intros col Hcol. unfold ALLOWED_ITEM_DETAILS in Hcol.
      rewrite !elem_of_cons, elem_of_nil in Hcol.
      destruct Hcol as [-> | [-> | [-> | [-> | [-> | [-> | [-> | []]]]]]]]; reflexivity.
    + intros col Hcol. apply not_elem_of_dom. rewrite Hdom.
      now rewrite elem_of_list_to_set.
  - intros asin. unfold not_found_row, final_columns.
    rewrite dom_list_to_map_L. reflexivity.
  - intros asin name o. unfold offer_row.
    rewrite !dom_insert_L, !dom_empty_L. unfold final_cols. cbn [list_to_set].
    set_solver.
Qed.

End RecordKeys.

(** ** app.py: the identifiers of an ad report *)
Module AdReportSpec.
Import Py PyFacts Pandas App TokenFacts MarketplaceSpec.

Lemma dedupe_step_eq u a :
  dedupe_step (u, list_to_set u) a
  = if decide (a ∈ u) then (u, list_to_set u) else (u ++ [a], list_to_set (u ++ [a])).
Proof.
  unfold dedupe_step. cbn [fst snd].
  destruct (decide (a ∈ (list_to_set u : gset string))) as [H|H];
    destruct (decide (a ∈ u)) as [H'|H']; try reflexivity.
  - exfalso. apply H'. now apply elem_of_list_to_set in H.
  - exfalso. apply H. now apply elem_of_list_to_set.
  - f_equal. rewrite list_to_set_app_L. simpl. now rewrite union_empty_r_L.
Qed.

Lemma dedupe_from l : forall u,
  (foldl dedupe_step (u, list_to_set u) l).1
  = u ++ filter (fun x => x ∉ u) (dedupe l).
Proof.
  unfold dedupe. change (∅ : gset string) with (list_to_set [] : gset string).
  induction l as [|a l IH]; intros u; [simpl; now rewrite app_nil_r|].
  assert (Hone : (foldl dedupe_step ([], list_to_set []) (a :: l)).1
                 = a :: filter (fun x => x ∉ [a])
                          (foldl dedupe_step ([], list_to_set []) l).1).
  { cbn [foldl]. rewrite dedupe_step_eq.
    destruct (decide (a ∈ [])) as [H|_]; [now apply elem_of_nil in H|].
    apply (IH [a]). }
  rewrite Hone. cbn [foldl]. rewrite dedupe_step_eq.
  destruct (decide (a ∈ u)) as [Hin|Hnot].
  - rewrite IH.
    rewrite filter_cons_False by (intros H; now apply H).
    f_equal. rewrite list_filter_filter. apply list_filter_iff.
    intros x. split; [|tauto]. intros Hx. split; [exact Hx|].
    intros Hxa. apply list_elem_of_singleton in Hxa as ->. now apply Hx.
  - rewrite IH, filter_cons_True by exact Hnot.
    rewrite <- app_assoc. f_equal. simpl. f_equal.
    rewrite list_filter_filter. apply list_filter_iff. intros x.
    rewrite elem_of_app, list_elem_of_singleton. tauto.
Qed.

Lemma dedupe_cons a l :
  dedupe (a :: l) = a :: filter (fun x => x <> a) (dedupe l).
Proof.
  pose proof (dedupe_from l [a]) as H. cbn [app] in H.
  unfold dedupe at 1. change (∅ : gset string) with (list_to_set [] : gset string).
  cbn [foldl]. rewrite dedupe_step_eq.
  destruct (decide (a ∈ [])) as [Hin|_]; [now apply elem_of_nil in Hin|].
  simpl app. rewrite H. f_equal. apply list_filter_iff. intros x.
  rewrite list_elem_of_singleton. tauto.
Qed.

Lemma elem_of_dedupe a l : a ∈ dedupe l <-> a ∈ l.
Proof.
  induction l as [|b l IH]; [reflexivity|].
  rewrite dedupe_cons, !elem_of_cons, list_elem_of_filter, IH.
  destruct (decide (a = b)); tauto.
Qed.

Lemma NoDup_dedupe l : NoDup (dedupe l).
Proof.
  induction l as [|a l IH]; [constructor|].
  rewrite dedupe_cons. constructor.
  - rewrite list_elem_of_filter. tauto.
  - now apply NoDup_filter.
Qed.

Lemma to_upper_idem c : to_upper (to_upper c) = to_upper c.
Proof. by_cases_on_char c. Qed.

Lemma lstrip_by_idem p (k : list ascii) : lstrip_by p (lstrip_by p k) = lstrip_by p k.
Proof.
  induction k as [|c k IH]; simpl; [reflexivity|].
  destruct (p c) eqn:E; [exact IH|]. simpl. now rewrite E.
Qed.

Lemma lstrip_by_stops p (k : list ascii) c k' : lstrip_by p k = c :: k' -> p c = false.
Proof.
  induction k as [|d k IH]; simpl; [discriminate|].
  destruct (p d) eqn:E; [exact IH|]. now intros [= <- _].
Qed.

Lemma lstrip_by_snoc p (m : list ascii) c :
  p c = false -> lstrip_by p (m ++ [c]) = lstrip_by p m ++ [c].
Proof.
  intros Hc. induction m as [|y m IH]; simpl; [now rewrite Hc|].
  destruct (p y); [exact IH | reflexivity].
Qed.

Lemma rstrip_by_cons p c (l : list ascii) :
  p c = false -> rstrip_by p (c :: l) = c :: rstrip_by p l.
Proof.
  intros Hc. unfold rstrip_by. simpl rev.
  now rewrite (lstrip_by_snoc p _ c Hc), rev_app_distr.
Qed.

Lemma rstrip_by_idem p (l : list ascii) : rstrip_by p (rstrip_by p l) = rstrip_by p l.
Proof. unfold rstrip_by. now rewrite rev_involutive, lstrip_by_idem. Qed.

Lemma strip_l_idem l : strip_l (strip_l l) = strip_l l.
Proof.
  unfold strip_l. destruct (lstrip_by is_space l) as [|c k] eqn:E; [reflexivity|].
  pose proof (lstrip_by_stops _ _ _ _ E) as Hc.
  rewrite (rstrip_by_cons _ _ _ Hc). simpl lstrip_by. rewrite Hc.
  now rewrite (rstrip_by_cons _ _ _ Hc), rstrip_by_idem.
Qed.

Lemma upper_strip_normal x :
  upper (upper (strip x)) = upper (strip x) /\ strip (upper (strip x)) = upper (strip x).
Proof.
  unfold upper, strip, upper_l. rewrite !chars_str. split; f_equal.
  - rewrite <- list_fmap_compose. apply list_fmap_ext. intros i c _. apply to_upper_idem.
  - rewrite (strip_l_fmap to_upper _ is_space_to_upper). now rewrite strip_l_idem.
Qed.

Lemma elem_of_collect xls a :
  a ∈ collect_asin_values xls <->
  exists sheet df, sheet ∈ target_sheets /\ xls !! sheet = Some (Some df) /\
    asin_col ∈ columns df /\ a ∈ sheet_asin_values df.
Proof.
  unfold collect_asin_values. rewrite list_elem_of_bind. split.
  - intros (sheet & H & Hs).
    destruct (xls !! sheet) as [[df|]|] eqn:E; try (now apply elem_of_nil in H).
    destruct (bool_decide (asin_col ∈ columns df)) eqn:Ec; [|now apply elem_of_nil in H].
    apply bool_decide_eq_true in Ec. eauto 10.
  - intros (sheet & df & Hs & E & Hc & H). exists sheet. split; [|exact Hs].
    rewrite E. now rewrite bool_decide_eq_true_2.
Qed.

Lemma elem_of_sheet_asin_values df a :
  a ∈ sheet_asin_values df <->
  truthy a = true /\
  exists x, x ∈ column df asin_col /\ isna x = false /\ a = upper (strip (to_str x)).
Proof.
  unfold sheet_asin_values. rewrite list_elem_of_filter, list_elem_of_fmap. split.
  - intros (Ht & x & -> & Hx). apply list_elem_of_filter in Hx as [Hna Hx]. eauto.
  - intros (Ht & x & Hx & Hna & ->). split; [exact Ht|]. exists x.
    split; [reflexivity|]. apply list_elem_of_filter. auto.
Qed.

(** X7.  The identifiers taken from an ad report hold no value twice, in the
    order in which the values are first met: the list for [a] followed by
    more values is [a] followed by the list for those values without [a].
    A value is in the result exactly when it is not empty and is, with the
    surrounding whitespace removed and in upper case, a cell that is not
    missing of the ASIN column of one of the two sheets, for a sheet that is
    there, can be read and has the column.  Every value is its own stripped
    upper-case form; a file that cannot be opened gives the empty list. *)
Theorem ad_report_values_unique :
  (forall a l, dedupe (a :: l) = a :: filter (fun x => x <> a) (dedupe l)) /\
  (forall file, NoDup (extract_unique_asins_from_ad_report file)) /\
  (forall xls a,
     a ∈ extract_unique_asins_from_ad_report (Some xls) <->
     truthy a = true /\
     exists sheet df x,
       (sheet = "Sponsored Products Campaigns" \/ sheet = "Sponsored Display Campaigns") /\
       xls !! sheet = Some (Some df) /\
       "ASIN (Informational only)" ∈ columns df /\
       x ∈ column df "ASIN (Informational only)" /\ isna x = false /\
       a = upper (strip (to_str x))) /\
  (forall file a, a ∈ extract_unique_asins_from_ad_report file ->
     upper a = a /\ strip a = a) /\
  extract_unique_asins_from_ad_report None = [].
Proof.
  assert (Hmem : forall xls a,
     a ∈ extract_unique_asins_from_ad_report (Some xls) <->
     truthy a = true /\
     exists sheet df x,
       (sheet = "Sponsored Products Campaigns" \/ sheet = "Sponsored Display Campaigns") /\
       xls !! sheet = Some (Some df) /\
       "ASIN (Informational only)" ∈ columns df /\
       x ∈ column df "ASIN (Informational only)" /\ isna x = false /\
       a = upper (strip (to_str x))).
  { intros xls a. cbn [extract_unique_asins_from_ad_report].
    rewrite elem_of_dedupe, elem_of_collect. split.
    - intros (sheet & df & Hs & Hx & Hc & H).
      apply elem_of_sheet_asin_values in H as (Ht & x & Hin & Hna & ->).
      split; [exact Ht|]. exists sheet, df, x.
      unfold target_sheets in Hs. rewrite !elem_of_cons, elem_of_nil in Hs.
      repeat split; try assumption. tauto.
    - intros (Ht & sheet & df & x & Hs & Hx & Hc & Hin & Hna & ->).
      exists sheet, df. split.
      { unfold target_sheets. rewrite !elem_of_cons. tauto. }
      split; [exact Hx|]. split; [exact Hc|].
      apply elem_of_sheet_asin_values. eauto. }
  split; [exact dedupe_cons|]. split; [|split; [exact Hmem|split; [|reflexivity]]].
  - intros [xls|]; [apply NoDup_dedupe | constructor].
  - intros [xls|] a H; [|now apply elem_of_nil in H].
    apply Hmem in H as (_ & sheet & df & x & _ & _ & _ & _ & _ & ->).
    apply upper_strip_normal.
Qed.

End AdReportSpec.

(** ** app.py: from the ad report to the product run, and cleaning up *)
Module AdReportRun.
Import Py PyFacts Pandas App TokenFacts.

Lemma split_l_nonempty c l : is_space c = false -> split_l (c :: l) <> [].
Proof.
  intros Hc. rewrite split_l_cons, Hc. destruct l as [|d l]; [discriminate|].
  destruct (is_space d); [discriminate|]. destruct (split_l (d :: l)); discriminate.
Qed.

(** A space between two texts separates their words. *)
Lemma split_l_app_space a b :
  split_l (a ++ " "%char :: b) = split_l a ++ split_l b.
Proof.
  induction a as [|c a IH]; [reflexivity|].
  change ((c :: a) ++ " "%char :: b) with (c :: (a ++ " "%char :: b)).
  rewrite (split_l_cons c (a ++ _)), (split_l_cons c a).
  destruct (is_space c) eqn:Hc; [exact IH|].
  destruct a as [|d a]; [reflexivity|].
  change ((d :: a) ++ " "%char :: b) with (d :: (a ++ " "%char :: b)) in *.
  cbv beta iota. destruct (is_space d) eqn:Hd.
  - now rewrite IH.
  - rewrite IH. pose proof (split_l_nonempty d a Hd) as Hne.
    destruct (split_l (d :: a)) as [|w ws]; [contradiction | reflexivity].
Qed.

Lemma split_l_join_all (ws : list (list ascii)) :
  split_l (join_l [" "%char] ws) = ws ≫= split_l.
Proof.
  induction ws as [|w ws IH]; [reflexivity|].
  destruct ws as [|w' ws].
  - simpl. now rewrite app_nil_r.
  - change (join_l [" "%char] (w :: w' :: ws))
      with (w ++ " "%char :: join_l [" "%char] (w' :: ws)).
    rewrite split_l_app_space, IH. reflexivity.
Qed.

Lemma asin_list_of_split asin_input :
  Products.asin_list_of asin_input = split (replace_commas asin_input).
Proof. unfold Products.asin_list_of, split. apply tokens_kept. Qed.

(** X8.  The route joins the identifiers of the report with single spaces
    and the product run splits that text again: what the run works on is
    the tokens of each value in turn.  A value that is one word without a
    comma comes through as it is; the extraction tests no pattern, so a cell
    holding two identifiers with a comma between them is one value of the
    report and two identifiers of the run. *)
Theorem adreport_values_are_retokenised :
  (forall asin_list,
     Products.asin_list_of (adreport_asin_input asin_list)
     = asin_list ≫= Products.asin_list_of) /\
  (forall asin_list,
     Forall (fun a => is_word (chars a) = true /\ comma_to_space <$> chars a = chars a)
            asin_list ->
     Products.asin_list_of (adreport_asin_input asin_list) = asin_list) /\
  (let report : excel_file :=
     {[ "Sponsored Products Campaigns" :=
          Some {| columns := [asin_col];
                  rows := [ {[ asin_col := CStr " b0abcdefgh,B0XYZ12345 " ]};
                            {[ asin_col := CNaN ]};
                            {[ asin_col := CStr "B0ABCDEFGH,B0XYZ12345" ]} ] |} ]} in
   extract_unique_asins_from_ad_report (Some report) = ["B0ABCDEFGH,B0XYZ12345"] /\
   Products.asin_list_of
     (adreport_asin_input (extract_unique_asins_from_ad_report (Some report)))
   = ["B0ABCDEFGH"; "B0XYZ12345"]).
Proof.
  assert (Hall : forall asin_list,
            Products.asin_list_of (adreport_asin_input asin_list)
            = asin_list ≫= Products.asin_list_of).
  { intros l. rewrite asin_list_of_split. unfold adreport_asin_input, split, replace_commas, join.
    rewrite !chars_str, fmap_join_l, split_l_join_all. simpl fmap at 2.
    induction l as [|a l IH]; [reflexivity|].
    rewrite !fmap_cons. change ((a :: l) ≫= Products.asin_list_of)
      with (Products.asin_list_of a ++ (l ≫= Products.asin_list_of)).
    rewrite <- IH, asin_list_of_split. unfold split, replace_commas.
    rewrite chars_str, <- fmap_app. reflexivity. }
  split; [exact Hall|]. split.
  - intros l Hl. rewrite Hall. induction Hl as [|a l [Hw Hc] _ IH]; [reflexivity|].
    change ((a :: l) ≫= Products.asin_list_of)
      with (Products.asin_list_of a ++ (l ≫= Products.asin_list_of)).
    rewrite IH, asin_list_of_split. unfold split, replace_commas.
    rewrite chars_str, Hc, (split_l_word _ Hw). simpl. now rewrite str_chars.
  - split; vm_compute; reflexivity.
Qed.

Lemma cleanup_step_sub (remove_fails : string -> bool) (keep files : gset string) p q :
  q ∈ (if truthy p && bool_decide (p ∈ files) && negb (bool_decide (p ∈ keep))
       then (if remove_fails p then files else files ∖ {[p]})
       else files) ->
  q ∈ files.
Proof.
  destruct (truthy p && _ && _); [|auto]. destruct (remove_fails p); [auto|].
  intros H. now apply elem_of_difference in H as [? _].
Qed.

(** X9.  [_cleanup_files] only ever takes files away, and only files of
    [paths] that are not in [keep]: a file that is kept, or that is not
    listed, is still there afterwards.  Where no removal fails, no listed
    file with a name outside [keep] is left. *)
Theorem cleanup_spares_kept_files (remove_fails : string -> bool)
    (paths : list string) (keep files : gset string) :
  (forall q, q ∈ _cleanup_files remove_fails paths keep files -> q ∈ files) /\
  (forall q, q ∈ files -> q ∈ keep \/ q ∉ paths ->
     q ∈ _cleanup_files remove_fails paths keep files) /\
  ((forall p, remove_fails p = false) ->
   forall q, q ∈ paths -> truthy q = true -> q ∉ keep ->
     q ∉ _cleanup_files remove_fails paths keep files).
Proof.
  unfold _cleanup_files. revert files.
  induction paths as [|p paths IH]; intros files.
  - split; [auto|]. split; [auto|]. intros _ q Hq. now apply elem_of_nil in Hq.
  - cbn [foldl].
    set (files' := if truthy p && bool_decide (p ∈ files) && negb (bool_decide (p ∈ keep))
                   then (if remove_fails p then files else files ∖ {[p]})
                   else files).
    destruct (IH files') as (IH1 & IH2 & IH3). split; [|split].
    + intros q Hq. apply IH1 in Hq. revert Hq. apply cleanup_step_sub.
    + intros q Hq Hsafe. apply IH2.
      * unfold files'.
        destruct (truthy p && bool_decide (p ∈ files) && negb (bool_decide (p ∈ keep))) eqn:E;
          [|exact Hq].
        destruct (remove_fails p); [exact Hq|].
        apply elem_of_difference. split; [exact Hq|].
        intros Hqp. apply elem_of_singleton in Hqp as ->.
        apply andb_true_iff in E as [_ E]. apply negb_true_iff, bool_decide_eq_false in E.
        destruct Hsafe as [Hk | Hn]; [contradiction|].
        apply Hn, list_elem_of_here.
      * destruct Hsafe as [Hk | Hn]; [now left | right].
        intros Hin. apply Hn. now apply list_elem_of_further.
    + intros Hok q Hq Ht Hkeep Hleft.
      apply elem_of_cons in Hq as [-> | Hq]; [|now apply (IH3 Hok q Hq Ht Hkeep)].
      apply IH1 in Hleft. unfold files' in Hleft. rewrite Hok, Ht in Hleft.
      cbn [andb] in Hleft.
      destruct (bool_decide (p ∈ files)) eqn:Ef; cbn [andb] in Hleft.
      * destruct (bool_decide (p ∈ keep)) eqn:Ek; cbn [negb] in Hleft.
        -- apply bool_decide_eq_true in Ek. contradiction.
        -- apply elem_of_difference in Hleft as [_ Hleft].
           apply Hleft. now apply elem_of_singleton.
      * apply bool_decide_eq_false in Ef. contradiction.
Qed.

End AdReportRun.

(** ** app.py: more on the search map, the annotation and the union *)
Module AppMore.
Import Py PyFacts Pandas App AppFacts SearchMapSpec RouteSpec.

Lemma dict_of_pairs_last (kvs post : list (string * string)) k v :
  (forall v', (k, v') ∉ post) ->
  forall m : gmap string string,
    foldl (fun m kv => <[kv.1 := kv.2]> m) m (kvs ++ (k, v) :: post) !! k = Some v.
Proof.
  intros Hpost m. rewrite foldl_app. cbn [foldl fst snd].
  generalize (foldl (fun m kv => <[kv.1 := kv.2]> m) m kvs). clear kvs m. intros m.
  assert (H : (<[k := v]> m) !! k = Some v) by apply lookup_insert_eq.
  revert H. generalize (<[k := v]> m). clear m.
  induction post as [|[k' v'] post IH]; intros m H; [exact H|].
  cbn [foldl fst snd]. apply IH.
  - intros v'' Hin. apply (Hpost v''). now apply list_elem_of_further.
  - rewrite lookup_insert_ne; [exact H|]. intros ->.
    apply (Hpost v'). apply list_elem_of_here.
Qed.

Lemma dict_of_pairs_dom (kvs : list (string * string)) k v :
  (k, v) ∈ kvs -> forall m : gmap string string,
    is_Some (foldl (fun m kv => <[kv.1 := kv.2]> m) m kvs !! k).
Proof.
  induction kvs as [|[k' v'] kvs IH]; intros Hin m; [now apply elem_of_nil in Hin|].
  cbn [foldl fst snd]. apply elem_of_cons in Hin as [[= <- <-] | Hin]; [|now apply IH].
  clear IH. assert (H : is_Some ((<[k := v]> m) !! k)) by (rewrite lookup_insert_eq; eauto).
  revert H. generalize (<[k := v]> m). clear m.
  induction kvs as [|[k'' v''] kvs IH]; intros m H; [exact H|].
  cbn [foldl fst snd]. apply IH. destruct (decide (k'' = k)) as [->|Hne].
  - rewrite lookup_insert_eq. eauto.
  - now rewrite lookup_insert_ne.
Qed.

(** X10.  With both columns on the sheet, an identifier is a key of the
    search map exactly when some row pairs it, as a valid competitor, with a
    valid seed; and where several rows do, the last one decides the seed. *)
Theorem search_map_last_row_wins (comp_df : DataFrame) :
  "Competitor_ASIN" ∈ columns comp_df -> "Search_ASIN" ∈ columns comp_df ->
  (forall k,
     is_Some (_build_search_map_from_comp_df comp_df !! k) <->
     exists r, r ∈ rows comp_df /\
       k = _norm_asin (default CNaN (r !! "Competitor_ASIN")) /\ k <> "" /\
       _norm_asin (default CNaN (r !! "Search_ASIN")) <> "") /\
  (forall before r after,
     rows comp_df = before ++ r :: after ->
     let k := _norm_asin (default CNaN (r !! "Competitor_ASIN")) in
     let v := _norm_asin (default CNaN (r !! "Search_ASIN")) in
     k <> "" -> v <> "" ->
     (forall r', r' ∈ after ->
        _norm_asin (default CNaN (r' !! "Competitor_ASIN")) <> k \/
        _norm_asin (default CNaN (r' !! "Search_ASIN")) = "") ->
     _build_search_map_from_comp_df comp_df !! k = Some v).
Proof.
  intros Hc Hs.
  assert (E : _build_search_map_from_comp_df comp_df
              = dict_of_pairs
                  (filter (fun kv => kv.1 ≠ "" ∧ kv.2 ≠ "")
                     ((fun r => (_norm_asin (default CNaN (r !! "Competitor_ASIN")),
                                 _norm_asin (default CNaN (r !! "Search_ASIN"))))
                        <$> rows comp_df))).
  { unfold _build_search_map_from_comp_df.
    rewrite bool_decide_eq_false_2 by tauto.
    unfold column. now rewrite <- !list_fmap_compose, zip_fmap_same. }
  split.
  - intros k. split.
    + intros [v Hv]. apply search_map_entry in Hv as (Hk & Hv & _ & r & Hr & -> & ->).
      exists r. split; [exact Hr|]. split; [reflexivity|].
      split; intros E'; rewrite E' in *; discriminate.
    + intros (r & Hr & -> & Hk & Hv). rewrite E. unfold dict_of_pairs.
      eapply dict_of_pairs_dom. apply list_elem_of_filter. split; [split; eassumption|].
      apply list_elem_of_fmap. exists r. split; [reflexivity | exact Hr].
  - intros before r after Hrows k v Hk Hv Hafter. rewrite E, Hrows.
    rewrite fmap_app, fmap_cons, filter_app, filter_cons_True by (split; assumption).
    unfold dict_of_pairs. apply dict_of_pairs_last.
    intros v' Hin. apply list_elem_of_filter in Hin as [[_ Hv'] Hin]. cbn [fst snd] in Hv'.
    apply list_elem_of_fmap in Hin as (r' & [= Hk' ->] & Hr').
    destruct (Hafter r' Hr') as [H | H]; [now apply H | now apply Hv'].
Qed.

Lemma search_map_last_row_wins_witness :
  let sheet : DataFrame :=
    {| columns := ["Search_ASIN"; "Competitor_ASIN"];
       rows := [ {[ "Search_ASIN" := CStr "B0AAAAAAAA"; "Competitor_ASIN" := CStr "b0xyz12345 " ]};
                 {[ "Search_ASIN" := CStr "B0BBBBBBBB"; "Competitor_ASIN" := CStr "B0XYZ12345" ]};
                 {[ "Search_ASIN" := CNaN; "Competitor_ASIN" := CStr "B0XYZ12345" ]} ] |} in
  _build_search_map_from_comp_df sheet !! "B0XYZ12345" = Some "B0BBBBBBBB".
Proof.
  intros sheet.
  assert (Hc : "Competitor_ASIN" ∈ columns sheet)
    by (apply list_elem_of_further, list_elem_of_here).
  assert (Hs : "Search_ASIN" ∈ columns sheet) by apply list_elem_of_here.
  destruct (search_map_last_row_wins sheet Hc Hs) as [_ H].
  pose proof (H [ {[ "Search_ASIN" := CStr "B0AAAAAAAA"; "Competitor_ASIN" := CStr "b0xyz12345 " ]} ]
                {[ "Search_ASIN" := CStr "B0BBBBBBBB"; "Competitor_ASIN" := CStr "B0XYZ12345" ]}
                [ {[ "Search_ASIN" := CNaN; "Competitor_ASIN" := CStr "B0XYZ12345" ]} ]
                eq_refl) as W.
  cbv zeta in W.
  assert (Ek : _norm_asin (default CNaN
                 (({[ "Search_ASIN" := CStr "B0BBBBBBBB";
                      "Competitor_ASIN" := CStr "B0XYZ12345" ]} : gmap string cell)
                    !! "Competitor_ASIN")) = "B0XYZ12345") by (vm_compute; reflexivity).
  assert (Ev : _norm_asin (default CNaN
                 (({[ "Search_ASIN" := CStr "B0BBBBBBBB";
                      "Competitor_ASIN" := CStr "B0XYZ12345" ]} : gmap string cell)
                    !! "Search_ASIN")) = "B0BBBBBBBB") by (vm_compute; reflexivity).
  rewrite Ek, Ev in W. apply W.
  - discriminate.
  - discriminate.
  - intros r' Hr'. apply list_elem_of_singleton in Hr' as ->. right. vm_compute. reflexivity.
Defined.

Lemma attach_columns search_map seed_asins df :
  columns (_attach search_map seed_asins df)
  = "Search_ASIN" :: filter (fun c => c <> "Search_ASIN") (columns df).
Proof.
  unfold _attach, _ensure_first_column. cbn [columns].
  destruct (bool_decide ("Search_ASIN" ∈ columns df)); [reflexivity|].
  rewrite filter_app, filter_cons_False, filter_nil, app_nil_r; [reflexivity|].
  intros H. now apply H.
Qed.

Lemma attach_twice search_map seed_asins df :
  _attach search_map seed_asins (_attach search_map seed_asins df)
  = _attach search_map seed_asins df.
Proof.
  assert (Hasin : bool_decide ("ASIN" ∈ columns (_attach search_map seed_asins df))
                  = bool_decide ("ASIN" ∈ columns df)).
  { apply bool_decide_ext. rewrite attach_columns, elem_of_cons, list_elem_of_filter.
    split; [intros [H | [_ H]]; [discriminate | exact H]|].
    intros H. right. split; [discriminate | exact H]. }
  assert (Hrows : rows (_attach search_map seed_asins (_attach search_map seed_asins df))
                  = rows (_attach search_map seed_asins df)).
  { rewrite (attach_rows search_map seed_asins (_attach search_map seed_asins df)), Hasin.
    rewrite attach_rows, <- list_fmap_compose.
    apply list_fmap_ext. intros i r _. cbn.
    rewrite lookup_insert_ne by discriminate. now rewrite insert_insert_eq. }
  assert (Hcols : columns (_attach search_map seed_asins (_attach search_map seed_asins df))
                  = columns (_attach search_map seed_asins df)).
  { rewrite (attach_columns search_map seed_asins (_attach search_map seed_asins df)).
    rewrite attach_columns. rewrite filter_cons_False by (intros H; now apply H).
    now rewrite list_filter_filter_l by auto. }
  destruct (_attach search_map seed_asins (_attach search_map seed_asins df)) as [c r].
  destruct (_attach search_map seed_asins df) as [c0 r0].
  cbn [columns rows] in *. congruence.
Qed.

(** X11.  Annotating a frame keeps its rows, in number and order, and every
    column other than Search_ASIN; the Search_ASIN column comes first, once,
    with what it held before overwritten; and annotating the annotated frame
    again changes nothing. *)
Theorem annotation_is_idempotent (search_map : gmap string string)
    (seed_asins : list string) (df : DataFrame) :
  let out := _attach search_map seed_asins df in
  length (rows out) = length (rows df) /\
  columns out = "Search_ASIN" :: filter (fun c => c <> "Search_ASIN") (columns df) /\
  (forall col, col <> "Search_ASIN" -> column out col = column df col) /\
  _attach search_map seed_asins out = out.
Proof.
  intros out. subst out. split; [|split; [|split]].
  - now rewrite attach_rows, length_fmap.
  - apply attach_columns.
  - intros col Hcol. now apply attach_column_other.
  - apply attach_twice.
Qed.

Lemma leb_false_flip x y : String.leb x y = false -> String.leb y x = true.
Proof. intros H. destruct (String.leb_total x y) as [H'|H']; congruence. Qed.

Lemma insert_sorted_Sorted x l :
  Sorted (fun a b => String.leb a b = true) l ->
  Sorted (fun a b => String.leb a b = true) (insert_sorted x l).
Proof.
  induction 1 as [|y l Hl IH Hhd]; simpl; [repeat constructor|].
  destruct (String.leb x y) eqn:E.
  - constructor; [now constructor|]. now constructor.
  - constructor; [exact IH|]. destruct Hhd as [|z l Hyz]; simpl.
    + constructor. now apply leb_false_flip.
    + destruct (String.leb x z); constructor; [now apply leb_false_flip | exact Hyz].
Qed.

Lemma insert_sorted_NoDup x l : x ∉ l -> NoDup l -> NoDup (insert_sorted x l).
Proof.
  intros Hx Hl. induction Hl as [|y l Hy Hl IH]; simpl; [repeat constructor; exact Hx|].
  destruct (String.leb x y).
  - constructor; [exact Hx | now constructor].
  - constructor.
    + rewrite elem_of_insert_sorted. intros [-> | H]; [|contradiction].
      apply Hx, list_elem_of_here.
    + apply IH. intros H. apply Hx. now apply list_elem_of_further.
Qed.

Lemma asin_not_empty a : is_asin a = true -> truthy a = true.
Proof. destruct a; [vm_compute; discriminate | reflexivity]. Qed.

(** X12.  The union handed to the product run is in ascending code-point
    order without repetition, and an identifier is in it exactly when it has
    the identifier format and is either a token of the form field, split at
    whitespace and commas, stripped and put in upper case, or a cell that is
    not missing of the sheet's Competitor_ASIN column, put in upper case and
    stripped. *)
Theorem route_union_sorted (seed_asins_raw : string) (comp_df : DataFrame) :
  Sorted (fun a b => String.leb a b = true) (route_asin_union seed_asins_raw comp_df) /\
  NoDup (route_asin_union seed_asins_raw comp_df) /\
  (forall a, a ∈ route_asin_union seed_asins_raw comp_df <->
     is_asin a = true /\
     ((exists tok, tok ∈ split (replace_commas seed_asins_raw) /\ a = upper (strip tok)) \/
      (exists x, x ∈ column comp_df "Competitor_ASIN" /\ isna x = false /\
                 a = strip (upper (to_str x))))).
Proof.
  unfold route_asin_union, sorted_set.
  pose proof (NoDup_remove_dups (route_seed_asins seed_asins_raw ++ route_comp_asins comp_df))
    as Hnd.
  split; [|split].
  - induction (remove_dups _) as [|x l IH]; simpl; [constructor|].
    apply insert_sorted_Sorted, IH. now apply NoDup_cons_1_2 in Hnd.
  - induction Hnd as [|x l Hx Hnd IH]; simpl; [constructor|].
    apply insert_sorted_NoDup; [|exact IH].
    intros H. apply Hx. clear -H. induction l as [|y l IH]; simpl in H; [exact H|].
    apply elem_of_insert_sorted in H as [-> | H];
      [apply list_elem_of_here | now apply list_elem_of_further, IH].
  - intros a. fold (sorted_set (route_seed_asins seed_asins_raw ++ route_comp_asins comp_df)).
    rewrite elem_of_sorted_set, elem_of_app.
    unfold route_seed_asins, route_comp_asins. rewrite !list_elem_of_filter. split.
    + intros [[Ha H] | [Ha H]]; (split; [exact Ha|]).
      * left. apply list_elem_of_fmap in H as (tok & -> & H).
        apply list_elem_of_filter in H as [_ H]. eauto.
      * right. apply list_elem_of_fmap in H as (x & -> & H).
        apply list_elem_of_filter in H as [Hna H]. eauto.
    + intros [Ha [(tok & Htok & ->) | (x & Hx & Hna & ->)]]; [left | right];
        (split; [exact Ha|]); apply list_elem_of_fmap.
      * exists tok. split; [reflexivity|]. apply list_elem_of_filter. split; [|exact Htok].
        destruct (strip tok) eqn:E; [|reflexivity].
        apply asin_not_empty in Ha. discriminate Ha.
      * exists x. split; [reflexivity|]. apply list_elem_of_filter. auto.
Qed.

End AppMore.

(** ** scraper_competitor.py: credentials and start-up *)
Module StartupSpec.
Import Py PyFacts Pandas Eff Competitor Scenarios MarketplaceSpec.

(** X13.  Credentials given as arguments are used as they are, whatever the
    environment holds; an empty argument counts as absent and the environment
    variable stands in for it; what is returned never has an empty part; and
    with nothing in the environment the loader raises exactly when an
    argument is absent or empty. *)
Theorem credentials_never_empty :
  (forall e p getenv, truthy e = true -> truthy p = true ->
     _load_h10_creds (Some e) (Some p) getenv = Ok (e, p)) /\
  (forall email password getenv e p,
     _load_h10_creds email password getenv = Ok (e, p) ->
     truthy e = true /\ truthy p = true /\
     (e = default "" email \/ Some e = getenv "H10_EMAIL") /\
     (p = default "" password \/ Some p = getenv "H10_PASSWORD")) /\
  (forall email password getenv,
     _load_h10_creds (Some "") password getenv = _load_h10_creds None password getenv /\
     _load_h10_creds email (Some "") getenv = _load_h10_creds email None getenv) /\
  (forall email password,
     _load_h10_creds email password no_env = Raise RuntimeError <->
     falsy email = true \/ falsy password = true).
Proof.
  split; [|split; [|split]].
  - intros e p getenv He Hp. unfold _load_h10_creds, or_else.
    rewrite He, Hp. unfold falsy. now rewrite He, Hp.
  - intros email password getenv e p. unfold _load_h10_creds.
    destruct (falsy (or_else email _) || falsy (or_else password _)) eqn:E; [discriminate|].
    apply orb_false_iff in E as [He Hp]. intros [= <- <-].
    unfold or_else, falsy in *.
    split; [|split; [|split]].
    + destruct email as [s|]; [destruct (truthy s) eqn:Es|];
        try (destruct (getenv "H10_EMAIL") as [s'|]); simpl in *;
        try discriminate; try (now rewrite Es); try (now apply negb_false_iff in He).
    + destruct password as [s|]; [destruct (truthy s) eqn:Es|];
        try (destruct (getenv "H10_PASSWORD") as [s'|]); simpl in *;
        try discriminate; try (now rewrite Es); try (now apply negb_false_iff in Hp).
    + destruct email as [s|]; [destruct (truthy s)|]; [now left| |];
        destruct (getenv "H10_EMAIL"); try discriminate; now right.
    + destruct password as [s|]; [destruct (truthy s)|]; [now left| |];
        destruct (getenv "H10_PASSWORD"); try discriminate; now right.
  - intros email password getenv. split; reflexivity.
  - intros email password. unfold _load_h10_creds, or_else, no_env.
    destruct email as [e|], password as [p|]; simpl;
      try destruct (truthy e) eqn:Ee; try destruct (truthy p) eqn:Ep; simpl;
      rewrite ?Ee, ?Ep; simpl; split; intros H; try reflexivity; try discriminate;
      try tauto; destruct H; discriminate.
Qed.

(** X14.  The credentials are looked at before the marketplace: when they
    are missing the run raises RuntimeError, also for an empty marketplace
    selector, and the browser is not touched.  A selector that is an alias
    is resolved whatever its letter case and surrounding whitespace, to the
    domain the table gives; the identifiers are the tokens of the input as
    they are. *)
Theorem startup_checks_in_order {B : Type} (br : Browser B) (fuel : nat)
    (email password : option string) (getenv : string -> option string)
    (asin_input marketplace_input_raw : string) :
  (_load_h10_creds email password getenv = Raise RuntimeError ->
   forall b, run_competitor_scraper br fuel email password getenv asin_input
               marketplace_input_raw b = (Raise RuntimeError, b)) /\
  (forall e p domain,
     _load_h10_creds email password getenv = Ok (e, p) ->
     dict_get marketplace_map (lower (strip marketplace_input_raw)) = Some domain ->
     let cfg := {| cfg_email := e; cfg_password := p;
                   asin_list := Products.asin_list_of asin_input;
                   marketplace_value := domain |} in
     startup email password getenv asin_input marketplace_input_raw = Ok cfg /\
     startup email password getenv asin_input (upper marketplace_input_raw) = Ok cfg /\
     startup email password getenv asin_input (lower marketplace_input_raw) = Ok cfg).
Proof.
  split.
  - intros Hc b. unfold run_competitor_scraper, startup. now rewrite Hc.
  - intros e p domain Hc Hd cfg.
    assert (Ht : truthy domain = true).
    { apply dict_get_In in Hd. simpl in Hd.
      repeat (destruct Hd as [[= _ <-] | Hd]; [reflexivity|]). contradiction. }
    assert (Hany : forall raw, lower (strip raw) = lower (strip marketplace_input_raw) ->
              startup email password getenv asin_input raw = Ok cfg).
    { intros raw Hraw. unfold startup. rewrite Hc. cbv zeta. rewrite Hraw, Hd.
      cbn [default from_option id]. rewrite Ht. reflexivity. }
    split; [now apply Hany|]. split; apply Hany; [apply key_of_upper | apply key_of_lower].
Qed.

Lemma startup_checks_in_order_witness :
  run_competitor_scraper scripted 20 None (Some "pw") no_env "B0ABCDEFGH" "" []
    = (Raise RuntimeError, []) /\
  startup (Some "a@b.c") (Some "pw") no_env "B0ABCDEFGH, b0x" " United Kingdom "
    = Ok {| cfg_email := "a@b.c"; cfg_password := "pw";
            asin_list := ["B0ABCDEFGH"; "b0x"]; marketplace_value := "amazon.co.uk" |}.
Proof.
  destruct (startup_checks_in_order scripted 20 None (Some "pw") no_env "B0ABCDEFGH" "")
    as [H1 _].
  destruct (startup_checks_in_order scripted 20 (Some "a@b.c") (Some "pw") no_env
              "B0ABCDEFGH, b0x" " United Kingdom ") as [_ H2].
  split; [exact (H1 eq_refl [])|].
  destruct (H2 "a@b.c" "pw" "amazon.co.uk" eq_refl eq_refl) as [H _]. exact H.
Defined.

End StartupSpec.

(** ** scraper_competitor.py: the lazy loader and the rows *)
Module HarvestSpec.
Import Py Pandas Eff Competitor Scenarios CompetitorSpec.

Section WithBrowser.
Context {B : Type} (br : Browser B).

Lemma reveal_S fuel prev_count stall_loops b :
  reveal br (S fuel) prev_count stall_loops b =
  match count_cards br b with
  | (Ok 0, b1) => reveal br fuel prev_count stall_loops b1
  | (Ok (S n), b1) =>
      let same := bool_decide (Z.of_nat (S n) = prev_count) in
      let stall_loops' := if same then S stall_loops else 0 in
      let prev_count' := if same then prev_count else Z.of_nat (S n) in
      if bool_decide (max_stall_loops <= stall_loops')
      then (Ok true, scroll_to_last br b1)
      else reveal br fuel prev_count' stall_loops' (scroll_to_last br b1)
  | (Raise e, b1) => (Raise e, b1)
  end.
Proof.
  cbn [reveal]. unfold mbind at 1, M_bind at 1, bind at 1.
  destruct (count_cards br b) as [[[|n]|e] b1]; try reflexivity.
  rewrite bool_decide_eq_false_2 by discriminate. cbv zeta.
  unfold mbind, M_bind, bind, modify, mret, M_ret, ret.
  destruct (bool_decide (max_stall_loops <= _)); reflexivity.
Qed.

(** Each turn adds at most one to the stall counter. *)
Lemma reveal_left_late : forall fuel prev_count stall_loops b b',
  reveal br fuel prev_count stall_loops b = (Ok true, b') ->
  max_stall_loops <= fuel + stall_loops.
Proof.
  induction fuel as [|fuel IH]; intros prev_count stall_loops b b' H; [discriminate H|].
  rewrite reveal_S in H. destruct (count_cards br b) as [[[|n]|e] b1]; [| |discriminate H].
  - apply IH in H. lia.
  - cbv zeta in H. destruct (bool_decide (Z.of_nat (S n) = prev_count)).
    + destruct (bool_decide (max_stall_loops <= S stall_loops)) eqn:E.
      * apply bool_decide_eq_true in E. lia.
      * apply IH in H. lia.
    + destruct (bool_decide (max_stall_loops <= 0)) eqn:E.
      * apply bool_decide_eq_true in E. unfold max_stall_loops in E. lia.
      * apply IH in H. lia.
Qed.

Lemma reveal_first_left_late : forall fuel b b',
  reveal br fuel (-1) 0 b = (Ok true, b') -> S max_stall_loops <= fuel.
Proof.
  induction fuel as [|fuel IH]; intros b b' H; [discriminate H|].
  rewrite reveal_S in H. destruct (count_cards br b) as [[[|n]|e] b1]; [| |discriminate H].
  - apply IH in H. lia.
  - cbv zeta in H. rewrite (bool_decide_eq_false_2 (Z.of_nat (S n) = (-1)%Z)) in H by lia.
    rewrite bool_decide_eq_false_2 in H by (unfold max_stall_loops; lia).
    apply reveal_left_late in H. lia.
Qed.

Lemma reveal_no_cards :
  (forall b, exists b', count_cards br b = (Ok 0, b')) ->
  forall fuel prev_count stall_loops b,
    exists b', reveal br fuel prev_count stall_loops b = (Ok false, b').
Proof.
  intros Hc. induction fuel as [|fuel IH]; intros prev_count stall_loops b.
  - exists b. reflexivity.
  - rewrite reveal_S. destruct (Hc b) as (b1 & ->). apply IH.
Qed.

Lemma reveal_constant n :
  (forall b, exists b', count_cards br b = (Ok (S n), b')) ->
  forall fuel stall_loops b,
    max_stall_loops <= fuel + stall_loops -> 0 < fuel ->
    exists b', reveal br fuel (Z.of_nat (S n)) stall_loops b = (Ok true, b').
Proof.
  intros Hc. induction fuel as [|fuel IH]; intros stall_loops b Hle Hpos; [lia|].
  rewrite reveal_S. destruct (Hc b) as (b1 & ->). cbv zeta.
  rewrite (bool_decide_eq_true_2 (Z.of_nat (S n) = Z.of_nat (S n))) by reflexivity.
  destruct (bool_decide (max_stall_loops <= S stall_loops)) eqn:E; [eauto|].
  apply bool_decide_eq_false in E. apply IH; lia.
Qed.

Lemma bind_Ok {A C} (m : M B A) (k : A -> M B C) b r b' :
  (m ≫= k) b = (Ok r, b') -> exists a b1, m b = (Ok a, b1) /\ k a b1 = (Ok r, b').
Proof.
  unfold mbind, M_bind, bind. destruct (m b) as [[a|e] b1]; [eauto | discriminate].
Qed.

Lemma harvest_Harvested fuel marketplace_value asin b rows b' :
  harvest br fuel marketplace_value asin b = (Ok (Harvested rows), b') ->
  exists cards, rows = competitor_row marketplace_value asin <$> cards.
Proof.
  unfold harvest. intros H.
  apply bind_Ok in H as (_ & b1 & _ & H).
  apply bind_Ok in H as (left_loop & b2 & _ & H).
  destruct left_loop; cbn [negb] in H; [|discriminate H].
  apply bind_Ok in H as (cards & b3 & _ & H).
  apply bind_Ok in H as (_ & b4 & _ & H).
  injection H as <- _. eauto.
Qed.

Lemma search_and_harvest_Harvested fuel marketplace_value asin b rows b' :
  search_and_harvest br fuel marketplace_value asin b = (Ok (Harvested rows), b') ->
  exists cards, rows = competitor_row marketplace_value asin <$> cards.
Proof.
  unfold search_and_harvest. intros H.
  apply bind_Ok in H as (_ & b1 & _ & H).
  apply bind_Ok in H as (clicked & b2 & _ & H).
  destruct clicked; cbn [negb] in H; [|discriminate H].
  apply bind_Ok in H as (loaded & b3 & _ & H).
  destruct loaded; cbn [negb] in H; [|discriminate H].
  now apply harvest_Harvested in H.
Qed.

End WithBrowser.

(** X15.  The lazy loader counts a turn only when the page shows cards, and
    it is left only when the count was the same [max_stall_loops] times in a
    row: no run leaves it in fewer than eleven turns.  Where the page never
    shows a card the loader is not left at all, however many turns it is
    given, so the pass for that identifier never gets to its harvest: the
    source spins in its [while True]. *)
Theorem reveal_needs_cards {B : Type} (br : Browser B) :
  (forall fuel b b', reveal br fuel (-1) 0 b = (Ok true, b') ->
     S max_stall_loops <= fuel) /\
  ((forall b, exists b', count_cards br b = (Ok 0, b')) ->
   forall fuel marketplace_value asin b,
     (exists b', reveal br fuel (-1) 0 b = (Ok false, b')) /\
     (forall b1, first_card_present br b = (Raise TimeoutException, b1) ->
        exists b', harvest br fuel marketplace_value asin b = (Ok StillRevealing, b'))).
Proof.
  split; [apply reveal_first_left_late|].
  intros Hc fuel marketplace_value asin b. split; [now apply reveal_no_cards|].
  intros b1 H1. unfold harvest.
  unfold mbind at 1, M_bind at 1, bind at 1, try_timeout, try_except. rewrite H1.
  unfold mret at 1, M_ret at 1, ret at 1.
  destruct (reveal_no_cards br Hc fuel (-1)%Z 0 b1) as (b' & E).
  unfold mbind, M_bind, bind. rewrite E. cbn [negb]. eauto.
Qed.

Lemma reveal_needs_cards_witness :
  exists log,
    harvest (showing 0) 1000 "amazon.com" "B0ABCDEFGH" [] = (Ok StillRevealing, log).
Proof.
  destruct (reveal_needs_cards (showing 0)) as [_ H].
  destruct (H (fun b => ex_intro _ (b ++ ["poll"]) eq_refl) 1000 "amazon.com" "B0ABCDEFGH" [])
    as [_ H'].
  exact (H' ["no card"] eq_refl).
Defined.

(** X16.  Where every poll shows the same positive number of cards, the
    loader is left after eleven turns: one that notes the count and ten that
    find it unchanged. *)
Theorem reveal_constant_count {B : Type} (br : Browser B) (n : nat) :
  (forall b, exists b', count_cards br b = (Ok (S n), b')) ->
  forall fuel b,
    (S max_stall_loops <= fuel -> exists b', reveal br fuel (-1) 0 b = (Ok true, b')) /\
    (fuel <= max_stall_loops -> exists b', reveal br fuel (-1) 0 b = (Ok false, b')).
Proof.
  intros Hc fuel b. split.
  - intros Hf. destruct fuel as [|fuel]; [lia|].
    rewrite reveal_S. destruct (Hc b) as (b1 & ->). cbv zeta.
    rewrite (bool_decide_eq_false_2 (Z.of_nat (S n) = (-1)%Z)) by lia.
    rewrite bool_decide_eq_false_2 by (unfold max_stall_loops; lia).
    apply (reveal_constant br n Hc); unfold max_stall_loops in *; lia.
  - intros Hf.
    assert (Htotal : forall fuel prev_count stall_loops b,
              exists r b', reveal br fuel prev_count stall_loops b = (Ok r, b')).
    { clear -Hc. induction fuel as [|fuel IH]; intros prev_count stall_loops b.
      - exists false, b. reflexivity.
      - rewrite reveal_S. destruct (Hc b) as (b1 & ->). cbv zeta.
        destruct (bool_decide (max_stall_loops <= _)); eauto. }
    destruct (Htotal fuel (-1)%Z 0 b) as ([|] & b' & E); [|eauto].
    apply reveal_first_left_late in E. lia.
Qed.

Lemma reveal_constant_count_witness :
  exists log, reveal (showing 3) 11 (-1) 0 [] = (Ok true, log) /\
              length (filter (fun s => s = "poll") log) = 11.
Proof.
  destruct (reveal_constant_count (showing 3) 2
              (fun b => ex_intro _ (b ++ ["poll"]) eq_refl) 11 []) as [H _].
  destruct (H (le_n _)) as (log & E). exists log. split; [exact E|].
  vm_compute in E. injection E as <-. vm_compute. reflexivity.
Defined.

(** X17.  Every row a run adds to the results has the five cells of the
    Competitors header and names, as Search_ASIN, one of the identifiers the
    loop was given; rows gathered earlier are kept in front, unchanged. *)
Theorem competitor_rows_name_their_seed {B : Type} (br : Browser B) (fuel : nat)
    (marketplace_value : string) (asins : list string) (results : list (list cell))
    (b b' : B) (rows : list (list cell)) :
  for_asins br fuel marketplace_value asins results b = (Ok (Some rows), b') ->
  exists new, rows = results ++ new /\
    Forall (fun row => length row = length competitors_columns /\
                       exists a, a ∈ asins /\ head row = Some (CStr a)) new.
Proof.
  revert results b rows b'. induction asins as [|asin asins IH];
    intros results b rows b' H.
  - injection H as <- _. exists []. rewrite app_nil_r. split; [reflexivity | constructor].
  - cbn [for_asins] in H. unfold mbind at 1, M_bind at 1, bind at 1 in H.
    destruct (search_and_harvest br fuel marketplace_value asin b) as [[it|e] b1] eqn:E;
      [|discriminate H].
    assert (Hwiden : forall new : list (list cell),
              Forall (fun row => length row = length competitors_columns /\
                                 exists a, a ∈ asins /\ head row = Some (CStr a)) new ->
              Forall (fun row => length row = length competitors_columns /\
                                 exists a, a ∈ asin :: asins /\ head row = Some (CStr a)) new).
    { intros new Hnew. eapply Forall_impl; [exact Hnew|]. intros row (Hl & a & Ha & Hh).
      split; [exact Hl|]. exists a. split; [now apply list_elem_of_further | exact Hh]. }
    destruct it as [harvested| |]; [| |discriminate H].
    + apply IH in H as (new & -> & Hnew).
      destruct (search_and_harvest_Harvested br _ _ _ _ _ _ E) as (cards & ->).
      exists ((competitor_row marketplace_value asin <$> cards) ++ new).
      split; [now rewrite app_assoc|]. apply Forall_app. split; [|now apply Hwiden].
      apply Forall_fmap, Forall_forall. intros c _. split; [reflexivity|].
      exists asin. split; [apply list_elem_of_here | reflexivity].
    + apply IH in H as (new & -> & Hnew). exists new. split; [reflexivity | now apply Hwiden].
Qed.

Lemma competitor_rows_name_their_seed_witness :
  exists new log,
    for_asins (showing 2) 20 "amazon.com" ["B0ABCDEFGH"; "B0XYZ12345"] [] []
      = (Ok (Some ([] ++ new)), log) /\
    length new = 4 /\
    Forall (fun row => length row = length competitors_columns /\
                       exists a, a ∈ ["B0ABCDEFGH"; "B0XYZ12345"] /\
                                 head row = Some (CStr a)) new.
Proof.
  destruct (for_asins (showing 2) 20 "amazon.com" ["B0ABCDEFGH"; "B0XYZ12345"] [] [])
    as [[[rows|]|e] log] eqn:E; try (vm_compute in E; discriminate E).
  destruct (competitor_rows_name_their_seed (showing 2) 20 "amazon.com"
              ["B0ABCDEFGH"; "B0XYZ12345"] [] [] log rows E) as (new & -> & Hnew).
  exists new, log. split; [reflexivity|]. split; [|exact Hnew].
  vm_compute in E. injection E as <- _. reflexivity.
Defined.

End HarvestSpec.

(** ** scraper_competitor.py: the title fallback *)
Module TitleLineSpec.
Import Py PyFacts Pandas Competitor AdReportSpec.

Lemma first_title_line_cases lines :
  first_title_line lines = "" \/
  (first_title_line lines ∈ lines /\
   has_asin_token false (chars (first_title_line lines)) = false /\
   (5 <= String.length (first_title_line lines))%nat /\
   lower (first_title_line lines) <> "copy" /\
   lower (first_title_line lines) <> "amazon").
Proof.
  induction lines as [|l lines IH]; [now left|]. cbn [first_title_line].
  destruct (has_asin_token false (chars l)) eqn:Ea.
  { destruct IH as [IH | (Hin & IH)]; [now left | right].
    split; [now apply list_elem_of_further | exact IH]. }
  destruct (String.length l <? 5)%nat eqn:El.
  { destruct IH as [IH | (Hin & IH)]; [now left | right].
    split; [now apply list_elem_of_further | exact IH]. }
  destruct (bool_decide (lower l ∈ ["copy"; "amazon"])) eqn:Ec.
  { destruct IH as [IH | (Hin & IH)]; [now left | right].
    split; [now apply list_elem_of_further | exact IH]. }
  right. split; [apply list_elem_of_here|]. split; [exact Ea|].
  apply Nat.ltb_ge in El. split; [exact El|].
  apply bool_decide_eq_false in Ec.
  split; intros H; apply Ec; rewrite H;
    [apply list_elem_of_here | apply list_elem_of_further, list_elem_of_here].
Qed.

(** No line holds a line boundary. *)
Lemma splitlines_l_lines : forall n l, (length l <= n)%nat ->
  Forall (fun w => forallb (fun c => negb (is_linebreak c)) w = true) (splitlines_l l).
Proof.
  induction n as [|n IH]; intros l Hn.
  - destruct l; [constructor | simpl in Hn; lia].
  - destruct l as [|c l]; [constructor|]. simpl in Hn. cbn [splitlines_l].
    destruct (is_linebreak c) eqn:Ec.
    + constructor; [reflexivity|]. destruct l as [|d l]; [constructor|].
      destruct (Ascii.eqb c "013" && Ascii.eqb d "010"); apply IH; simpl in *; lia.
    + assert (H : Forall (fun w => forallb (fun c => negb (is_linebreak c)) w = true)
                         (splitlines_l l)) by (apply IH; lia).
      destruct (splitlines_l l) as [|w ws]; [repeat constructor; simpl; now rewrite Ec|].
      apply Forall_cons_1 in H as [Hw Hws].
      constructor; [simpl; now rewrite Ec, Hw | exact Hws].
Qed.

Lemma splitlines_l_one w :
  w <> [] -> forallb (fun c => negb (is_linebreak c)) w = true -> splitlines_l w = [w].
Proof.
  induction w as [|c w IH]; [congruence|]. intros _ H. simpl in H.
  apply andb_true_iff in H as [Hc Hw]. apply negb_true_iff in Hc.
  cbn [splitlines_l]. rewrite Hc. destruct w as [|d w]; [reflexivity|].
  rewrite IH by (congruence || exact Hw). reflexivity.
Qed.

Lemma lstrip_by_keeps (P : ascii -> bool) p l :
  forallb P l = true -> forallb P (lstrip_by p l) = true.
Proof.
  induction l as [|c l IH]; simpl; [reflexivity|]. intros H.
  apply andb_true_iff in H as [Hc Hl]. destruct (p c); [now apply IH|].
  simpl. now rewrite Hc, Hl.
Qed.

Lemma strip_l_keeps (P : ascii -> bool) l :
  forallb P l = true -> forallb P (strip_l l) = true.
Proof.
  intros H. unfold strip_l, rstrip_by.
  rewrite forallb_rev. apply lstrip_by_keeps. rewrite forallb_rev.
  now apply lstrip_by_keeps.
Qed.

Lemma strip_idem s : strip (strip s) = strip s.
Proof. unfold strip. now rewrite chars_str, strip_l_idem. Qed.

Lemma length_chars s : length (chars s) = String.length s.
Proof. induction s as [|c s IH]; simpl; [reflexivity | now rewrite IH]. Qed.

(** X18.  The title taken from the text of a card is empty or one of its
    lines, with the surrounding whitespace removed: one of at least five
    characters that holds no identifier standing as a word of its own and
    is not the word "amazon".  The test for "copy" never decides, since such
    a line is too short anyway.  Looking for the title in the title gives
    the title. *)
Theorem title_line_is_a_line (text : string) :
  let title := find_first_non_asin_line text in
  (title = "" \/
   ((5 <= String.length title)%nat /\
    has_asin_token false (chars title) = false /\
    lower title <> "amazon" /\ strip title = title /\
    exists l, l ∈ splitlines text /\ title = strip l)) /\
  (forall l, lower l = "copy" -> (String.length l < 5)%nat) /\
  find_first_non_asin_line title = title.
Proof.
  intros title.
  assert (Hcases :
    title = "" \/
    ((5 <= String.length title)%nat /\
     has_asin_token false (chars title) = false /\
     lower title <> "amazon" /\ strip title = title /\
     exists l, l ∈ splitlines text /\ title = strip l)).
  { unfold title, find_first_non_asin_line.
    destruct (first_title_line_cases
                (strip <$> filter (fun l => truthy (strip l) = true) (splitlines text)))
      as [E | (Hin & Ha & Hl & _ & Hz)]; [now left | right].
    apply list_elem_of_fmap in Hin as (l & E & Hin).
    apply list_elem_of_filter in Hin as [_ Hin].
    split; [exact Hl|]. split; [exact Ha|]. split; [exact Hz|].
    split; [rewrite E; apply strip_idem | eauto]. }
  split; [exact Hcases|]. split.
  { intros l H. apply (f_equal String.length) in H.
    unfold lower, lower_l in H. rewrite <- !length_chars, chars_str, length_fmap in H.
    rewrite <- length_chars, H. simpl. lia. }
  destruct Hcases as [-> | (Hl & Ha & Hz & Hs & l & Hin & E)]; [reflexivity|].
  assert (Hline : splitlines title = [title]).
  { unfold splitlines.
    rewrite splitlines_l_one; [now rewrite fmap_cons, fmap_nil, str_chars| |].
    - intros H. rewrite <- length_chars, H in Hl. simpl in Hl. lia.
    - rewrite E. unfold strip. rewrite chars_str. apply strip_l_keeps.
      unfold splitlines in Hin. apply list_elem_of_fmap in Hin as (w & -> & Hw).
      rewrite chars_str.
      pose proof (splitlines_l_lines (length (chars text)) (chars text) (le_n _)) as Hall.
      rewrite Forall_forall in Hall. now apply Hall. }
  unfold find_first_non_asin_line. rewrite Hline.
  assert (Ht : truthy title = true).
  { destruct title; [simpl in Hl; lia | reflexivity]. }
  rewrite filter_cons_True by (now rewrite Hs). rewrite filter_nil, fmap_cons, fmap_nil, Hs.
  cbn [first_title_line]. rewrite Ha.
  apply Nat.ltb_ge in Hl. rewrite Hl.
  rewrite bool_decide_eq_false_2; [reflexivity|].
  rewrite !elem_of_cons, elem_of_nil. intros [H | [H | []]]; [|now apply Hz].
  apply (f_equal String.length) in H. unfold lower, lower_l in H.
  rewrite <- !length_chars, chars_str, length_fmap, length_chars in H.
  apply Nat.ltb_ge in Hl. simpl in H. lia.
Qed.

End TitleLineSpec.

(** ** scraper_competitor.py: the marketplace value of a run *)
Module MarketplaceValueSpec.
Import Py PyFacts Pandas Eff Competitor Scenarios CompetitorSpec HarvestSpec.

Section Tracking.
Context {B : Type} (br : Browser B) (v : string).





















End Tracking.




End MarketplaceValueSpec.

(** ** scraper_products.py: availability *)
Module AvailabilitySpec.
Import Py Re Eff PyFacts ReFacts UText Products Scenarios.

Lemma is_dot_or_space_to_lower c : is_dot_or_space (to_lower c) = is_dot_or_space c.
Proof. by_cases_on_char c. Qed.

Lemma lit_i_blind l : case_blind (lit_l chr_i l).
Proof.
  induction l as [|c l IH]; [exact I|]. split; [|exact IH].
  intros x. cbn. now rewrite to_lower_idem.
Qed.

Lemma only_left_blind : case_blind pat_only_left.
Proof.
  split; [apply (lit_i_blind (chars "only"))|].
  split; [exact is_space_to_lower|]. split; [exact is_digit_to_lower|].
  split; [exact is_space_to_lower | apply (lit_i_blind (chars "left"))].
Qed.

Lemma patterns_blind pat : pat ∈ patterns -> case_blind pat.
Proof.
  unfold patterns. rewrite !elem_of_cons, elem_of_nil.
  intros [-> | [-> | [-> | [-> | []]]]]; try apply lit_i_blind.
  split; [apply only_left_blind|].
  split; [exact is_space_to_lower|]. split; [apply (lit_i_blind (chars "in"))|].
  split; [exact is_space_to_lower | apply (lit_i_blind (chars "stock"))].
Qed.

(** A word of a literal under [re.I] is the literal up to letter case. *)
Lemma Lang_lit_i l : forall w, Lang (lit_l chr_i l) w -> lower_l w = lower_l l.
Proof.
  induction l as [|c l IH]; intros w H.
  - simpl in H. now subst.
  - destruct H as (w1 & w2 & -> & (x & -> & Hx) & H2).
    apply Ascii.eqb_eq in Hx. unfold lower_l in *. csimpl.
    rewrite Hx. f_equal. now apply IH.
Qed.

Lemma lower_phrase w :
  lower_l (rstrip_by is_dot_or_space (strip_l w))
  = rstrip_by is_dot_or_space (strip_l (lower_l w)).
Proof.
  unfold strip_l, lower_l.
  rewrite (lstrip_by_fmap _ _ _ is_space_to_lower),
          (rstrip_by_fmap _ _ _ is_space_to_lower),
          (rstrip_by_fmap _ _ _ is_dot_or_space_to_lower).
  reflexivity.
Qed.

(** *** The search finds what is there *)

Lemma search_from_nonempty r l i n :
  n ∈ matches r l -> exists s e, search_from r l i = Some (s, e).
Proof.
  intros H. destruct l; simpl; destruct (matches r _) eqn:E;
    try (now apply elem_of_nil in H); eauto.
Qed.

Lemma search_from_complete r w post : Lang r w ->
  forall pre i, exists s e, search_from r (pre ++ w ++ post) i = Some (s, e).
Proof.
  intros HL. pose proof (matches_complete r w post HL) as Hin.
  induction pre as [|c pre IH]; intros i.
  - now apply (search_from_nonempty r _ i (length w)).
  - simpl. destruct (matches r (c :: _)) as [|n ns]; [apply IH | eauto].
Qed.

Lemma search_slice r l s e : search r l = Some (s, e) -> Lang r (slice l s e).
Proof.
  intros H. apply search_from_Some in H as (k & n & -> & -> & Hk & Hn).
  apply matches_sound in Hn as [_ HL]. unfold slice. simpl.
  now replace (k + n - k) with n by lia.
Qed.

Lemma found_split r l : found r l = true ->
  exists pre w post, l = pre ++ w ++ post /\ Lang r w.
Proof.
  unfold found. destruct (search r l) as [[s e]|] eqn:E; [intros _ | discriminate].
  apply search_from_Some in E as (k & n & -> & -> & Hk & Hn).
  apply matches_sound in Hn as [_ HL].
  exists (take k l), (take n (drop k l)), (drop n (drop k l)).
  now rewrite !take_drop.
Qed.

(** *** The chain of tests on the phrase *)

(** Where [only\s+\d+\s+left] is found there is a digit, so the search for
    the count cannot come back empty. *)
Lemma classify_only phrase : found pat_only_left phrase = true ->
  exists n, n <> [] /\ forallb is_digit n = true /\
    classify_ascii phrase = Ok (Some ("Only " +:+ str n +:+ " left in stock")).
Proof.
  intros Hf. unfold classify_ascii. rewrite Hf.
  apply found_split in Hf as (pre & w & post & -> & HL).
  destruct HL as (o & w1 & -> & _ & sp & w2 & -> & _ & d & w3 & -> & Hd & _).
  destruct (search_from_complete (Many1 is_digit) d (w3 ++ post) Hd (pre ++ o ++ sp) 0)
    as (s & e & Hs).
  replace ((pre ++ o ++ sp) ++ d ++ w3 ++ post)
    with (pre ++ (o ++ sp ++ d ++ w3) ++ post) in Hs
    by (now rewrite <- !app_assoc).
  fold (search (Many1 is_digit) (pre ++ (o ++ sp ++ d ++ w3) ++ post)) in Hs.
  rewrite Hs. apply search_slice in Hs as [Hne Hall]. eauto.
Qed.

Lemma classify_literal w L p :
  (L, p) ∈ [ ("currently unavailable", "Currently unavailable");
             ("out of stock", "Out of stock");
             ("in stock", "In stock") ] ->
  Lang (lit_i L) w ->
  classify_ascii (rstrip_by is_dot_or_space (strip_l w)) = Ok (Some p).
Proof.
  intros Hin HL. apply Lang_lit_i in HL.
  assert (Hf : forall pat, case_blind pat ->
            found pat (rstrip_by is_dot_or_space (strip_l w))
            = found pat (rstrip_by is_dot_or_space (strip_l (lower_l (chars L))))).
  { intros pat Hb. now rewrite <- (found_lower pat _ Hb), lower_phrase, HL. }
  unfold classify_ascii.
  rewrite (Hf pat_only_left only_left_blind), (Hf pat_unavailable (lit_i_blind _)),
          (Hf pat_out_of_stock (lit_i_blind _)), (Hf pat_in_stock (lit_i_blind _)).
  rewrite !elem_of_cons, elem_of_nil in Hin.
  destruct Hin as [[= -> ->] | [[= -> ->] | [[= -> ->] | []]]]; vm_compute; reflexivity.
Qed.

(** *** A match of the third pattern survives the trimming *)

Lemma rstrip_by_snoc p l c : p c = false -> rstrip_by p (l ++ [c]) = l ++ [c].
Proof.
  intros H. unfold rstrip_by. rewrite rev_app_distr. simpl. rewrite H.
  change (c :: rev l) with (rev [c] ++ rev l). now rewrite <- rev_app_distr, rev_involutive.
Qed.

Lemma lit_i_last L w front z :
  Lang (lit_i L) w -> lower_l (chars L) = front ++ [z] -> is_dot_or_space z = false ->
  exists front' z', w = front' ++ [z'] /\ is_dot_or_space z' = false.
Proof.
  intros HL E Hz. apply Lang_lit_i in HL. rewrite E in HL.
  apply fmap_app_inv in HL as (l1 & l2 & _ & E2 & ->).
  destruct l2 as [|z' [|? ?]]; try discriminate E2. injection E2 as ->.
  exists l1, z'. split; [reflexivity|]. now rewrite <- is_dot_or_space_to_lower.
Qed.

Lemma only_match_kept w : Lang pat_only w ->
  rstrip_by is_dot_or_space (strip_l w) = w /\ found pat_only_left w = true.
Proof.
  intros (w1 & w2 & -> & H1 & H2). split.
  - assert (Hlast : exists front z, w1 ++ w2 = front ++ [z] /\ is_dot_or_space z = false).
    { destruct H2 as [(sp1 & t1 & -> & _ & i & t2 & -> & _ & sp2 & st & -> & _ & Hst) | ->].
      - destruct (lit_i_last "stock" st (chars "stoc") "k"%char Hst eq_refl eq_refl)
          as (front & z & -> & Hz).
        exists (w1 ++ sp1 ++ i ++ sp2 ++ front), z.
        split; [now rewrite <- !app_assoc | exact Hz].
      - destruct H1 as (o & t1 & -> & _ & sp1 & t2 & -> & _ & d & t3 & -> & _
                          & sp2 & lf & -> & _ & Hlf).
        destruct (lit_i_last "left" lf (chars "lef") "t"%char Hlf eq_refl eq_refl)
          as (front & z & -> & Hz).
        exists (o ++ sp1 ++ d ++ sp2 ++ front), z.
        split; [now rewrite app_nil_r, <- !app_assoc | exact Hz]. }
    assert (Hhead : exists c rest, w1 ++ w2 = c :: rest /\ is_space c = false).
    { destruct H1 as (o & t1 & -> & Ho & _). apply Lang_lit_i in Ho.
      destruct o as [|c o]; [discriminate Ho|]. injection Ho as Hc _.
      exists c, (o ++ t1 ++ w2). split; [now rewrite <- app_assoc|].
      rewrite <- is_space_to_lower. unfold lower_l in Hc. now rewrite Hc. }
    destruct Hhead as (c & rest & E & Hc). destruct Hlast as (front & z & E' & Hz).
    unfold strip_l. rewrite E. simpl lstrip_by. rewrite Hc, <- E, E'.
    assert (Hz' : is_space z = false).
    { unfold is_dot_or_space in Hz. now apply orb_false_iff in Hz as [_ ?]. }
    now rewrite (rstrip_by_snoc _ _ _ Hz'), (rstrip_by_snoc _ _ _ Hz).
  - pose proof (matches_complete pat_only_left w1 w2 H1) as Hin.
    apply search_at_start in Hin as (e & He). unfold found. now rewrite He.
Qed.

Lemma classify_of_match pat w : pat ∈ patterns -> Lang pat w ->
  exists p, classify_ascii (rstrip_by is_dot_or_space (strip_l w)) = Ok (Some p) /\
            canonical_phrase p.
Proof.
  unfold patterns. rewrite !elem_of_cons, elem_of_nil.
  intros [-> | [-> | [-> | [-> | []]]]] HL.
  - exists "Currently unavailable". split; [|unfold canonical_phrase; tauto].
    apply (classify_literal w "currently unavailable"); [|exact HL].
    apply list_elem_of_here.
  - exists "Out of stock". split; [|unfold canonical_phrase; tauto].
    apply (classify_literal w "out of stock"); [|exact HL].
    apply list_elem_of_further, list_elem_of_here.
  - apply only_match_kept in HL as [-> Hf].
    apply classify_only in Hf as (n & Hne & Hall & ->).
    eexists. split; [reflexivity|]. unfold canonical_phrase. eauto 10.
  - exists "In stock". split; [|unfold canonical_phrase; tauto].
    apply (classify_literal w "in stock"); [|exact HL].
    do 2 apply list_elem_of_further. apply list_elem_of_here.
Qed.

Lemma first_match_Some pats low span : first_match_ascii pats low = Some span ->
  exists pat, pat ∈ pats /\ search pat low = Some span.
Proof.
  induction pats as [|pat pats IH]; simpl; [discriminate|].
  destruct (search pat low) as [sp|] eqn:E.
  - intros [= <-]. exists pat. split; [apply list_elem_of_here | exact E].
  - intros H. apply IH in H as (pat' & Hin & Hs).
    exists pat'. split; [now apply list_elem_of_further | exact Hs].
Qed.

Lemma match_phrase_canonical t :
  _match_phrase_ascii t = Ok None \/
  exists p, _match_phrase_ascii t = Ok (Some p) /\ canonical_phrase p.
Proof.
  unfold _match_phrase_ascii. destruct (truthy t); [|now left]. cbn [negb].
  destruct (first_match_ascii _ _) as [[s e]|] eqn:E; [right | now left].
  apply first_match_Some in E as (pat & Hin & Hs).
  apply search_lower_slice in Hs; [|now apply patterns_blind].
  unfold phrase_of_ascii. cbn [fst snd]. now apply (classify_of_match pat).
Qed.

Lemma canonical_truthy p : canonical_phrase p -> truthy p = true.
Proof.
  intros [-> | [-> | [-> | (n & _ & _ & ->)]]]; reflexivity.
Qed.

(** *** From ASCII text to text *)

Lemma chars_app a b : chars (a +:+ b) = chars a ++ chars b.
Proof. induction a as [|c a IH]; simpl; [reflexivity | now rewrite IH]. Qed.

Lemma ulstrip_embed p l : ulstrip (holds p) (Chr <$> l) = Chr <$> lstrip_by p l.
Proof.
  induction l as [|c l IH]; [reflexivity|]. rewrite fmap_cons. cbn [ulstrip lstrip_by holds].
  destruct (p c); [exact IH | reflexivity].
Qed.

Lemma urstrip_embed p l : urstrip (holds p) (Chr <$> l) = Chr <$> rstrip_by p l.
Proof.
  unfold urstrip, rstrip_by. now rewrite <- fmap_rev, ulstrip_embed, fmap_rev.
Qed.

Lemma usplit_cons {A} (sp : A -> bool) c l :
  usplit sp (c :: l) =
  if sp c then usplit sp l
  else match l with
       | [] => [[c]]
       | d :: _ =>
           if sp d then [c] :: usplit sp l
           else match usplit sp l with
                | w :: ws => (c :: w) :: ws
                | [] => [[c]]
                end
       end.
Proof. reflexivity. Qed.

Lemma usplit_embed l :
  usplit space (Chr <$> l) = (fun w : list ascii => Chr <$> w) <$> split_l l.
Proof.
  induction l as [|c l IH]; [reflexivity|].
  rewrite fmap_cons, usplit_cons, TokenFacts.split_l_cons.
  change (space (Chr c)) with (is_space c). destruct (is_space c); [exact IH|].
  destruct l as [|d l]; [reflexivity|].
  rewrite fmap_cons in *. change (space (Chr d)) with (is_space d).
  destruct (is_space d).
  - rewrite IH. reflexivity.
  - rewrite IH. destruct (split_l (d :: l)); reflexivity.
Qed.

Lemma ujoin_embed (sep : list ascii) (ws : list (list ascii)) :
  ujoin (Chr <$> sep) ((fun w : list ascii => Chr <$> w) <$> ws) = Chr <$> join_l sep ws.
Proof.
  induction ws as [|w ws IH]; [reflexivity|]. destruct ws as [|w' ws]; [reflexivity|].
  change (join_l sep (w :: w' :: ws)) with (w ++ sep ++ join_l sep (w' :: ws)).
  rewrite !fmap_app, <- IH. reflexivity.
Qed.

Lemma ulower_embed l : ulower (Chr <$> l) = Chr <$> lower_l l.
Proof.
  unfold ulower, lower_l. induction l as [|c l IH]; [reflexivity|].
  rewrite !fmap_cons. change ((Chr c :: (Chr <$> l)) ≫= lower_of)
    with (lower_of (Chr c) ++ ((Chr <$> l) ≫= lower_of)).
  now rewrite IH.
Qed.

Lemma uslice_embed (l : list ascii) i j : uslice (Chr <$> l) i j = Chr <$> slice l i j.
Proof. unfold uslice, slice. now rewrite fmap_take, fmap_drop. Qed.

Section Classes.
Variable class : (ascii -> bool) -> uchar -> bool.
Hypothesis class_Chr : forall p a, class p (Chr a) = p a.

Lemma uspan_len_embed p l : uspan_len class p (Chr <$> l) = span_len p l.
Proof.
  induction l as [|c l IH]; [reflexivity|]. rewrite fmap_cons.
  cbn [uspan_len span_len]. rewrite class_Chr, IH. reflexivity.
Qed.

Lemma umatches_embed r : forall l, umatches class r (Chr <$> l) = matches r l.
Proof.
  induction r as [|p|p|r1 IH1 r2 IH2|r IH]; intros l; cbn [umatches matches].
  - reflexivity.
  - destruct l as [|c l]; [reflexivity|]. rewrite fmap_cons. now rewrite class_Chr.
  - now rewrite uspan_len_embed.
  - rewrite IH1. apply bind_ext. intros n. now rewrite <- fmap_drop, IH2.
  - now rewrite IH.
Qed.

Lemma usearch_from_embed r : forall l i,
  usearch_from class r (Chr <$> l) i = search_from r l i.
Proof.
  induction l as [|c l IH]; intros i.
  - pose proof (umatches_embed r []) as H.
    change (Chr <$> @nil ascii) with (@nil uchar) in *.
    cbn [usearch_from search_from]. now rewrite H.
  - pose proof (umatches_embed r (c :: l)) as H. rewrite fmap_cons in *.
    cbn [usearch_from search_from]. rewrite H.
    destruct (matches r (c :: l)); [apply IH | reflexivity].
Qed.

Lemma usearch_embed r l : usearch class r (Chr <$> l) = search r l.
Proof. apply usearch_from_embed. Qed.

Lemma ufound_embed r l : ufound class r (Chr <$> l) = found r l.
Proof. unfold ufound, found. now rewrite usearch_embed. Qed.

End Classes.

Lemma first_match_embed pats low :
  first_match pats (Chr <$> low) = first_match_ascii pats low.
Proof.
  induction pats as [|pat pats IH]; [reflexivity|]. cbn [first_match first_match_ascii].
  rewrite (usearch_embed holds_i (fun _ _ => eq_refl)), IH. reflexivity.
Qed.

Lemma phrase_of_embed text span :
  phrase_of (Chr <$> text) span = Chr <$> phrase_of_ascii text span.
Proof.
  unfold phrase_of, phrase_of_ascii, ustrip, strip_l, dot_or_space, space.
  now rewrite uslice_embed, ulstrip_embed, !urstrip_embed.
Qed.

Lemma classify_embed phrase :
  classify (Chr <$> phrase) = embed_result (classify_ascii phrase).
Proof.
  unfold classify, classify_ascii.
  rewrite !(ufound_embed holds_i (fun _ _ => eq_refl)),
          (usearch_embed holds (fun _ _ => eq_refl)).
  destruct (found pat_only_left phrase).
  - destruct (search (Many1 is_digit) phrase) as [[s e]|]; [|reflexivity].
    cbn [embed_result]. unfold embed.
    now rewrite !chars_app, chars_str, !fmap_app, uslice_embed.
  - destruct (found pat_unavailable phrase); [reflexivity|].
    destruct (found pat_out_of_stock phrase); [reflexivity|].
    destruct (found pat_in_stock phrase); [reflexivity|].
    cbn [embed_result]. unfold embed. now rewrite chars_str.
Qed.

(** On ASCII text [_match_phrase] is the function on [string]s. *)
Lemma match_phrase_embed s :
  _match_phrase (embed s) = embed_result (_match_phrase_ascii s).
Proof.
  unfold _match_phrase_ascii. destruct s as [|c s]; [reflexivity|].
  cbn [truthy negb]. unfold embed at 1. cbn [chars list_ascii_of_string fmap list_fmap].
  cbn [_match_phrase].
  change (Chr c :: (Chr <$> list_ascii_of_string s)) with (Chr <$> chars (String c s)).
  change [Chr " "%char] with (Chr <$> [" "%char]).
  rewrite usplit_embed, ujoin_embed, ulower_embed, first_match_embed.
  destruct (first_match_ascii patterns _) as [span|]; [|reflexivity].
  now rewrite phrase_of_embed, classify_embed.
Qed.

Lemma embed_nil s : embed s = [] -> s = "".
Proof. destruct s; [reflexivity | discriminate]. Qed.

(** *** The loop over the nodes *)

Lemma scan_selectors_ascii nodes page sels :
  scan_selectors (ascii_soup nodes page) sels = Ok None \/
  exists p, scan_selectors (ascii_soup nodes page) sels = Ok (Some (embed p)) /\
            canonical_phrase p.
Proof.
  induction sels as [|sel sels IH]; [now left|].
  cbn [scan_selectors ascii_soup select_text].
  destruct (nodes sel) as [t|]; cbn [fmap option_fmap option_map]; [|exact IH].
  rewrite match_phrase_embed.
  destruct (match_phrase_canonical t) as [-> | (p & -> & Hp)]; [exact IH|].
  cbn [embed_result]. pose proof (canonical_truthy p Hp) as Ht.
  destruct p as [|c p]; [discriminate Ht|]. right. exists (String c p). split; [reflexivity|exact Hp].
Qed.

(** The first structured node with a phrase decides. *)
Lemma scan_selectors_first soup pre sel post t c p :
  (forall s, s ∈ pre ->
     match select_text soup s with
     | Some t' => _match_phrase t' = Ok None \/ _match_phrase t' = Ok (Some [])
     | None => True
     end) ->
  select_text soup sel = Some t -> _match_phrase t = Ok (Some (c :: p)) ->
  scan_selectors soup (pre ++ sel :: post) = Ok (Some (c :: p)).
Proof.
  intros Hpre Hsel Hm. induction pre as [|s pre IH]; cbn [app scan_selectors].
  - now rewrite Hsel, Hm.
  - pose proof (Hpre s (list_elem_of_here _ _)) as Hs.
    assert (IH' : scan_selectors soup (pre ++ sel :: post) = Ok (Some (c :: p))).
    { apply IH. intros s' Hs'. apply Hpre. now apply list_elem_of_further. }
    destruct (select_text soup s) as [t'|]; [|exact IH'].
    destruct Hs as [-> | ->]; exact IH'.
Qed.

Lemma scan_selectors_nothing soup sels :
  (forall s, s ∈ sels ->
     match select_text soup s with
     | Some t' => _match_phrase t' = Ok None \/ _match_phrase t' = Ok (Some [])
     | None => True
     end) ->
  scan_selectors soup sels = Ok None.
Proof.
  induction sels as [|s sels IH]; intros H; cbn [scan_selectors]; [reflexivity|].
  pose proof (H s (list_elem_of_here _ _)) as Hs.
  assert (IH' : scan_selectors soup sels = Ok None).
  { apply IH. intros s' Hs'. apply H. now apply list_elem_of_further. }
  destruct (select_text soup s) as [t'|]; [|exact IH'].
  destruct Hs as [-> | ->]; exact IH'.
Qed.

Lemma stock_not_canonical :
  ~ canonical_phrase "stock" /\ ~ canonical_phrase "urrently unavailable" /\
  ~ canonical_phrase "".
Proof.
  repeat split; intros [H | [H | [H | (n & _ & _ & H)]]]; discriminate H.
Qed.

(** C5.  The code at the failing input.  On documents whose texts are ASCII
    the extraction returns nothing or one of the four phrases of the
    docstring, the structured nodes being asked first, in the order of the
    selector list, and the page text last.  But the span of a match is found
    in the lower-cased text and cut out of the text itself, and lower-casing
    U+0130 gives two code points: for the page text "İİ in stock" the
    extraction returns "stock", for "İ currently unavailable" it returns
    "urrently unavailable", for "İ only 3 left in stock" it returns "In
    stock" and not the count, and after eight U+0130 the phrase "in stock"
    gives the empty text; none of the first, second and fourth is a phrase
    of the docstring. *)
Theorem availability_not_canonical_beyond_ascii :
  (forall nodes page,
     _extract_availability_exact (ascii_soup nodes page) = Ok None \/
     exists p, _extract_availability_exact (ascii_soup nodes page) = Ok (Some (embed p)) /\
               canonical_phrase p) /\
  (forall soup pre sel post t c p,
     selectors = pre ++ sel :: post ->
     (forall s, s ∈ pre ->
        match select_text soup s with
        | Some t' => _match_phrase t' = Ok None \/ _match_phrase t' = Ok (Some [])
        | None => True
        end) ->
     select_text soup sel = Some t -> _match_phrase t = Ok (Some (c :: p)) ->
     _extract_availability_exact soup = Ok (Some (c :: p))) /\
  (forall soup,
     (forall s, s ∈ selectors ->
        match select_text soup s with
        | Some t' => _match_phrase t' = Ok None \/ _match_phrase t' = Ok (Some [])
        | None => True
        end) ->
     _extract_availability_exact soup = _match_phrase (page_text soup)) /\
  (_extract_availability_exact
     (soup_page_only (embed "Only 3 left in stock, order soon"))
   = Ok (Some (embed "Only 3 left in stock")) /\
   _extract_availability_exact (soup_page_only (embed "Currently unavailable"))
   = Ok (Some (embed "Currently unavailable")) /\
   _extract_availability_exact (soup_page_only (embed "Widget by Acme, ships tomorrow"))
   = Ok None) /\
  (_extract_availability_exact
     (soup_page_only ([CapitalIDot; CapitalIDot] ++ embed " in stock"))
   = Ok (Some (embed "stock")) /\
   _extract_availability_exact
     (soup_with_node "#availability" ([CapitalIDot; CapitalIDot] ++ embed " in stock") [])
   = Ok (Some (embed "stock")) /\
   _extract_availability_exact
     (soup_page_only (CapitalIDot :: embed " currently unavailable"))
   = Ok (Some (embed "urrently unavailable")) /\
   _extract_availability_exact
     (soup_page_only (CapitalIDot :: embed " only 3 left in stock"))
   = Ok (Some (embed "In stock")) /\
   _extract_availability_exact
     (soup_page_only (replicate 8 CapitalIDot ++ embed " in stock"))
   = Ok (Some []) /\
   ~ canonical_phrase "stock" /\ ~ canonical_phrase "urrently unavailable" /\
   ~ canonical_phrase "").
Proof.
  split; [|split; [|split; [|split]]].
  - intros nodes page. unfold _extract_availability_exact.
    destruct (scan_selectors_ascii nodes page selectors) as [-> | (p & -> & Hp)]; [|eauto].
    cbn [ascii_soup page_text]. rewrite match_phrase_embed.
    destruct (match_phrase_canonical page) as [-> | (p & -> & Hp)]; [now left | right].
    exists p. split; [reflexivity | exact Hp].
  - intros soup pre sel post t c p E Hpre Hsel Hm. unfold _extract_availability_exact.
    now rewrite E, (scan_selectors_first soup pre sel post t c p Hpre Hsel Hm).
  - intros soup H. unfold _extract_availability_exact.
    now rewrite (scan_selectors_nothing soup selectors H).
  - repeat split; vm_compute; reflexivity.
  - split; [vm_compute; reflexivity|]. split; [vm_compute; reflexivity|].
    split; [vm_compute; reflexivity|]. split; [vm_compute; reflexivity|].
    split; [vm_compute; reflexivity|]. exact stock_not_canonical.
Qed.

End AvailabilitySpec.

(** ** scraper_products.py: the order of the availability patterns *)
Module PatternOrder.
Import Py Re Eff PyFacts ReFacts UText Products AvailabilitySpec.

Lemma found_search r l : found r l = true -> exists s e, search r l = Some (s, e).
Proof.
  unfold found. destruct (search r l) as [[s e]|]; [eauto | discriminate].
Qed.

Lemma not_found_search r l : found r l = false -> search r l = None.
Proof. unfold found. now destruct (search r l). Qed.

Lemma literal_at text s e L p :
  (L, p) ∈ [ ("currently unavailable", "Currently unavailable");
             ("out of stock", "Out of stock");
             ("in stock", "In stock") ] ->
  search (lit_i L) (lower_l text) = Some (s, e) ->
  classify_ascii (phrase_of_ascii text (s, e)) = Ok (Some p).
Proof.
  intros Hin Hs. apply search_lower_slice in Hs; [|apply lit_i_blind].
  unfold phrase_of_ascii. cbn [fst snd]. now apply (classify_literal _ L).
Qed.

Lemma first_listed_pattern_ascii (t : string) :
  truthy t = true ->
  let low := lower_l (join_l [" "%char] (split_l (chars t))) in
  (found pat_unavailable low = true ->
   _match_phrase_ascii t = Ok (Some "Currently unavailable")) /\
  (found pat_unavailable low = false -> found pat_out_of_stock low = true ->
   _match_phrase_ascii t = Ok (Some "Out of stock")) /\
  (found pat_unavailable low = false -> found pat_out_of_stock low = false ->
   found pat_only low = false -> found pat_in_stock low = true ->
   _match_phrase_ascii t = Ok (Some "In stock")) /\
  (found pat_unavailable low = false -> found pat_out_of_stock low = false ->
   found pat_only low = false -> found pat_in_stock low = false ->
   _match_phrase_ascii t = Ok None).
Proof.
  intros Ht low. unfold _match_phrase_ascii. rewrite Ht. cbn [negb]. fold low.
  unfold patterns. cbn [first_match_ascii]. split; [|split; [|split]].
  - intros H. apply found_search in H as (s & e & H). rewrite H.
    apply (literal_at _ s e "currently unavailable"); [apply list_elem_of_here | exact H].
  - intros H1 H2. apply not_found_search in H1. rewrite H1.
    apply found_search in H2 as (s & e & H2). rewrite H2.
    apply (literal_at _ s e "out of stock"); [|exact H2].
    apply list_elem_of_further, list_elem_of_here.
  - intros H1 H2 H3 H4. apply not_found_search in H1, H2, H3. rewrite H1, H2, H3.
    apply found_search in H4 as (s & e & H4). rewrite H4.
    apply (literal_at _ s e "in stock"); [|exact H4].
    do 2 apply list_elem_of_further. apply list_elem_of_here.
  - intros H1 H2 H3 H4. apply not_found_search in H1, H2, H3, H4.
    now rewrite H1, H2, H3, H4.
Qed.

(** X6.  On ASCII text the patterns are tried in the order of the list, on
    the whole text, and the first one that occurs anywhere decides:
    "currently unavailable" wins over every other phrase of the text, "out
    of stock" over the two stock phrases, and "in stock" is the answer only
    when none of the other three occurs.  When none of the four occurs the
    answer is nothing. *)
Theorem first_listed_pattern_decides (t : string) :
  truthy t = true ->
  let low := lower_l (join_l [" "%char] (split_l (chars t))) in
  (found pat_unavailable low = true ->
   _match_phrase (embed t) = Ok (Some (embed "Currently unavailable"))) /\
  (found pat_unavailable low = false -> found pat_out_of_stock low = true ->
   _match_phrase (embed t) = Ok (Some (embed "Out of stock"))) /\
  (found pat_unavailable low = false -> found pat_out_of_stock low = false ->
   found pat_only low = false -> found pat_in_stock low = true ->
   _match_phrase (embed t) = Ok (Some (embed "In stock"))) /\
  (found pat_unavailable low = false -> found pat_out_of_stock low = false ->
   found pat_only low = false -> found pat_in_stock low = false ->
   _match_phrase (embed t) = Ok None).
Proof.
  intros Ht low. destruct (first_listed_pattern_ascii t Ht) as (H1 & H2 & H3 & H4).
  rewrite match_phrase_embed. fold low in H1, H2, H3, H4.
  split; [|split; [|split]].
  - intros F1. now rewrite (H1 F1).
  - intros F1 F2. now rewrite (H2 F1 F2).
  - intros F1 F2 F3 F4. now rewrite (H3 F1 F2 F3 F4).
  - intros F1 F2 F3 F4. now rewrite (H4 F1 F2 F3 F4).
Qed.

Lemma first_listed_pattern_decides_witness :
  _match_phrase (embed "In stock soon. Only 2 left - currently  UNAVAILABLE")
    = Ok (Some (embed "Currently unavailable")) /\
  _match_phrase (embed "Only 2 left in stock; usually out of stock")
    = Ok (Some (embed "Out of stock")) /\
  _match_phrase (embed "Back in Stock") = Ok (Some (embed "In stock")) /\
  _match_phrase (embed "Ships tomorrow") = Ok None.
Proof.
  destruct (first_listed_pattern_decides
              "In stock soon. Only 2 left - currently  UNAVAILABLE" eq_refl) as (H1 & _).
  destruct (first_listed_pattern_decides
              "Only 2 left in stock; usually out of stock" eq_refl) as (_ & H2 & _).
  destruct (first_listed_pattern_decides "Back in Stock" eq_refl) as (_ & _ & H3 & _).
  destruct (first_listed_pattern_decides "Ships tomorrow" eq_refl) as (_ & _ & _ & H4).
  split; [|split; [|split]].
  - apply H1. vm_compute. reflexivity.
  - apply H2; vm_compute; reflexivity.
  - apply H3; vm_compute; reflexivity.
  - apply H4; vm_compute; reflexivity.
Defined.

End PatternOrder.

(** ** scraper_products.py: the count of "Only N left in stock" *)
Module CountSpec.
Import Py Re Eff PyFacts ReFacts UText Products AvailabilitySpec PatternOrder.

Lemma span_len_exact p (d : list ascii) c rest :
  forallb p d = true -> p c = false -> span_len p (d ++ c :: rest) = length d.
Proof.
  intros Hd Hc. induction d as [|x d IH]; simpl; [now rewrite Hc|].
  simpl in Hd. apply andb_true_iff in Hd as [Hx Hd]. now rewrite Hx, IH.
Qed.

(** The leftmost run of a class, after characters outside it. *)
Lemma search_from_run p (pre d : list ascii) c rest : forall i,
  forallb (fun x => negb (p x)) pre = true ->
  d <> [] -> forallb p d = true -> p c = false ->
  search_from (Many1 p) (pre ++ d ++ c :: rest) i
  = Some (i + length pre, i + length pre + length d).
Proof.
  intros i Hpre Hne Hd Hc. revert i. induction pre as [|x pre IH]; intros i.
  - simpl app. destruct d as [|y d]; [congruence|].
    assert (E : matches (Many1 p) ((y :: d) ++ c :: rest)
                = length (y :: d) :: rev (seq 1 (length d))).
    { cbn [matches]. rewrite (span_len_exact p (y :: d) c rest Hd Hc).
      cbn [length]. apply countdown_S. }
    change ((y :: d) ++ c :: rest) with (y :: (d ++ c :: rest)) in *.
    cbn [search_from]. rewrite E. simpl. f_equal. f_equal; lia.
  - simpl in Hpre. apply andb_true_iff in Hpre as [Hx Hpre]. apply negb_true_iff in Hx.
    change ((x :: pre) ++ d ++ c :: rest) with (x :: (pre ++ d ++ c :: rest)).
    cbn [search_from matches span_len]. rewrite Hx. cbn [seq rev].
    rewrite (IH Hpre). simpl. f_equal. f_equal; lia.
Qed.

Lemma lit_i_no_digit L (w : list ascii) :
  forallb (fun x => negb (is_digit x)) (lower_l (chars L)) = true ->
  Lang (lit_i L) w -> forallb (fun x => negb (is_digit x)) w = true.
Proof.
  intros HL Hw. apply Lang_lit_i in Hw. rewrite <- Hw in HL. clear Hw.
  unfold lower_l in HL. induction w as [|x w IH]; [reflexivity|].
  rewrite fmap_cons in HL. simpl in HL. apply andb_true_iff in HL as [Hx HL].
  simpl. rewrite is_digit_to_lower in Hx. now rewrite Hx, IH.
Qed.

Lemma spaces_no_digit (w : list ascii) :
  forallb is_space w = true -> forallb (fun x => negb (is_digit x)) w = true.
Proof.
  induction w as [|x w IH]; [reflexivity|]. simpl. intros H.
  apply andb_true_iff in H as [Hx Hw]. rewrite (IH Hw), andb_true_r.
  revert Hx. by_cases_on_char x.
Qed.

Lemma space_not_digit c : is_space c = true -> is_digit c = false.
Proof. by_cases_on_char c. Qed.

Lemma count_in_the_span (text : list ascii) (s e : nat) :
  search pat_only (lower_l text) = Some (s, e) ->
  exists o sp1 d sp2 rest,
    slice text s e = o ++ sp1 ++ d ++ sp2 ++ rest /\
    lower_l o = chars "only" /\
    sp1 <> [] /\ forallb is_space sp1 = true /\
    d <> [] /\ forallb is_digit d = true /\
    sp2 <> [] /\ forallb is_space sp2 = true /\
    lower_l (take 4 rest) = chars "left" /\
    classify_ascii (phrase_of_ascii text (s, e))
    = Ok (Some ("Only " +:+ str d +:+ " left in stock")).
Proof.
  intros Hs. apply search_lower_slice in Hs; [|apply patterns_blind; unfold patterns;
    do 2 apply list_elem_of_further; apply list_elem_of_here].
  unfold phrase_of_ascii. cbn [fst snd].
  destruct (only_match_kept _ Hs) as [Hkeep Hfound]. rewrite Hkeep.
  destruct Hs as (w1 & w2 & E & H1 & H2).
  destruct H1 as (o & t1 & -> & Ho & sp1 & t2 & -> & [Hsp1 Hsp1'] & d & t3 & ->
                    & [Hd Hd'] & sp2 & lf & -> & [Hsp2 Hsp2'] & Hlf).
  exists o, sp1, d, sp2, (lf ++ w2).
  assert (Eo : lower_l o = chars "only") by (now apply Lang_lit_i in Ho).
  assert (Elf : lower_l (take 4 (lf ++ w2)) = chars "left").
  { pose proof (Lang_lit_i _ _ Hlf) as H. change (lower_l (chars "left")) with (chars "left") in H.
    assert (Hlen : length lf = 4).
    { apply (f_equal (@length ascii)) in H. unfold lower_l in H.
      now rewrite length_fmap in H. }
    rewrite take_app_le by lia. rewrite firstn_all2 by lia. exact H. }
  split; [rewrite E; now rewrite <- !app_assoc|].
  repeat (split; [assumption|]).
  unfold classify_ascii. rewrite E in Hfound |- *. rewrite Hfound.
  destruct sp2 as [|c sp2]; [congruence|].
  simpl in Hsp2'. apply andb_true_iff in Hsp2' as [Hc _].
  assert (Hpre : forallb (fun x => negb (is_digit x)) (o ++ sp1) = true).
  { rewrite forallb_app. apply andb_true_iff. split.
    - now apply (lit_i_no_digit "only").
    - now apply spaces_no_digit. }
  pose proof (search_from_run is_digit (o ++ sp1) d c (sp2 ++ lf ++ w2) 0
                Hpre Hd Hd' (space_not_digit c Hc)) as Hrun.
  replace ((o ++ sp1) ++ d ++ c :: sp2 ++ lf ++ w2)
    with ((o ++ sp1 ++ d ++ (c :: sp2) ++ lf) ++ w2) in Hrun
    by (now rewrite <- !app_assoc).
  unfold search. rewrite Hrun. unfold slice. cbn [Nat.add].
  replace (length (o ++ sp1) + length d - length (o ++ sp1)) with (length d) by lia.
  assert (Eq : (o ++ sp1 ++ d ++ (c :: sp2) ++ lf) ++ w2
               = (o ++ sp1) ++ d ++ ((c :: sp2) ++ lf ++ w2))
    by (now rewrite <- !app_assoc).
  rewrite Eq, drop_app_length, take_app_length. reflexivity.
Qed.

(** X19.  On ASCII text the count of "Only N left in stock" is the number
    of the text: whenever the third pattern is the one that decides, matching
    at the span [(s, e)], the matched text reads "only", whitespace, a run
    of digits, whitespace, "left" (in any letter case, and maybe "in stock"
    after it), and the answer carries exactly that run of digits, leading
    zeros included. *)
Theorem count_is_the_number_in_the_text (t : string) (s e : nat) :
  truthy t = true ->
  let text := join_l [" "%char] (split_l (chars t)) in
  found pat_unavailable (lower_l text) = false ->
  found pat_out_of_stock (lower_l text) = false ->
  search pat_only (lower_l text) = Some (s, e) ->
  exists o sp1 d sp2 rest,
    slice text s e = o ++ sp1 ++ d ++ sp2 ++ rest /\
    lower_l o = chars "only" /\
    sp1 <> [] /\ forallb is_space sp1 = true /\
    d <> [] /\ forallb is_digit d = true /\
    sp2 <> [] /\ forallb is_space sp2 = true /\
    lower_l (take 4 rest) = chars "left" /\
    _match_phrase (embed t)
    = Ok (Some (embed ("Only " +:+ str d +:+ " left in stock"))).
Proof.
  intros Ht text F1 F2 Hs.
  destruct (count_in_the_span text s e Hs)
    as (o & sp1 & d & sp2 & rest & E & Ho & H1 & H2 & H3 & H4 & H5 & H6 & H7 & Hc).
  exists o, sp1, d, sp2, rest. repeat (split; [assumption|]).
  rewrite match_phrase_embed. unfold _match_phrase_ascii. rewrite Ht. cbn [negb].
  fold text. unfold patterns. cbn [first_match_ascii].
  apply not_found_search in F1, F2. rewrite F1, F2, Hs, Hc. reflexivity.
Qed.

Lemma count_is_the_number_in_the_text_witness :
  exists d, d <> [] /\ forallb is_digit d = true /\
    _match_phrase (embed "Hurry: ONLY  007 left  in STOCK, order soon")
    = Ok (Some (embed ("Only " +:+ str d +:+ " left in stock"))).
Proof.
  assert (Hs : search pat_only
                 (lower_l (join_l [" "%char]
                    (split_l (chars "Hurry: ONLY  007 left  in STOCK, order soon"))))
               = Some (7, 29)) by (vm_compute; reflexivity).
  assert (F1 : found pat_unavailable
                 (lower_l (join_l [" "%char]
                    (split_l (chars "Hurry: ONLY  007 left  in STOCK, order soon"))))
               = false) by (vm_compute; reflexivity).
  assert (F2 : found pat_out_of_stock
                 (lower_l (join_l [" "%char]
                    (split_l (chars "Hurry: ONLY  007 left  in STOCK, order soon"))))
               = false) by (vm_compute; reflexivity).
  destruct (count_is_the_number_in_the_text
              "Hurry: ONLY  007 left  in STOCK, order soon" 7 29 eq_refl F1 F2 Hs)
    as (o & sp1 & d & sp2 & rest & _ & _ & _ & _ & Hne & Hd & _ & _ & _ & Hc).
  exists d. split; [exact Hne|]. split; [exact Hd | exact Hc].
Defined.

End CountSpec.
